(** * trademarkapi: a shallow embedding of [backend.py] and
    [scripts/build_index.py], and the properties of its specification.

    Layout: the first part holds the model (Python's built-ins the code
    relies on, then one module per source file); the second part holds the
    lemmas and the theorems.

    Conventions of the model.
    - A Python [str] is a [string]; a character is a code point in 0..255
      (the Latin-1 range), on which [lower], [isspace] and the regular
      expression classes of the program are modelled without approximation.
    - A Python value that can be [None] where the code writes [x or ""] is
      an [option string].
    - A Python [float] is a [spec_float] at precision 53 and exponent bound
      1024 (binary64), with the operations of the Standard Library's
      [SpecFloat]. *)

From Stdlib Require Import String Ascii List ZArith NArith Bool Lia.
From Stdlib Require Import Floats.SpecFloat DecimalString Sorting.Permutation.
Import ListNotations.

Open Scope string_scope.
Open Scope Z_scope.

(* ================================================================== *)
(** * Part I: the model                                                 *)
(* ================================================================== *)

(** ** Python built-ins on [str] *)

Module Py.

(** [ord(c)] and [chr(n)] *)
Definition code (c : ascii) : Z := Z.of_N (N_of_ascii c).

Definition chr (n : Z) : ascii := ascii_of_N (Z.to_N n).

Definition between (lo hi : Z) (c : ascii) : bool :=
  (lo <=? code c) && (code c <=? hi).

(** [c.isspace()] and the class [\s] of [re] on a [str] pattern: on code
    points below 256 these are TAB..CR, FS..US, SPACE, NEL and NBSP. *)
Definition isspace (c : ascii) : bool :=
  between 9 13 c || between 28 32 c || (code c =? 133) || (code c =? 160).

(** [c.lower()]: A-Z, and the Latin-1 capitals 0xC0..0xDE except the
    multiplication sign 0xD7, move up by 32; nothing else changes. *)
Definition lower_char (c : ascii) : ascii :=
  if between 65 90 c || (between 192 222 c && negb (code c =? 215))
  then chr (code c + 32) else c.

(** [s.lower()] *)
Fixpoint lower (s : string) : string :=
  match s with
  | EmptyString => EmptyString
  | String c s' => String (lower_char c) (lower s')
  end.

(** [s.lstrip()] and [s.rstrip()]: white space is what [isspace] accepts. *)
Fixpoint lstrip (s : string) : string :=
  match s with
  | EmptyString => EmptyString
  | String c s' => if isspace c then lstrip s' else s
  end.

Fixpoint rstrip (s : string) : string :=
  match s with
  | EmptyString => EmptyString
  | String c s' =>
    match rstrip s' with
    | EmptyString => if isspace c then EmptyString else String c EmptyString
    | r => String c r
    end
  end.

(** [s.strip()] *)
Definition strip (s : string) : string := rstrip (lstrip s).

(** [re.sub(cls+, " ", s)]: every maximal run of characters of the class
    becomes one space.  [in_run] tells that the previous character was part
    of a run that has been replaced already. *)
Fixpoint re_sub_runs (cls : ascii -> bool) (in_run : bool) (s : string) : string :=
  match s with
  | EmptyString => EmptyString
  | String c s' =>
      if cls c
      then if in_run then re_sub_runs cls true s' else String " " (re_sub_runs cls true s')
      else String c (re_sub_runs cls false s')
  end.

(** [x or ""] *)
Definition or_empty (x : option string) : string :=
  match x with
  | Some s => s
  | None => ""
  end.

(** Truth value of a [str]: [bool(s)], as in [if s:] *)
Definition truthy (s : string) : bool :=
  match s with
  | EmptyString => false
  | _ => true
  end.

(** [s.startswith(p)] *)
Fixpoint startswith (p s : string) : bool :=
  match p, s with
  | EmptyString, _ => true
  | String a p', String b s' => Ascii.eqb a b && startswith p' s'
  | String _ _, EmptyString => false
  end.

(** [p in s] for two [str]: [p] occurs in [s] as a contiguous substring. *)
Fixpoint contains (p s : string) : bool :=
  startswith p s ||
  match s with
  | EmptyString => false
  | String _ s' => contains p s'
  end.

(** [x in xs] for a list or set of [str] *)
Definition mem (x : string) (xs : list string) : bool :=
  existsb (String.eqb x) xs.

(** [x or y] for two values that may be [None] or a [str]. *)
Definition or_else (x y : option string) : option string :=
  match x with
  | Some s => if truthy s then x else y
  | None => y
  end.

(** Truth value of a value that may be [None] or a [str]. *)
Definition truthy_opt (x : option string) : bool :=
  match x with
  | Some s => truthy s
  | None => false
  end.

(** [s.split(sep)] for a separator of one character. *)
Fixpoint split (sep : ascii) (s : string) : list string :=
  match s with
  | EmptyString => [EmptyString]
  | String c s' =>
      if Ascii.eqb c sep then EmptyString :: split sep s'
      else match split sep s' with
           | w :: ws => String c w :: ws
           | [] => [String c EmptyString]
           end
  end.

(** [[p for p in re.split(r"[^0-9]+", s) if p]]: the maximal runs of the
    digits 0-9 of [s]. *)
Fixpoint digit_runs (s : string) : list string :=
  match s with
  | EmptyString => []
  | String c s' =>
      if between 48 57 c
      then match s' with
           | String d _ =>
               if between 48 57 d
               then match digit_runs s' with
                    | w :: ws => String c w :: ws
                    | [] => [String c EmptyString]
                    end
               else String c EmptyString :: digit_runs s'
           | EmptyString => [String c EmptyString]
           end
      else digit_runs s'
  end.

(** [l.sort(key=..., reverse=True)]: the stable sort in descending order
    of the keys; [lt x y] is [key(x) < key(y)].  Elements with equal keys
    keep their order. *)
Fixpoint insert_desc {A : Type} (lt : A -> A -> bool) (x : A) (l : list A) : list A :=
  match l with
  | [] => [x]
  | y :: l' => if lt x y then y :: insert_desc lt x l' else x :: l
  end.

Definition sort_desc {A : Type} (lt : A -> A -> bool) (l : list A) : list A :=
  fold_right (insert_desc lt) [] l.

(** [c.upper()] as a text: a-z and the Latin-1 small letters 0xE0..0xFE
    except the division sign 0xF7 move down by 32, and the sharp s becomes
    "SS".  The capitals of 0xB5 and 0xFF lie beyond code point 255; the
    model keeps these two letters, which no test of the program tells from
    their capitals. *)
Definition upper_char (c : ascii) : string :=
  if between 97 122 c || (between 224 254 c && negb (code c =? 247))
  then String (chr (code c - 32)) EmptyString
  else if code c =? 223 then "SS"
  else String c EmptyString.

Fixpoint upper (s : string) : string :=
  match s with
  | EmptyString => EmptyString
  | String c s' => upper_char c ++ upper s'
  end.

(** [s[n:]] and [s[:n]] for [n >= 0]. *)
Fixpoint drop (n : nat) (s : string) : string :=
  match n, s with
  | O, _ => s
  | S n', String _ s' => drop n' s'
  | S _, EmptyString => EmptyString
  end.

Fixpoint take (n : nat) (s : string) : string :=
  match n, s with
  | S n', String c s' => String c (take n' s')
  | _, _ => EmptyString
  end.

(** [sep.join(l)] *)
Fixpoint join (sep : string) (l : list string) : string :=
  match l with
  | [] => EmptyString
  | [x] => x
  | x :: l' => x ++ sep ++ join sep l'
  end.

(** *** [dict] with [str] keys

    The items in the order in which their keys were first set. *)
Definition dict (V : Type) : Type := list (string * V).

Fixpoint dict_set {V : Type} (d : dict V) (k : string) (v : V) : dict V :=
  match d with
  | [] => [(k, v)]
  | (k', v') :: d' =>
      if String.eqb k' k then (k', v) :: d' else (k', v') :: dict_set d' k v
  end.

(** [d.get(k)] *)
Fixpoint dict_get {V : Type} (d : dict V) (k : string) : option V :=
  match d with
  | [] => None
  | (k', v) :: d' => if String.eqb k' k then Some v else dict_get d' k
  end.

(** [dict(zip(keys, values))] *)
Definition dict_zip {V : Type} (keys : list string) (values : list V) : dict V :=
  fold_left (fun d kv => dict_set d (fst kv) (snd kv)) (combine keys values) [].

(** [c.isalpha()] on code points below 256: the ASCII letters, the two
    ordinal indicators, the micro sign and the Latin-1 letters. *)
Definition isalpha (c : ascii) : bool :=
  between 65 90 c || between 97 122 c
  || (code c =? 170) || (code c =? 181) || (code c =? 186)
  || between 192 214 c || between 216 246 c || between 248 255 c.

(** ["".join(ch for ch in s if p(ch))] *)
Fixpoint filter_chars (p : ascii -> bool) (s : string) : string :=
  match s with
  | EmptyString => EmptyString
  | String c s' => if p c then String c (filter_chars p s') else filter_chars p s'
  end.

(** [l[i]] for a list: a negative [i] counts from the end; [None] stands
    for the [IndexError] of an index out of range. *)
Definition list_index {A : Type} (l : list A) (i : Z) : option A :=
  let n := Z.of_nat (length l) in
  let j := if i <? 0 then i + n else i in
  if (0 <=? j) && (j <? n) then nth_error l (Z.to_nat j) else None.

(** *** Exceptions *)

Inductive exn : Type :=
| ValueError
| OverflowError
| RuntimeError
| IntegrityError.

(** The outcome of a call that may raise. *)
Inductive outcome (A : Type) : Type :=
| Ok (a : A)
| Raised (e : exn).

Arguments Ok {A} a.
Arguments Raised {A} e.

(** Sequencing of calls that may raise: the first exception ends the
    sequence. *)
Definition bind {A B : Type} (x : outcome A) (k : A -> outcome B) : outcome B :=
  match x with
  | Ok a => k a
  | Raised e => Raised e
  end.

(** *** [datetime.date] *)

Record date : Type := mkdate { year : Z; month : Z; day : Z }.

Definition is_leap (y : Z) : bool :=
  (y mod 4 =? 0) && (negb (y mod 100 =? 0) || (y mod 400 =? 0)).

Definition days_in_month (y m : Z) : Z :=
  if (m =? 2) && is_leap y then 29
  else nth (Z.to_nat m) [-1; 31; 28; 31; 30; 31; 30; 31; 31; 30; 31; 30; 31] 0.

Definition days_before_year (y : Z) : Z :=
  let y1 := y - 1 in y1 * 365 + y1 / 4 - y1 / 100 + y1 / 400.

Definition days_before_month (y m : Z) : Z :=
  nth (Z.to_nat m) [-1; 0; 31; 59; 90; 120; 151; 181; 212; 243; 273; 304; 334] 0
  + (if (2 <? m) && is_leap y then 1 else 0).

(** What the constructor [date(y, m, d)] accepts; anything else raises
    [ValueError].  [MINYEAR] is 1 and [MAXYEAR] is 9999. *)
Definition valid_date (d : date) : bool :=
  (1 <=? year d) && (year d <=? 9999) &&
  (1 <=? month d) && (month d <=? 12) &&
  (1 <=? day d) && (day d <=? days_in_month (year d) (month d)).

(** [d.toordinal()]: 1 for 0001-01-01. *)
Definition toordinal (d : date) : Z :=
  days_before_year (year d) + days_before_month (year d) (month d) + day d.

(** [date.max.toordinal()] *)
Definition MAXORDINAL : Z := 3652059.

(** [date.fromordinal(n)], the algorithm of [datetime._ord2ymd]. *)
Definition fromordinal (n : Z) : date :=
  let n := n - 1 in
  let n400 := n / 146097 in
  let n := n mod 146097 in
  let n100 := n / 36524 in
  let n := n mod 36524 in
  let n4 := n / 1461 in
  let n := n mod 1461 in
  let n1 := n / 365 in
  let n := n mod 365 in
  let y := n400 * 400 + 1 + n100 * 100 + n4 * 4 + n1 in
  if (n1 =? 4) || (n100 =? 4) then mkdate (y - 1) 12 31
  else
    let leapyear := (n1 =? 3) && (negb (n4 =? 24) || (n100 =? 3)) in
    let m := Z.shiftr (n + 50) 5 in
    let preceding :=
      nth (Z.to_nat m) [-1; 0; 31; 59; 90; 120; 151; 181; 212; 243; 273; 304; 334] 0
      + (if (2 <? m) && leapyear then 1 else 0) in
    if n <? preceding
    then
      let m' := m - 1 in
      let preceding' :=
        preceding
        - (nth (Z.to_nat m') [-1; 31; 28; 31; 30; 31; 30; 31; 31; 30; 31; 30; 31] 0
           + (if (m' =? 2) && leapyear then 1 else 0)) in
      mkdate y m' (n - preceding' + 1)
    else mkdate y m (n - preceding + 1).

(** [d1 < d2] on dates compares (year, month, day) lexicographically. *)
Definition date_ltb (a b : date) : bool :=
  (year a <? year b)
  || ((year a =? year b)
      && ((month a <? month b) || ((month a =? month b) && (day a <? day b)))).

(** The decimal digit of a value below 10. *)
Definition digit_char (n : Z) : ascii := chr (48 + n).

(** ["%04d" % n] and ["%02d" % n] for the values a date holds. *)
Definition fmt04 (n : Z) : string :=
  String (digit_char (n / 1000)) (String (digit_char (n / 100 mod 10))
    (String (digit_char (n / 10 mod 10)) (String (digit_char (n mod 10)) ""))).

Definition fmt02 (n : Z) : string :=
  String (digit_char (n / 10)) (String (digit_char (n mod 10)) "").

(** [d.isoformat()], that is ["%04d-%02d-%02d" % (year, month, day)]. *)
Definition isoformat (d : date) : string :=
  fmt04 (year d) ++ "-" ++ fmt02 (month d) ++ "-" ++ fmt02 (day d).

(** *** [datetime.strptime(s, "%Y-%m-%d")]

    [_strptime] turns the format into the regular expression
<<
    (?P<Y>\d\d\d\d)-(?P<m>1[0-2]|0[1-9]|[1-9])-(?P<d>3[0-1]|[1-2]\d|0[1-9]|[1-9]| [1-9])
>>
    matches it at the start of the text, raises [ValueError] when it does
    not match or when text remains after the match, and then builds the
    date, which raises [ValueError] when the day does not exist.  On code
    points below 256 the class [\d] is 0-9. *)

Definition is_digit (c : ascii) : bool := between 48 57 c.

Definition digit (c : ascii) : Z := code c - 48.

(** The alternatives of a group that match at the start of [s], in the
    order the regular expression tries them, each with its value and the
    text left after it. *)
Definition alts_month (s : string) : list (Z * string) :=
  (match s with
   | String a (String b r) =>
       if Ascii.eqb a "1" && between 48 50 b then [(10 + digit b, r)] else []
   | _ => []
   end) ++
  (match s with
   | String a (String b r) =>
       if Ascii.eqb a "0" && between 49 57 b then [(digit b, r)] else []
   | _ => []
   end) ++
  (match s with
   | String a r => if between 49 57 a then [(digit a, r)] else []
   | _ => []
   end).

Definition alts_day (s : string) : list (Z * string) :=
  (match s with
   | String a (String b r) =>
       if Ascii.eqb a "3" && between 48 49 b then [(30 + digit b, r)] else []
   | _ => []
   end) ++
  (match s with
   | String a (String b r) =>
       if between 49 50 a && is_digit b then [(10 * digit a + digit b, r)] else []
   | _ => []
   end) ++
  (match s with
   | String a (String b r) =>
       if Ascii.eqb a "0" && between 49 57 b then [(digit b, r)] else []
   | _ => []
   end) ++
  (match s with
   | String a r => if between 49 57 a then [(digit a, r)] else []
   | _ => []
   end) ++
  (match s with
   | String a (String b r) =>
       if Ascii.eqb a " " && between 49 57 b then [(digit b, r)] else []
   | _ => []
   end).

(** The first element of a list of attempts that succeeds: the
    backtracking of the regular expression engine. *)
Fixpoint first_success {A B : Type} (f : A -> option B) (l : list A) : option B :=
  match l with
  | [] => None
  | x :: l' => match f x with Some y => Some y | None => first_success f l' end
  end.

(** The literal [-] of the format. *)
Definition expect_dash (s : string) : option string :=
  match s with
  | String c r => if Ascii.eqb c "-" then Some r else None
  | EmptyString => None
  end.

(** The match of the whole expression: the groups' values and the text
    left after the match.  Nothing follows the day group, so its first
    alternative that matches is the one taken. *)
Definition match_ymd (s : string) : option (Z * Z * Z * string) :=
  match s with
  | String y1 (String y2 (String y3 (String y4 r0))) =>
      if is_digit y1 && is_digit y2 && is_digit y3 && is_digit y4
      then
        let y := 1000 * digit y1 + 100 * digit y2 + 10 * digit y3 + digit y4 in
        match expect_dash r0 with
        | None => None
        | Some r1 =>
            first_success
              (fun mr : Z * string =>
                 match expect_dash (snd mr) with
                 | None => None
                 | Some r2 =>
                     match alts_day r2 with
                     | [] => None
                     | (d, r3) :: _ => Some (y, fst mr, d, r3)
                     end
                 end)
              (alts_month r1)
        end
      else None
  | _ => None
  end.

(** [datetime.strptime(s, "%Y-%m-%d").date()]; [None] stands for the
    [ValueError] it raises. *)
Definition strptime_ymd (s : string) : option date :=
  match match_ymd s with
  | Some (y, m, d, EmptyString) =>
      let dt := mkdate y m d in
      if valid_date dt then Some dt else None
  | _ => None
  end.

(** [date + timedelta(days=n)]: [timedelta] refuses more than 999999999
    days, and the sum must be a day between [date.min] and [date.max];
    both failures are an [OverflowError]. *)
Definition date_add_days (d : date) (n : Z) : outcome date :=
  if (n <? -999999999) || (999999999 <? n) then Raised OverflowError
  else
    let o := toordinal d + n in
    if (0 <? o) && (o <=? MAXORDINAL) then Ok (fromordinal o)
    else Raised OverflowError.

(** *** [float]

    A [float] is a binary64 number.  [float(s)] and a literal of the
    source denote the double nearest to the decimal they spell (ties to
    even), which is the correctly rounded quotient of two integers. *)

Definition float : Type := spec_float.

Definition prec : Z := 53.
Definition emax : Z := 1024.

Definition fdiv (x y : float) : float := SFdiv prec emax x y.
Definition fmul (x y : float) : float := SFmul prec emax x y.

(** [x <= y], [x < y], [x >= y] on floats: false when either is a NaN. *)
Definition fle (x y : float) : bool := SFleb x y.
Definition flt (x y : float) : bool := SFltb x y.
Definition fge (x y : float) : bool := SFleb y x.

(** The double nearest to [num / den], with the sign [neg]. *)
Definition float_of_ratio (neg : bool) (num den : positive) : float :=
  fdiv (S754_finite neg num 0) (S754_finite false den 0).

(** [float(n)] for an [int]. *)
Definition float_of_Z (n : Z) : float :=
  match n with
  | Z0 => S754_zero false
  | Zpos p => float_of_ratio false p 1
  | Zneg p => float_of_ratio true p 1
  end.

(** The double nearest to [m * 10^e], of sign [neg]. *)
Definition float_of_decimal (neg : bool) (m e : Z) : float :=
  match m with
  | Zpos p =>
      if 0 <=? e then float_of_ratio neg (p * Z.to_pos (10 ^ e)) 1
      else float_of_ratio neg p (Z.to_pos (10 ^ (- e)))
  | _ => S754_zero neg
  end.

(** The rule of [float] and [int] for underscores: one may stand between
    two digits, nowhere else; they are then dropped.  [prev] is the
    character before [s]. *)
Fixpoint drop_underscores (prev : ascii) (s : string) : option string :=
  match s with
  | EmptyString => if Ascii.eqb prev "_" then None else Some EmptyString
  | String c s' =>
      if Ascii.eqb c "_"
      then if is_digit prev then drop_underscores c s' else None
      else if Ascii.eqb prev "_" && negb (is_digit c) then None
           else option_map (String c) (drop_underscores c s')
  end.

Fixpoint read_digits (s : string) (acc cnt : Z) : Z * Z * string :=
  match s with
  | String c r =>
      if is_digit c then read_digits r (10 * acc + digit c) (cnt + 1) else (acc, cnt, s)
  | EmptyString => (acc, cnt, s)
  end.

Definition read_sign (s : string) : bool * string :=
  match s with
  | String c r =>
      if Ascii.eqb c "-" then (true, r)
      else if Ascii.eqb c "+" then (false, r) else (false, s)
  | EmptyString => (false, s)
  end.

(** The text after the mantissa: nothing, or [e] or [E], an optional sign
    and at least one digit, up to the end. *)
Definition read_exponent (s : string) : option Z :=
  match s with
  | EmptyString => Some 0
  | String c r =>
      if Ascii.eqb c "e" || Ascii.eqb c "E"
      then
        let '(neg, r1) := read_sign r in
        let '(v, cnt, r2) := read_digits r1 0 0 in
        if (0 <? cnt) && negb (truthy r2) then Some (if neg then - v else v) else None
      else None
  end.

(** [float(s)] for a [str]; [None] stands for the [ValueError] it raises.
    The grammar: white space around; an optional sign; then [inf],
    [infinity] or [nan] in any case, or digits with an optional point and
    an optional exponent, at least one digit before the exponent. *)
Definition float_of_str (s : string) : option float :=
  match drop_underscores (chr 0) (strip s) with
  | None => None
  | Some t =>
      let '(neg, r) := read_sign t in
      let low := lower r in
      if String.eqb low "inf" || String.eqb low "infinity" then Some (S754_infinity neg)
      else if String.eqb low "nan" then Some S754_nan
      else
        let '(m1, c1, r1) := read_digits r 0 0 in
        let '(m, c2, r2) :=
          match r1 with
          | String c r' => if Ascii.eqb c "." then read_digits r' m1 0 else (m1, 0, r1)
          | EmptyString => (m1, 0, r1)
          end in
        if 0 <? c1 + c2
        then match read_exponent r2 with
             | Some e => Some (float_of_decimal neg m (e - c2))
             | None => None
             end
        else None
  end.

(** A decimal literal of the source, [m * 10^e] with [m >= 0]. *)
Definition lit (m e : Z) : float := float_of_decimal false m e.

(** [round(x, ndigits)] for [ndigits >= 0]: the decimal with [ndigits]
    places nearest to the value of [x], ties to the even one, and then the
    double nearest to that decimal. *)
Definition round_half_even (num den : Z) : Z :=
  let q := num / den in
  let r := num mod den in
  match 2 * r ?= den with
  | Lt => q
  | Gt => q + 1
  | Eq => if Z.even q then q else q + 1
  end.

Definition round_ndigits (x : float) (ndigits : Z) : float :=
  match x with
  | S754_finite neg m e =>
      let scaled :=
        if 0 <=? e
        then round_half_even (Zpos m * 2 ^ e * 10 ^ ndigits) 1
        else round_half_even (Zpos m * 10 ^ ndigits) (2 ^ (- e)) in
      float_of_decimal neg scaled (- ndigits)
  | _ => x
  end.

(** [int(s)] for a [str], in base 10; [None] stands for the [ValueError]
    it raises.  White space around, an optional sign, digits, with single
    underscores between digits. *)
Definition int_of_str (s : string) : option Z :=
  match drop_underscores (chr 0) (strip s) with
  | None => None
  | Some t =>
      let '(neg, r) := read_sign t in
      let '(v, cnt, rest) := read_digits r 0 0 in
      if (0 <? cnt) && negb (truthy rest) then Some (if neg then - v else v) else None
  end.

(** [str(n)] for an [int]. *)
Definition str_of_Z (n : Z) : string := NilZero.string_of_int (Z.to_int n).

(** [int(x)] for a float: the integer part, towards zero; a NaN raises
    [ValueError] and an infinity [OverflowError]. *)
Definition int_of_float (x : float) : outcome Z :=
  match x with
  | S754_nan => Raised ValueError
  | S754_infinity _ => Raised OverflowError
  | S754_zero _ => Ok 0
  | S754_finite neg m e =>
      let a := if 0 <=? e then Zpos m * 2 ^ e else Zpos m / 2 ^ (- e) in
      Ok (if neg then - a else a)
  end.

(** *** [difflib.SequenceMatcher(None, a, b).ratio()]

    Sequences are lists of characters and positions are counted from 0. *)

(** With [autojunk], the default, a character of [b] is "popular", and is
    left out of the index of [b], when [b] has 200 elements or more and
    holds it more than [len(b) // 100 + 1] times. *)
Definition popular (b : list ascii) (c : ascii) : bool :=
  let n := length b in
  (200 <=? n)%nat && (n / 100 + 1 <? count_occ ascii_dec b c)%nat.

(** A candidate block [(besti, bestj, bestsize)]. *)
Definition block : Type := (nat * nat * nat)%type.

Definition block_size (x : block) : nat := snd x.

(** One turn of the outer loop of [find_longest_match], for the element
    [ai] of [a] at position [i]: [prev] is [j2len] of the turn before, as
    the list of its values at the positions of [b] (0 where it has no
    entry), [diag] is its value at [j - 1], and the result is [newj2len]
    with the best block so far. *)
Fixpoint flm_row (pop : ascii -> bool) (blo bhi : nat) (ai : ascii) (i : nat)
    (b : list ascii) (prev : list nat) (j diag : nat) (best : block)
  : list nat * block :=
  match b with
  | [] => ([], best)
  | bj :: b' =>
      let pj := hd 0%nat prev in
      if (blo <=? j)%nat && (j <? bhi)%nat && Ascii.eqb ai bj && negb (pop bj)
      then
        let k := S diag in
        let best' :=
          if (block_size best <? k)%nat then ((i + 1 - k)%nat, (j + 1 - k)%nat, k)
          else best in
        let '(row, bst) := flm_row pop blo bhi ai i b' (tl prev) (S j) pj best' in
        (k :: row, bst)
      else
        let '(row, bst) := flm_row pop blo bhi ai i b' (tl prev) (S j) pj best in
        (0%nat :: row, bst)
  end.

(** The outer loop, over the positions [alo <= i < ahi] of [a]; [a'] is
    what is left of [a] from position [i] on. *)
Fixpoint flm_rows (pop : ascii -> bool) (alo ahi blo bhi : nat) (b : list ascii)
    (a' : list ascii) (i : nat) (prev : list nat) (best : block) : block :=
  match a' with
  | [] => best
  | ai :: a'' =>
      if (alo <=? i)%nat && (i <? ahi)%nat
      then
        let '(row, best') := flm_row pop blo bhi ai i b prev 0%nat 0%nat best in
        flm_rows pop alo ahi blo bhi b a'' (S i) row best'
      else flm_rows pop alo ahi blo bhi b a'' (S i) prev best
  end.

(** The two loops that extend the block with equal elements, before it and
    after it ([isjunk] is [None], so no element is junk). *)
Fixpoint extend_left (fuel : nat) (a b : list ascii) (alo blo : nat) (x : block) : block :=
  match fuel with
  | O => x
  | S fuel' =>
      let '(besti, bestj, bestsize) := x in
      if (alo <? besti)%nat && (blo <? bestj)%nat
         && Ascii.eqb (nth (besti - 1) a zero) (nth (bestj - 1) b zero)
      then extend_left fuel' a b alo blo ((besti - 1)%nat, (bestj - 1)%nat, S bestsize)
      else x
  end.

Fixpoint extend_right (fuel : nat) (a b : list ascii) (ahi bhi : nat) (x : block) : block :=
  match fuel with
  | O => x
  | S fuel' =>
      let '(besti, bestj, bestsize) := x in
      if (besti + bestsize <? ahi)%nat && (bestj + bestsize <? bhi)%nat
         && Ascii.eqb (nth (besti + bestsize) a zero) (nth (bestj + bestsize) b zero)
      then extend_right fuel' a b ahi bhi (besti, bestj, S bestsize)
      else x
  end.

(** [find_longest_match(alo, ahi, blo, bhi)] *)
Definition find_longest_match (a b : list ascii) (alo ahi blo bhi : nat) : block :=
  let best :=
    flm_rows (popular b) alo ahi blo bhi b a 0%nat (repeat 0%nat (length b))
      (alo, blo, 0%nat) in
  let best := extend_left (length a) a b alo blo best in
  extend_right (length a) a b ahi bhi best.

(** The sum of the sizes of the blocks of [get_matching_blocks]: the
    longest block of the range, then the blocks of what is left before it
    and after it.  Every turn works on a shorter range of [a], so
    [len(a) + 1] turns of [fuel] are enough. *)
Fixpoint matched (fuel : nat) (a b : list ascii) (alo ahi blo bhi : nat) : nat :=
  match fuel with
  | O => 0%nat
  | S fuel' =>
      let '(i, j, k) := find_longest_match a b alo ahi blo bhi in
      match k with
      | O => 0%nat
      | _ =>
          (k
           + (if (alo <? i)%nat && (blo <? j)%nat then matched fuel' a b alo i blo j
              else 0)
           + (if (i + k <? ahi)%nat && (j + k <? bhi)%nat
              then matched fuel' a b (i + k) ahi (j + k) bhi
              else 0))%nat
      end
  end.

(** [ratio()]: [2.0 * matches / length] when [length] is not zero, else
    [1.0]. *)
Definition ratio (a b : string) : float :=
  let la := list_ascii_of_string a in
  let lb := list_ascii_of_string b in
  let matches := matched (S (length la)) la lb 0%nat (length la) 0%nat (length lb) in
  let total := (length la + length lb)%nat in
  match total with
  | O => lit 1 0
  | _ => fdiv (fmul (lit 2 0) (float_of_Z (Z.of_nat matches))) (float_of_Z (Z.of_nat total))
  end.

End Py.

(** ** [backend.py] *)

Module Backend.

(** The class [[^a-z0-9]] *)
Definition not_alnum (c : ascii) : bool :=
  negb (Py.between 97 122 c || Py.between 48 57 c).

(** [norm_text] (identical in [backend.py] and [scripts/build_index.py]):
<<
    s = (s or "").lower()
    s = re.sub(r"[^a-z0-9]+", " ", s)
    s = re.sub(r"\s+", " ", s).strip()
>> *)
Definition norm_text (s : option string) : string :=
  let s1 := Py.lower (Py.or_empty s) in
  let s2 := Py.re_sub_runs not_alnum false s1 in
  Py.strip (Py.re_sub_runs Py.isspace false s2).

(** The statuses of a mark that is no longer alive. *)
Definition dead_statuses : list string :=
  ["dead"; "expired"; "withdrawn"; "revoked"; "cancelled"; "removed"].

(** [is_active].  [today] is the value of [now_date()], the UTC date at
    the time of the call.
<<
    status_norm = (status or "").strip().lower()
    if status_norm in {"dead", ...}: return False
    if expired:
        try:
            exp = datetime.strptime(expired, "%Y-%m-%d").date()
            if exp < now_date(): return False
        except ValueError: pass
    return True
>> *)
Definition is_active (today : Py.date) (status : option string) (expired : string) : bool :=
  let status_norm := Py.lower (Py.strip (Py.or_empty status)) in
  if Py.mem status_norm dead_statuses then false
  else if Py.truthy expired then
    match Py.strptime_ymd expired with
    | Some exp => if Py.date_ltb exp today then false else true
    | None => true
    end
  else true.

(** The dictionary [summarize_mark] builds, one field per key. *)
Record mark_summary : Type := mk_mark_summary {
  ms_reg_no : option string;
  ms_mark_text : string;
  ms_owner_name : option string;
  ms_owner_type : option string;
  ms_country : option string;
  ms_status : option string;
  ms_category : option string;
  ms_mark_type : option string;
  ms_filed : string;
  ms_registered : string;
  ms_expired : string;
  ms_renewal_due : option string;
  ms_age_years : option Z;
  ms_active : bool;
  ms_class_codes : list string;
  ms_goods_services : option string;
  ms_similarity : Py.float
}.

(** [set(class_filter) & set(codes)] is not empty. *)
Definition class_overlap (class_filter codes : list string) : bool :=
  existsb (fun c => Py.mem c codes) class_filter.

(** One turn of the loop of [score_risk] on the two counters
    [(active_strong, active_medium)]:
<<
    if class_filter:
        if not set(class_filter) & set(m.get("class_codes", [])): continue
    if m["active"] and m["similarity"] >= 0.92: active_strong += 1
    elif m["active"] and m["similarity"] >= 0.85: active_medium += 1
>> *)
Definition risk_step (class_filter : list string) (st : nat * nat) (m : mark_summary)
  : nat * nat :=
  let '(active_strong, active_medium) := st in
  if match class_filter with
     | [] => false
     | _ => negb (class_overlap class_filter (ms_class_codes m))
     end
  then st
  else if ms_active m && Py.fge (ms_similarity m) (Py.lit 92 (-2))
  then (S active_strong, active_medium)
  else if ms_active m && Py.fge (ms_similarity m) (Py.lit 85 (-2))
  then (active_strong, S active_medium)
  else st.

(** [score_risk] *)
Definition score_risk (matches : list mark_summary) (class_filter : list string) : string :=
  let '(active_strong, active_medium) :=
    fold_left (risk_step class_filter) matches (0%nat, 0%nat) in
  if (0 <? active_strong)%nat then "high"
  else if (0 <? active_medium)%nat then "medium"
  else "low".

(** [similarity] *)
Definition similarity (a b : string) : Py.float :=
  if negb (Py.truthy a) || negb (Py.truthy b) then S754_zero false
  else if String.eqb a b then Py.lit 1 0
  else Py.ratio a b.

(** [parse_classes] *)
Definition parse_classes (s : string) : list string :=
  if negb (Py.truthy s) then [] else Py.digit_runs s.

(** [years_since]; [today] is [now_date()]. *)
Definition years_since (today : Py.date) (date_str : string) : option Z :=
  if negb (Py.truthy date_str) then None
  else
    match Py.strptime_ymd date_str with
    | None => None
    | Some d =>
        let days := Py.toordinal today - Py.toordinal d in
        if days <? 0 then Some 0 else Some (days / 365)
    end.

(** *** The index

    A row of the table [marks] and a row of the table [patents], one field
    per column; a [TEXT] column holds a text or [NULL]. *)

Record mark_row : Type := mk_mark_row {
  m_id : Z;
  m_reg_no : option string;
  m_mark_text : option string;
  m_mark_text_norm : option string;
  m_owner_name : option string;
  m_owner_type : option string;
  m_country : option string;
  m_status : option string;
  m_category : option string;
  m_mark_type : option string;
  m_filed : option string;
  m_published : option string;
  m_registered : option string;
  m_expired : option string;
  m_renewal_due : option string;
  m_class_codes : option string;
  m_goods_services : option string;
  m_source_file : option string
}.

Record patent_row : Type := mk_patent_row {
  p_id : Z;
  p_application_number : option string;
  p_publication_number : option string;
  p_ipsum : option string;
  p_earliest_filing_date : option string;
  p_filing_date : option string;
  p_lodged_date : option string;
  p_publication_a_date : option string;
  p_publication_b_date : option string;
  p_applicant_name : option string;
  p_applicant_country_code : option string;
  p_applicant_postcode : option string;
  p_applicant_county : option string;
  p_applicant_region : option string;
  p_applicant_country : option string;
  p_ipc7 : option string;
  p_ipc8 : option string;
  p_pct_filing_date : option string;
  p_pct_publication_date : option string;
  p_last_renewal_date : option string;
  p_last_annuity_year : option string;
  p_date_not_in_force : option string;
  p_reason_not_in_force : option string;
  p_status : option string;
  p_source_file : option string
}.

(** The two tables, each in the order in which a scan visits its rows. *)
Record database : Type := mk_database {
  marks : list mark_row;
  patents : list patent_row
}.

(** The statements [backend.py] sends. *)
Inductive sql : Type :=
| SelectMarksExact (countries : list string) (text : string) (limit : Z)
| SelectMarksLike (countries : list string) (pattern : string) (limit : Z)
| SelectPatentsLike (pattern : string) (limit : Z)
| SelectMarksAny (countries : list string).

(** A connection: the index it reads and the statements executed on it so
    far, the oldest first. *)
Record connection : Type := mk_connection {
  con_db : database;
  con_log : list sql
}.

(** [open_db()] on the index [db]. *)
Definition open_db (db : database) : connection := mk_connection db [].

(** [col = ?] and [col IN (?, ..., ?)]: never true of [NULL]. *)
Definition sql_eq (col : option string) (v : string) : bool :=
  match col with
  | Some s => String.eqb s v
  | None => false
  end.

Definition sql_in (col : option string) (vs : list string) : bool :=
  match col with
  | Some s => Py.mem s vs
  | None => false
  end.

(** [text LIKE pattern] under [PRAGMA case_sensitive_like=ON], which
    [open_db] sets: [%] stands for any run of characters, [_] for any one
    character, every other character for itself. *)
Fixpoint like (pattern text : string) : bool :=
  match pattern with
  | EmptyString => negb (Py.truthy text)
  | String c pattern' =>
      if Ascii.eqb c "%"
      then (fix any (t : string) : bool :=
              like pattern' t
              || match t with
                 | EmptyString => false
                 | String _ t' => any t'
                 end) text
      else
        match text with
        | EmptyString => false
        | String d text' =>
            (Ascii.eqb c "_" || Ascii.eqb c d) && like pattern' text'
        end
  end.

Definition sql_like (col : option string) (pattern : string) : bool :=
  match col with
  | Some s => like pattern s
  | None => false
  end.

(** [LIMIT n]: the first [n] rows; a negative [n] is no limit. *)
Definition sql_limit {A : Type} (n : Z) (rows : list A) : list A :=
  if n <? 0 then rows else firstn (Z.to_nat n) rows.

(** The rows a statement on [marks] selects. *)
Definition select_marks (db : database) (q : sql) : list mark_row :=
  match q with
  | SelectMarksExact countries text limit =>
      sql_limit limit
        (filter (fun m => sql_in (m_country m) countries && sql_eq (m_mark_text_norm m) text)
           (marks db))
  | SelectMarksLike countries pattern limit =>
      sql_limit limit
        (filter (fun m => sql_in (m_country m) countries
                          && sql_like (m_mark_text_norm m) pattern)
           (marks db))
  | SelectMarksAny countries =>
      sql_limit 1 (filter (fun m => sql_in (m_country m) countries) (marks db))
  | SelectPatentsLike _ _ => []
  end.

(** The rows a statement on [patents] selects. *)
Definition select_patents (db : database) (q : sql) : list patent_row :=
  match q with
  | SelectPatentsLike pattern limit =>
      sql_limit limit
        (filter (fun p => sql_like (p_applicant_name p) pattern
                          || sql_like (p_application_number p) pattern
                          || sql_like (p_publication_number p) pattern)
           (patents db))
  | _ => []
  end.

(** [con.execute(q).fetchall()] *)
Definition execute_marks (con : connection) (q : sql) : list mark_row * connection :=
  (select_marks (con_db con) q, mk_connection (con_db con) (con_log con ++ [q])).

Definition execute_patents (con : connection) (q : sql) : list patent_row * connection :=
  (select_patents (con_db con) q, mk_connection (con_db con) (con_log con ++ [q])).

(** [resolve_countries] *)
Definition resolve_countries (country : string) : list string :=
  let c := Py.lower (Py.strip country) in
  if Py.mem c ["all"; "all countries"; "any"]
  then ["United Kingdom"; "European Union"; "United States"; "Rest of World"]
  else if Py.mem c ["uk"; "united kingdom"; "uk only"] then ["United Kingdom"]
  else if Py.mem c ["eu"; "european union"; "eu only"] then ["European Union"]
  else if Py.mem c ["us"; "united states"; "us only"] then ["United States"]
  else if Py.mem c ["uk & eu"; "uk and eu"; "uk+eu"]
  then ["United Kingdom"; "European Union"]
  else if Py.mem c ["rest of world"; "row"; "world"] then ["Rest of World"]
  else [country].

(** [query_candidates]
<<
    countries = resolve_countries(country)
    rows = con.execute("... WHERE m.country IN (...) AND m.mark_text_norm = ? LIMIT ?")
    if rows: return rows
    if len(term_norm) < 4: return []
    like = f"{term_norm}%"
    rows = con.execute("... WHERE m.country IN (...) AND m.mark_text_norm LIKE ? LIMIT ?")
    if rows: return rows
    return []
>> *)
Definition query_candidates (con : connection) (term_norm country : string) (limit : Z)
  : list mark_row * connection :=
  let countries := resolve_countries country in
  let '(rows, con1) := execute_marks con (SelectMarksExact countries term_norm limit) in
  match rows with
  | _ :: _ => (rows, con1)
  | [] =>
      if (String.length term_norm <? 4)%nat then ([], con1)
      else
        let pattern := term_norm ++ "%" in
        let '(rows, con2) := execute_marks con1 (SelectMarksLike countries pattern limit) in
        match rows with
        | _ :: _ => (rows, con2)
        | [] => ([], con2)
        end
  end.

(** [query_patents] *)
Definition query_patents (con : connection) (term_norm : string) (limit : Z)
  : list patent_row * connection :=
  if (String.length term_norm <? 4)%nat then ([], con)
  else execute_patents con (SelectPatentsLike (term_norm ++ "%") limit).

(** [country_available] *)
Definition country_available (con : connection) (country : string) : bool * connection :=
  let '(rows, con1) := execute_marks con (SelectMarksAny (resolve_countries country)) in
  (match rows with [] => false | _ => true end, con1).

(** [summarize_mark]; [today] is [now_date()]. *)
Definition summarize_mark (today : Py.date) (row : mark_row) (term_norm : string)
  : mark_summary :=
  let mark_text := Py.or_empty (m_mark_text row) in
  let mark_norm := norm_text (Some mark_text) in
  let sim := similarity term_norm mark_norm in
  let filed := Py.or_empty (m_filed row) in
  let registered := Py.or_empty (m_registered row) in
  let expired := Py.or_empty (m_expired row) in
  {| ms_reg_no := m_reg_no row;
     ms_mark_text := mark_text;
     ms_owner_name := m_owner_name row;
     ms_owner_type := m_owner_type row;
     ms_country := m_country row;
     ms_status := m_status row;
     ms_category := m_category row;
     ms_mark_type := m_mark_type row;
     ms_filed := filed;
     ms_registered := registered;
     ms_expired := expired;
     ms_renewal_due := m_renewal_due row;
     ms_age_years := if Py.truthy filed then years_since today filed else None;
     ms_active := is_active today (m_status row) expired;
     ms_class_codes :=
       if Py.truthy_opt (m_class_codes row)
       then Py.split "," (Py.or_empty (m_class_codes row)) else [];
     ms_goods_services := m_goods_services row;
     ms_similarity := Py.round_ndigits sim 4 |}.

(** [patent_active] *)
Definition patent_active (status date_not_in_force : option string) : bool :=
  let s := Py.lower (Py.strip (Py.or_empty status)) in
  if Py.truthy_opt date_not_in_force then false
  else if existsb (fun x => Py.contains x s) ["lapsed"; "ceased"; "withdrawn"; "revoked"]
  then false
  else true.

(** The dictionary [summarize_patent] builds. *)
Record patent_summary : Type := mk_patent_summary {
  ps_application_number : option string;
  ps_publication_number : option string;
  ps_applicant_name : string;
  ps_applicant_country : option string;
  ps_ipc7 : option string;
  ps_ipc8 : option string;
  ps_status : option string;
  ps_filing_date : string;
  ps_earliest_filing_date : option string;
  ps_publication_a_date : option string;
  ps_publication_b_date : option string;
  ps_last_renewal_date : option string;
  ps_date_not_in_force : option string;
  ps_reason_not_in_force : option string;
  ps_active : bool;
  ps_age_years : option Z;
  ps_similarity : Py.float
}.

(** [summarize_patent] *)
Definition summarize_patent (today : Py.date) (row : patent_row) (term_norm : string)
  : patent_summary :=
  let term := term_norm in
  let applicant := Py.or_empty (p_applicant_name row) in
  let sim :=
    if Py.truthy applicant then similarity term (norm_text (Some applicant))
    else S754_zero false in
  let filed := Py.or_empty (p_filing_date row) in
  {| ps_application_number := p_application_number row;
     ps_publication_number := p_publication_number row;
     ps_applicant_name := applicant;
     ps_applicant_country :=
       Py.or_else (p_applicant_country row) (p_applicant_country_code row);
     ps_ipc7 := p_ipc7 row;
     ps_ipc8 := p_ipc8 row;
     ps_status := p_status row;
     ps_filing_date := filed;
     ps_earliest_filing_date := p_earliest_filing_date row;
     ps_publication_a_date := p_publication_a_date row;
     ps_publication_b_date := p_publication_b_date row;
     ps_last_renewal_date := p_last_renewal_date row;
     ps_date_not_in_force := p_date_not_in_force row;
     ps_reason_not_in_force := p_reason_not_in_force row;
     ps_active := patent_active (p_status row) (p_date_not_in_force row);
     ps_age_years := if Py.truthy filed then years_since today filed else None;
     ps_similarity := Py.round_ndigits sim 4 |}.

(** [(a1, s1) < (a2, s2)] on the sort keys [(active, similarity)]. *)
Definition key_lt (k1 k2 : bool * Py.float) : bool :=
  if Bool.eqb (fst k1) (fst k2)
  then if SFeqb (snd k1) (snd k2) then false else Py.flt (snd k1) (snd k2)
  else negb (fst k1) && fst k2.

(** *** The handler of [/check] *)

(** The JSON body of the request.  For the three texts a key that is
    absent or [null] is [None]; [rq_include_patents] is [None] when the key
    is absent and else the truth value of what it holds. *)
Record request : Type := mk_request {
  rq_trademark : option string;
  rq_country : option string;
  rq_classes : option string;
  rq_include_patents : option bool
}.

(** The answer of [ensure_index()]: the index is there, or it is not and a
    message says why. *)
Inductive index_state : Type :=
| IndexReady (db : database)
| IndexMissing (msg : string).

(** The body of a successful answer; its fixed list of notes is left
    out. *)
Record check_result : Type := mk_check_result {
  rs_trademark : string;
  rs_country : string;
  rs_classes : list string;
  rs_risk_level : string;
  rs_match_count : nat;
  rs_patent_count : nat;
  rs_similar_marks : list mark_summary;
  rs_patents : list patent_summary
}.

Inductive response : Type :=
| BadRequest (error : string) (country : option string)
| Success (body : check_result).

(** [check]; the second component is the list of the statements executed
    on the connection the handler opened. *)
Definition check (idx : index_state) (today : Py.date) (payload : request)
  : response * list sql :=
  match idx with
  | IndexMissing msg => (BadRequest msg None, [])
  | IndexReady db =>
      let term := Py.strip (Py.or_empty (rq_trademark payload)) in
      let country := Py.strip (Py.or_empty (rq_country payload)) in
      let class_filter := parse_classes (Py.or_empty (rq_classes payload)) in
      let include_patents :=
        match rq_include_patents payload with Some b => b | None => true end in
      if negb (Py.truthy term) then (BadRequest "Missing trademark" None, [])
      else if negb (Py.truthy country) then (BadRequest "Missing country" None, [])
      else if (String.length (Py.strip term) <? 3)%nat
      then (BadRequest "Please enter at least 3 characters." None, [])
      else
        let term_norm := norm_text (Some term) in
        let con := open_db db in
        let '(available, con) := country_available con country in
        if negb available
        then (BadRequest "No records found for this country in the current index."
                (Some country), con_log con)
        else
          let '(rows, con) := query_candidates con term_norm country 25 in
          let '(patent_rows, con) :=
            if include_patents then query_patents con term_norm 25 else ([], con) in
          let matches := map (fun r => summarize_mark today r term_norm) rows in
          let matches :=
            Py.sort_desc
              (fun x y => key_lt (ms_active x, ms_similarity x) (ms_active y, ms_similarity y))
              matches in
          let matches := firstn 50 matches in
          let risk := score_risk matches class_filter in
          let patents := map (fun r => summarize_patent today r term_norm) patent_rows in
          let patents :=
            Py.sort_desc
              (fun x y => key_lt (ps_active x, ps_similarity x) (ps_active y, ps_similarity y))
              patents in
          let patents := firstn 50 patents in
          (Success
             {| rs_trademark := term;
                rs_country := country;
                rs_classes := class_filter;
                rs_risk_level := risk;
                rs_match_count := length matches;
                rs_patent_count := length patents;
                rs_similar_marks := matches;
                rs_patents := patents |},
           con_log con)
  end.

(** [_parse_allowed_origins]
<<
    items = [x.strip() for x in (raw or "").split(",")]
    return [x for x in items if x]
>> *)
Definition _parse_allowed_origins (raw : option string) : list string :=
  filter Py.truthy (map Py.strip (Py.split "," (Py.or_empty raw))).

(** *** [ensure_index]

    What the function reads and writes outside itself: whether the index
    file exists ([has_index()]) and the flag [_download_attempted]. *)
Record index_world : Type := mk_index_world {
  w_has_index : bool;
  w_download_attempted : bool
}.

(** How the download of one call ends when it is made: [urlretrieve] and
    [os.replace] succeed and the file is there, or one of them raises. *)
Inductive download_result : Type :=
| Downloaded
| DownloadFailed (exc : string).

(** [ensure_index], for one thread; [db_url] is [DB_URL].
<<
    if has_index(): return True, ""
    if not DB_URL: return False, "Index not found and TRADEMARK_DB_URL is not set."
    with _download_lock:
        if has_index(): return True, ""
        if _download_attempted and not has_index():
            return False, "Index download already attempted and failed."
        _download_attempted = True
        try: ... urlretrieve(DB_URL, tmp_path); os.replace(tmp_path, DB_PATH)
        except Exception as exc:
            return False, f"Failed to download index from TRADEMARK_DB_URL: {exc}"
    return (True, "") if has_index() else (False, "Index download completed but file not found.")
>> *)
Definition ensure_index (db_url : string) (download : download_result) (w : index_world)
  : (bool * string) * index_world :=
  if w_has_index w then ((true, ""), w)
  else if negb (Py.truthy db_url)
  then ((false, "Index not found and TRADEMARK_DB_URL is not set."), w)
  else if w_has_index w then ((true, ""), w)
  else if w_download_attempted w && negb (w_has_index w)
  then ((false, "Index download already attempted and failed."), w)
  else
    let w1 := mk_index_world (w_has_index w) true in
    match download with
    | DownloadFailed exc =>
        ((false, "Failed to download index from TRADEMARK_DB_URL: " ++ exc), w1)
    | Downloaded =>
        let w2 := mk_index_world true true in
        if w_has_index w2 then ((true, ""), w2)
        else ((false, "Index download completed but file not found."), w2)
    end.

End Backend.

(** ** [scripts/build_index.py] *)

Module BuildIndex.

Definition NULL_VALUES : list string := [""; "NULL"; "null"; "N/A"; "n/a"].

(** [excel_date_to_iso]
<<
    s = (s or "").strip()
    if not s or s in NULL_VALUES: return ""
    try:
        val = float(s)
        if val <= 0: return ""
        base = date(1899, 12, 30)
        d = base + timedelta(days=int(val))
        return d.isoformat()
    except ValueError:
        return s
>>
    Only [ValueError] is caught: an [OverflowError] of [int] or of the date
    arithmetic leaves the function. *)
Definition excel_date_to_iso (s : option string) : Py.outcome string :=
  let s := Py.strip (Py.or_empty s) in
  if negb (Py.truthy s) || Py.mem s NULL_VALUES then Py.Ok ""
  else
    match Py.float_of_str s with
    | None => Py.Ok s
    | Some val =>
        if Py.fle val (S754_zero false) then Py.Ok ""
        else
          match Py.int_of_float val with
          | Py.Raised Py.ValueError => Py.Ok s
          | Py.Raised e => Py.Raised e
          | Py.Ok n =>
              match Py.date_add_days (Py.mkdate 1899 12 30) n with
              | Py.Raised Py.ValueError => Py.Ok s
              | Py.Raised e => Py.Raised e
              | Py.Ok d => Py.Ok (Py.isoformat d)
              end
          end
    end.

(** [infer_owner_type]
<<
    if not name: return "unknown"
    n = name.lower()
    if any(x in n for x in [" ltd", " limited", ...]): return "company"
    if " and " in n or " & " in n: return "company"
    return "individual_or_other"
>> *)
Definition infer_owner_type (name : string) : string :=
  if negb (Py.truthy name) then "unknown"
  else
    let n := Py.lower name in
    if existsb (fun x => Py.contains x n)
         [" ltd"; " limited"; " llc"; " inc"; " corp"; " gmbh"; " plc"; " llp"]
    then "company"
    else if Py.contains " and " n || Py.contains " & " n then "company"
    else "individual_or_other".

(** [parse_date]: the text, trimmed, whether [strptime] reads it or not. *)
Definition parse_date (s : string) : string :=
  let s := Py.strip s in
  if negb (Py.truthy s) then ""
  else match Py.strptime_ymd s with
       | Some _ => s
       | None => s
       end.

(** [clean_cell] *)
Definition clean_cell (v : string) : string :=
  let v := Py.strip v in
  if Py.mem v NULL_VALUES then "" else v.

(** [build_class_codes]
<<
    for k, v in row.items():
        if k.startswith(CLASS_PREFIX):
            try: class_num = int(k[len(CLASS_PREFIX):])
            except ValueError: continue
            if (v or "").strip() not in ("", "0", "No", "N", "False"):
                classes.append(str(class_num))
    return ",".join(classes)
>> *)
Definition build_class_codes (row : Py.dict string) : string :=
  Py.join ","
    (flat_map
       (fun kv : string * string =>
          if Py.startswith "Class" (fst kv)
          then match Py.int_of_str (Py.drop 5 (fst kv)) with
               | None => []
               | Some class_num =>
                   if Py.mem (Py.strip (snd kv)) [""; "0"; "No"; "N"; "False"] then []
                   else [Py.str_of_Z class_num]
               end
          else [])
       row).

(** [normalize_country_from_office] *)
Definition normalize_country_from_office (reg_no office_code : string) : string :=
  let reg_no := Py.upper reg_no in
  let office_code := Py.upper office_code in
  if Py.startswith "UK" reg_no || Py.mem office_code ["GB"; "UK"] then "United Kingdom"
  else if Py.startswith "US" reg_no || String.eqb office_code "US" then "United States"
  else if Py.mem office_code ["EM"; "EU"; "EP"] || Py.startswith "EU" reg_no
  then "European Union"
  else if Py.startswith "WO" reg_no || Py.truthy office_code then "Rest of World"
  else "Rest of World".

(** *** Writing the index *)

(** A tuple of a batch for [marks], in the order of the columns of the
    [INSERT] of [insert_batch]. *)
Record mark_tuple : Type := mk_mark_tuple {
  t_reg_no : string;
  t_mark_text : string;
  t_mark_text_norm : string;
  t_owner_name : string;
  t_owner_type : string;
  t_country : string;
  t_status : string;
  t_category : string;
  t_mark_type : string;
  t_filed : string;
  t_published : string;
  t_registered : string;
  t_expired : string;
  t_renewal_due : string;
  t_class_codes : string;
  t_goods_services : string;
  t_source_file : string
}.

(** A tuple of a batch for [patents]. *)
Record patent_tuple : Type := mk_patent_tuple {
  u_application_number : string;
  u_publication_number : string;
  u_ipsum : string;
  u_earliest_filing_date : string;
  u_filing_date : string;
  u_lodged_date : string;
  u_publication_a_date : string;
  u_publication_b_date : string;
  u_applicant_name : string;
  u_applicant_country_code : string;
  u_applicant_postcode : string;
  u_applicant_county : string;
  u_applicant_region : string;
  u_applicant_country : string;
  u_ipc7 : string;
  u_ipc8 : string;
  u_pct_filing_date : string;
  u_pct_publication_date : string;
  u_last_renewal_date : string;
  u_last_annuity_year : string;
  u_date_not_in_force : string;
  u_reason_not_in_force : string;
  u_status : string;
  u_source_file : string
}.

(** The value of an [INTEGER PRIMARY KEY] column left out of an [INSERT]:
    one more than the largest in the table. *)
Definition next_rowid (ids : list Z) : Z := fold_right Z.max 0 ids + 1.

Definition mark_row_of (id : Z) (t : mark_tuple) : Backend.mark_row :=
  Backend.mk_mark_row id (Some (t_reg_no t)) (Some (t_mark_text t))
    (Some (t_mark_text_norm t)) (Some (t_owner_name t)) (Some (t_owner_type t))
    (Some (t_country t)) (Some (t_status t)) (Some (t_category t))
    (Some (t_mark_type t)) (Some (t_filed t)) (Some (t_published t))
    (Some (t_registered t)) (Some (t_expired t)) (Some (t_renewal_due t))
    (Some (t_class_codes t)) (Some (t_goods_services t)) (Some (t_source_file t)).

Definition patent_row_of (id : Z) (u : patent_tuple) : Backend.patent_row :=
  Backend.mk_patent_row id (Some (u_application_number u))
    (Some (u_publication_number u)) (Some (u_ipsum u))
    (Some (u_earliest_filing_date u)) (Some (u_filing_date u))
    (Some (u_lodged_date u)) (Some (u_publication_a_date u))
    (Some (u_publication_b_date u)) (Some (u_applicant_name u))
    (Some (u_applicant_country_code u)) (Some (u_applicant_postcode u))
    (Some (u_applicant_county u)) (Some (u_applicant_region u))
    (Some (u_applicant_country u)) (Some (u_ipc7 u)) (Some (u_ipc8 u))
    (Some (u_pct_filing_date u)) (Some (u_pct_publication_date u))
    (Some (u_last_renewal_date u)) (Some (u_last_annuity_year u))
    (Some (u_date_not_in_force u)) (Some (u_reason_not_in_force u))
    (Some (u_status u)) (Some (u_source_file u)).

(** What an [INSERT] does when the new row breaks a constraint: the plain
    statement fails with [IntegrityError], [INSERT OR IGNORE] skips the
    row. *)
Inductive conflict_clause : Type :=
| OrAbort
| OrIgnore.

(** One [INSERT] into [marks] as [setup_schema] declares it: [reg_no] is
    [UNIQUE], so a row whose [reg_no] is already in the table is in
    conflict; otherwise the row is added at the end with a fresh [id]. *)
Definition insert_mark (clause : conflict_clause) (tbl : list Backend.mark_row)
    (t : mark_tuple) : Py.outcome (list Backend.mark_row) :=
  if existsb (fun r => Backend.sql_eq (Backend.m_reg_no r) (t_reg_no t)) tbl
  then match clause with
       | OrIgnore => Py.Ok tbl
       | OrAbort => Py.Raised Py.IntegrityError
       end
  else Py.Ok (tbl ++ [mark_row_of (next_rowid (map Backend.m_id tbl)) t])%list.

(** [executemany] of an [INSERT] into [marks]: one [INSERT] per tuple,
    stopping at the first that fails. *)
Fixpoint insert_marks (clause : conflict_clause) (tbl : list Backend.mark_row)
    (batch : list mark_tuple) : Py.outcome (list Backend.mark_row) :=
  match batch with
  | [] => Py.Ok tbl
  | t :: batch' =>
      match insert_mark clause tbl t with
      | Py.Ok tbl' => insert_marks clause tbl' batch'
      | Py.Raised e => Py.Raised e
      end
  end.

(** [insert_batch]: [executemany("INSERT OR IGNORE INTO marks(...) ...")] *)
Definition insert_batch (con : Backend.database) (batch : list mark_tuple)
  : Py.outcome Backend.database :=
  match insert_marks OrIgnore (Backend.marks con) batch with
  | Py.Ok tbl => Py.Ok (Backend.mk_database tbl (Backend.patents con))
  | Py.Raised e => Py.Raised e
  end.

(** [executemany("INSERT INTO patents(...) ...")]: [patents] has no
    constraint besides its key, every tuple becomes a row. *)
Definition insert_patents (con : Backend.database) (batch : list patent_tuple)
  : Backend.database :=
  Backend.mk_database (Backend.marks con)
    (fold_left
       (fun tbl u => (tbl ++ [patent_row_of (next_rowid (map Backend.p_id tbl)) u])%list)
       batch (Backend.patents con)).

(** [col_to_index]
<<
    idx = 0
    for ch in col:
        if "A" <= ch <= "Z":
            idx = idx * 26 + (ord(ch) - ord("A") + 1)
    return idx - 1
>> *)
Definition col_to_index (col : string) : Z :=
  fold_left
    (fun idx ch => if Py.between 65 90 ch then idx * 26 + (Py.code ch - 65 + 1) else idx)
    (list_ascii_of_string col) 0
  - 1.

(** A cell [c] of a worksheet row as [read_xlsx_rows] reads it: the
    attributes [r] and [t] ([None] when absent) and the text of the child
    [v] ([None] when there is no such child, [Some None] when it is
    empty). *)
Record xlsx_cell : Type := mk_xlsx_cell {
  c_r : option string;
  c_t : option string;
  c_v : option (option string)
}.

(** The value of a cell: its text, or for the type ["s"] the shared string
    its text numbers, the empty text when that fails.
<<
    if v is None: val = ""
    else:
        val = v.text or ""
        if c.get("t") == "s":
            try: val = shared[int(val)]
            except Exception: val = ""
>> *)
Definition cell_value (shared : list string) (c : xlsx_cell) : string :=
  match c_v c with
  | None => ""
  | Some text =>
      let val := Py.or_empty text in
      match c_t c with
      | Some t =>
          if String.eqb t "s"
          then match Py.int_of_str val with
               | Some i => match Py.list_index shared i with
                           | Some v => v
                           | None => ""
                           end
               | None => ""
               end
          else val
      | None => val
      end
  end.

(** The dictionary [row] of one worksheet row, as the list of its items
    in the order of first assignment: a cell whose reference has no letter
    is passed over, a later cell of the same column replaces the value. *)
Fixpoint row_set (row : list (Z * string)) (idx : Z) (val : string) : list (Z * string) :=
  match row with
  | [] => [(idx, val)]
  | (i, v) :: row' => if i =? idx then (i, val) :: row' else (i, v) :: row_set row' idx val
  end.

Fixpoint row_get (row : list (Z * string)) (idx : Z) : option string :=
  match row with
  | [] => None
  | (i, v) :: row' => if i =? idx then Some v else row_get row' idx
  end.

Definition row_of_cells (shared : list string) (cells : list xlsx_cell) : list (Z * string) :=
  fold_left
    (fun row c =>
       let col_letters := Py.filter_chars Py.isalpha (Py.or_empty (c_r c)) in
       if negb (Py.truthy col_letters) then row
       else row_set row (col_to_index col_letters) (cell_value shared c))
    cells [].

(** The list [read_xlsx_rows] yields for one worksheet row:
<<
    max_idx = max(row.keys()) if row else -1
    values = [row.get(i, "") for i in range(max_idx + 1)]
>> *)
Definition xlsx_row (shared : list string) (cells : list xlsx_cell) : list string :=
  let row := row_of_cells shared cells in
  let max_idx :=
    match row with
    | [] => -1
    | (i, _) :: row' => fold_left Z.max (map fst row') i
    end in
  map (fun i => match row_get row (Z.of_nat i) with Some v => v | None => "" end)
    (seq 0 (Z.to_nat (max_idx + 1))).

(** *** Procedures on the index

    A procedure of the script works on the connection [con]: it leaves a
    state of the index (nothing is undone when an exception passes) and
    returns a value or raises. *)
Definition proc (A : Type) : Type := Backend.database -> Backend.database * Py.outcome A.

Definition ret {A : Type} (a : A) : proc A := fun con => (con, Py.Ok a).

Definition seq {A B : Type} (x : proc A) (k : A -> proc B) : proc B :=
  fun con =>
    match x con with
    | (con', Py.Ok a) => k a con'
    | (con', Py.Raised e) => (con', Py.Raised e)
    end.

(** A value computed without the index, or the exception it raised. *)
Definition lift {A : Type} (x : Py.outcome A) : proc A := fun con => (con, x).

(** A statement that changes the index, or fails and leaves it. *)
Definition update (f : Backend.database -> Py.outcome Backend.database) : proc unit :=
  fun con =>
    match f con with
    | Py.Ok con' => (con', Py.Ok tt)
    | Py.Raised e => (con, Py.Raised e)
    end.

(** [for x in xs: body(x)] *)
Fixpoint for_each {A : Type} (body : A -> proc unit) (xs : list A) : proc unit :=
  match xs with
  | [] => ret tt
  | x :: xs' => seq (body x) (fun _ => for_each body xs')
  end.

(** The loops of [ingest_file] and [ingest_journal_xml] over the tuples
    they build: a tuple joins the batch, and a batch of 5000 is written by
    [insert_batch] and emptied.  The result is the batch left at the end. *)
Fixpoint batch_marks (batch : list mark_tuple) (ts : list mark_tuple)
  : proc (list mark_tuple) :=
  match ts with
  | [] => ret batch
  | t :: ts' =>
      let batch := (batch ++ [t])%list in
      if (5000 <=? length batch)%nat
      then seq (update (fun con => insert_batch con batch)) (fun _ => batch_marks [] ts')
      else batch_marks batch ts'
  end.

(** [if batch: insert_batch(con, batch)] *)
Definition flush_marks (batch : list mark_tuple) : proc unit :=
  match batch with
  | [] => ret tt
  | _ => update (fun con => insert_batch con batch)
  end.

(** *** Delimited-text exports *)

Inductive encoding : Type :=
| Utf16
| Utf16le
| Utf16be
| Utf8sig.

(** What reading a file under one encoding gives: the rows [csv.reader]
    delivers, in order, and whether the reading then ends with an error
    (the file cannot be opened or decoded further) instead of the end of
    the file. *)
Record reading : Type := mk_reading {
  rd_rows : list (list string);
  rd_fails : bool
}.

(** A text file under [path]: its reading under each encoding. *)
Record txt_file : Type := mk_txt_file {
  txt_path : string;
  txt_read : encoding -> reading
}.

(** [[h.replace("\ufeff", "").strip() for h in headers]]; the byte order
    mark lies beyond code point 255, a text of the model holds none. *)
Definition clean_headers (headers : list string) : list string :=
  map Py.strip headers.

Definition has_trademark_headers (headers : list string) : bool :=
  Py.mem "Trade Mark" headers && Py.mem "Mark Text" headers.

(** [read_rows], a generator: the rows it yields and how it ends.
<<
    for enc in ("utf-16", "utf-16-le", "utf-16-be", "utf-8-sig"):
        try:
            with path.open("r", encoding=enc, newline="") as f:
                reader = csv.reader(f, delimiter="|")
                headers = next(reader)
                headers = [h.replace("\ufeff", "").strip() for h in headers]
                if "Trade Mark" not in headers or "Mark Text" not in headers:
                    raise ValueError("missing expected trademark headers")
                yield headers
                for row in reader:
                    if not row: continue
                    yield row
                return
        except Exception as exc:
            last_err = exc
            continue
    raise ValueError(f"Unsupported or invalid trademark text file: ...")
>>
    An attempt without a first row ends in the [except] clause (the error
    of the reading, or the [StopIteration] of [next]), and so does an
    attempt whose reading fails after some rows were yielded. *)
Fixpoint read_rows_from (f : txt_file) (encs : list encoding)
  : list (list string) * Py.outcome unit :=
  match encs with
  | [] => ([], Py.Raised Py.ValueError)
  | enc :: encs' =>
      let r := txt_read f enc in
      match rd_rows r with
      | [] => read_rows_from f encs'
      | first :: rest =>
          let headers := clean_headers first in
          if negb (has_trademark_headers headers) then read_rows_from f encs'
          else
            let yielded :=
              headers :: filter (fun row => match row with [] => false | _ => true end) rest in
            if rd_fails r
            then let '(more, out) := read_rows_from f encs' in ((yielded ++ more)%list, out)
            else (yielded, Py.Ok tt)
      end
  end.

Definition read_rows (f : txt_file) : list (list string) * Py.outcome unit :=
  read_rows_from f [Utf16; Utf16le; Utf16be; Utf8sig].

(** The pad-or-trim of [ingest_file]. *)
Definition pad_or_trim (n : nat) (row : list string) : list string :=
  if (length row <? n)%nat then (row ++ repeat "" (n - length row))%list
  else if (n <? length row)%nat then firstn n row
  else row.

(** The tuple [ingest_file] builds from a row. *)
Definition mark_tuple_of_row (path : string) (headers row : list string) : mark_tuple :=
  let row := pad_or_trim (length headers) row in
  let data := Py.dict_zip headers row in
  let get := fun k => Py.or_empty (Py.dict_get data k) in
  let mark_text := Py.strip (get "Mark Text") in
  let owner_name := Py.strip (get "Name") in
  {| t_reg_no := Py.strip (get "Trade Mark");
     t_mark_text := mark_text;
     t_mark_text_norm := Backend.norm_text (Some mark_text);
     t_owner_name := owner_name;
     t_owner_type := infer_owner_type owner_name;
     t_country := Py.strip (get "Country");
     t_status := Py.strip (get "Status");
     t_category := Py.strip (get "Category of Mark");
     t_mark_type := Py.strip (get "Mark Type");
     t_filed := parse_date (get "Filed");
     t_published := parse_date (get "Published");
     t_registered := parse_date (get "Registered");
     t_expired := parse_date (get "Expired");
     t_renewal_due := parse_date (get "Renewal Due Date");
     t_class_codes := build_class_codes data;
     t_goods_services := "";
     t_source_file := path |}.

(** [ingest_file]: the rows [read_rows] yields are worked on as they
    come, the first as the header; when the generator ends by raising, the
    exception leaves [ingest_file] and the batch in hand is not written. *)
Definition ingest_file (f : txt_file) : proc unit :=
  let '(yielded, out) := read_rows f in
  match yielded with
  | [] => lift out
  | headers :: rows =>
      seq (batch_marks [] (map (mark_tuple_of_row (txt_path f) headers) rows))
        (fun batch => seq (lift out) (fun _ => flush_marks batch))
  end.

(** *** Spreadsheets *)

(** A spreadsheet under [path] and the rows [read_xlsx_rows] yields for
    it, the header first.  A container that [zipfile] or the XML parser
    refuses is not modelled. *)
Record xlsx_file : Type := mk_xlsx_file {
  xlsx_path : string;
  xlsx_rows : list (list string)
}.

(** The tuple [ingest_patents] builds from a row; [excel_date_to_iso] may
    raise. *)
Definition patent_tuple_of_row (path : string) (headers row : list string)
  : Py.outcome patent_tuple :=
  let row :=
    if (length row <? length headers)%nat
    then (row ++ repeat "" (length headers - length row))%list else row in
  let data := Py.dict_zip headers row in
  let get := fun key =>
    clean_cell (match Py.dict_get data key with Some v => v | None => "" end) in
  let date := fun key => excel_date_to_iso (Some (get key)) in
  Py.bind (date "Earliest filing date") (fun earliest_filing_date =>
  Py.bind (date "Filing date") (fun filing_date =>
  Py.bind (date "Lodged date") (fun lodged_date =>
  Py.bind (date "A publication date") (fun publication_a_date =>
  Py.bind (date "B publication date") (fun publication_b_date =>
  Py.bind (date "PCT filing date") (fun pct_filing_date =>
  Py.bind (date "PCT publication date") (fun pct_publication_date =>
  Py.bind (date "Last renewal date") (fun last_renewal_date =>
  Py.bind (date "Date not in force") (fun date_not_in_force =>
  Py.Ok
    {| u_application_number := get "Application number";
       u_publication_number := get "Publication number";
       u_ipsum := get "IPSUM";
       u_earliest_filing_date := earliest_filing_date;
       u_filing_date := filing_date;
       u_lodged_date := lodged_date;
       u_publication_a_date := publication_a_date;
       u_publication_b_date := publication_b_date;
       u_applicant_name := get "Applicant name";
       u_applicant_country_code := get "Applicant Country code";
       u_applicant_postcode := get "Applicant postcode";
       u_applicant_county := get "Applicant county";
       u_applicant_region := get "Applicant region";
       u_applicant_country := get "Applicant country";
       u_ipc7 := get "IPC7";
       u_ipc8 := get "IPC8";
       u_pct_filing_date := pct_filing_date;
       u_pct_publication_date := pct_publication_date;
       u_last_renewal_date := last_renewal_date;
       u_last_annuity_year := get "Last annuity year";
       u_date_not_in_force := date_not_in_force;
       u_reason_not_in_force := get "Reason not in force";
       u_status := get "Status";
       u_source_file := path |}))))))))).

(** The loop of [ingest_patents] over the rows after the header. *)
Fixpoint batch_patents (path : string) (headers : list string)
    (batch : list patent_tuple) (rows : list (list string)) : proc (list patent_tuple) :=
  match rows with
  | [] => ret batch
  | row :: rows' =>
      match row with
      | [] => batch_patents path headers batch rows'
      | _ =>
          seq (lift (patent_tuple_of_row path headers row))
            (fun u =>
               let batch := (batch ++ [u])%list in
               if (5000 <=? length batch)%nat
               then seq (update (fun con => Py.Ok (insert_patents con batch)))
                      (fun _ => batch_patents path headers [] rows')
               else batch_patents path headers batch rows')
      end
  end.

(** [ingest_patents] *)
Definition ingest_patents (f : xlsx_file) : proc unit :=
  match xlsx_rows f with
  | [] => ret tt
  | headers :: rows =>
      seq (batch_patents (xlsx_path f) headers [] rows)
        (fun batch =>
           match batch with
           | [] => ret tt
           | _ => update (fun con => Py.Ok (insert_patents con batch))
           end)
  end.

(** *** XML journals *)

(** A [TradeMark] element as [ingest_journal_xml] reads it: the text of the
    children it looks for ([None] when the child is absent or empty), and,
    for each [GoodsServicesDetails] child, the texts of its class number
    and of its description. *)
Record trademark_elem : Type := mk_trademark_elem {
  e_registration_number : option string;
  e_application_date : option string;
  e_registration_office_code : option string;
  e_mark_feature : option string;
  e_kind_mark : option string;
  e_mark_verbal_element_text : option string;
  e_applicant_name : option string;
  e_goods_services : list (option string * option string)
}.

(** An XML journal under [path] and its [TradeMark] elements in document
    order.  A document the parser refuses is not modelled. *)
Record xml_file : Type := mk_xml_file {
  xml_path : string;
  xml_elems : list trademark_elem
}.

(** The tuple [ingest_journal_xml] builds from an element. *)
Definition mark_tuple_of_elem (path : string) (elem : trademark_elem) : mark_tuple :=
  let text_at := fun child => Py.strip (Py.or_empty child) in
  let reg_no := text_at (e_registration_number elem) in
  let app_date := text_at (e_application_date elem) in
  let office_code := text_at (e_registration_office_code elem) in
  let mark_type := text_at (e_mark_feature elem) in
  let kind_mark := text_at (e_kind_mark elem) in
  let mark_text := Py.strip (Py.or_empty (e_mark_verbal_element_text elem)) in
  let applicant := Py.strip (Py.or_empty (e_applicant_name elem)) in
  let class_nums :=
    flat_map (fun g : option string * option string =>
                if Py.truthy_opt (fst g) then [Py.strip (Py.or_empty (fst g))] else [])
      (e_goods_services elem) in
  let goods :=
    flat_map (fun g : option string * option string =>
                if Py.truthy_opt (snd g) then [Py.strip (Py.or_empty (snd g))] else [])
      (e_goods_services elem) in
  {| t_reg_no := reg_no;
     t_mark_text := mark_text;
     t_mark_text_norm := Backend.norm_text (Some mark_text);
     t_owner_name := applicant;
     t_owner_type := infer_owner_type applicant;
     t_country := normalize_country_from_office reg_no office_code;
     t_status := "Published";
     t_category := "";
     t_mark_type := if Py.truthy mark_type then mark_type else kind_mark;
     t_filed := parse_date app_date;
     t_published := parse_date app_date;
     t_registered := "";
     t_expired := "";
     t_renewal_due := "";
     t_class_codes := Py.join "," (filter Py.truthy class_nums);
     t_goods_services := Py.take 4000 (Py.join " | " goods);
     t_source_file := path |}.

(** [ingest_journal_xml] *)
Definition ingest_journal_xml (f : xml_file) : proc unit :=
  seq (batch_marks [] (map (mark_tuple_of_elem (xml_path f)) (xml_elems f))) flush_marks.

(** *** [main]

    [files], [xlsx_files] and [xml_files] are what the three [discover_*]
    calls found and [old] is the index before the run.  With no file at
    all the index is left as it is.  Otherwise the old index is deleted,
    [setup_schema] creates the empty tables, and the files are ingested in
    order; no call is inside a [try].  The full-text tables that
    [rebuild_fts] fills are not read by the query engine and are not
    modelled.  The result is the index as the connection sees it at the
    end, and how the run ended. *)
Definition main (old : Backend.database) (files : list txt_file)
    (xlsx_files : list xlsx_file) (xml_files : list xml_file)
  : Backend.database * Py.outcome unit :=
  match files, xlsx_files, xml_files with
  | [], [], [] => (old, Py.Ok tt)
  | _, _, _ =>
      seq (for_each ingest_file files)
        (fun _ => seq (for_each ingest_patents xlsx_files)
                    (fun _ => for_each ingest_journal_xml xml_files))
        (Backend.mk_database [] [])
  end.

End BuildIndex.

(** ** The specification's wording, for comparison with the code *)

Module SpecWords.


(** The suffix/connector set as the specification lists it. *)
Definition owner_tokens : list string :=
  ["ltd"; "limited"; "llc"; "inc"; "corp"; "gmbh"; "plc"; "llp"; " and "; " & "].

(** [infer_owner_type(name)]: "company" if the lower-cased name contains
    any of the set; otherwise "individual_or_other"; empty name gives
    "unknown". *)
Definition infer_owner_type (name : string) : string :=
  if String.eqb name "" then "unknown"
  else if existsb (fun x => Py.contains x (Py.lower name)) owner_tokens then "company"
  else "individual_or_other".

(** A strict [YYYY-MM-DD]: four digits, a dash, two digits, a dash, two
    digits, naming a day that exists. *)
Definition strict_ymd (s : string) : option Py.date :=
  match s with
  | String y1 (String y2 (String y3 (String y4 (String h1 (String m1 (String m2
      (String h2 (String d1 (String d2 EmptyString))))))))) =>
      if Py.is_digit y1 && Py.is_digit y2 && Py.is_digit y3 && Py.is_digit y4
         && Ascii.eqb h1 "-" && Py.is_digit m1 && Py.is_digit m2
         && Ascii.eqb h2 "-" && Py.is_digit d1 && Py.is_digit d2
      then
        let dt :=
          Py.mkdate
            (1000 * Py.digit y1 + 100 * Py.digit y2 + 10 * Py.digit y3 + Py.digit y4)
            (10 * Py.digit m1 + Py.digit m2)
            (10 * Py.digit d1 + Py.digit d2) in
        if Py.valid_date dt then Some dt else None
      else None
  | _ => None
  end.

(** Activity of a mark: not active if the status (case-insensitive,
    trimmed) is one of the six; not active if an expiry date exists, parses
    as a strict [YYYY-MM-DD] and is strictly before the current date;
    otherwise active. *)
Definition mark_active (today : Py.date) (status expired : string) : bool :=
  if Py.mem (Py.lower (Py.strip status)) Backend.dead_statuses then false
  else
    match strict_ymd expired with
    | Some exp => negb (Py.date_ltb exp today)
    | None => true
    end.

End SpecWords.

(** The tokens [infer_owner_type] looks for, as the code writes them. *)
Definition spaced_owner_tokens : list string :=
  [" ltd"; " limited"; " llc"; " inc"; " corp"; " gmbh"; " plc"; " llp"; " and "; " & "].

(** The calendar day after [d]. *)
Definition next_day (d : Py.date) : Py.date :=
  if Py.day d <? Py.days_in_month (Py.year d) (Py.month d)
  then Py.mkdate (Py.year d) (Py.month d) (Py.day d + 1)
  else if Py.month d <? 12 then Py.mkdate (Py.year d) (Py.month d + 1) 1
  else Py.mkdate (Py.year d + 1) 1 1.

(** ** Predicates used in the statements *)

(** [collapsed prev s]: every character of [s] is in [[a-z0-9]] or is a
    space, and no space follows a space ([prev] tells that the character
    before [s] was one). *)
Fixpoint collapsed (prev : bool) (s : string) : bool :=
  match s with
  | EmptyString => true
  | String c s' =>
    if Backend.not_alnum c
      then Ascii.eqb c " " && negb prev && collapsed true s'
      else collapsed false s'
  end.

(** [s] does not start with white space. *)
Definition first_nonspace (s : string) : bool :=
  match s with
  | EmptyString => true
  | String c _ => negb (Py.isspace c)
  end.

(** The number of elements of a list that satisfy [p]. *)
Definition count_if {A : Type} (p : A -> bool) (l : list A) : nat :=
  length (filter p l).

(** A record takes part in the risk score: there is no class filter, or
    its class codes meet the filter. *)
Definition passes_filter (class_filter : list string) (m : Backend.mark_summary) : bool :=
  match class_filter with
  | [] => true
  | _ => Backend.class_overlap class_filter (Backend.ms_class_codes m)
  end.

(** Active with similarity >= 0.92. *)
Definition strong (m : Backend.mark_summary) : bool :=
  Backend.ms_active m && Py.fge (Backend.ms_similarity m) (Py.lit 92 (-2)).

(** Active with similarity in [0.85, 0.92). *)
Definition medium (m : Backend.mark_summary) : bool :=
  Backend.ms_active m
  && Py.fge (Backend.ms_similarity m) (Py.lit 85 (-2))
  && Py.flt (Backend.ms_similarity m) (Py.lit 92 (-2)).

(** A summary that holds nothing but the fields the risk score reads. *)
Definition bare_summary (active : bool) (codes : list string) (sim : Py.float)
  : Backend.mark_summary :=
  Backend.mk_mark_summary None "" None None None None None None "" "" "" None None
    active codes None sim.

(** Neither [%] nor [_] occurs in [s]. *)
Fixpoint no_wildcard (s : string) : bool :=
  match s with
  | EmptyString => true
  | String c s' => negb (Ascii.eqb c "%" || Ascii.eqb c "_") && no_wildcard s'
  end.

(** The exact tier: the rows of the resolved countries whose normalized
    text is the term, at most 25 of them. *)
Definition exact_tier (db : Backend.database) (term country : string)
  : list Backend.mark_row :=
  firstn 25
    (filter (fun m => Backend.sql_in (Backend.m_country m) (Backend.resolve_countries country)
                      && Backend.sql_eq (Backend.m_mark_text_norm m) term)
       (Backend.marks db)).

(** The prefix tier: the rows of the resolved countries whose normalized
    text starts with the term, at most 25 of them. *)
Definition prefix_tier (db : Backend.database) (term country : string)
  : list Backend.mark_row :=
  firstn 25
    (filter (fun m => Backend.sql_in (Backend.m_country m) (Backend.resolve_countries country)
                      && match Backend.m_mark_text_norm m with
                         | Some s => Py.startswith term s
                         | None => false
                         end)
       (Backend.marks db)).

(** The patent list of a response, from the index, the date, the trimmed
    query text and the flag alone. *)
Definition patent_list (db : Backend.database) (today : Py.date) (term : string)
    (include_patents : bool) : list Backend.patent_summary :=
  let term_norm := Backend.norm_text (Some term) in
  let rows :=
    if include_patents
    then fst (Backend.query_patents (Backend.open_db db) term_norm 25) else [] in
  firstn 50
    (Py.sort_desc
       (fun x y =>
          Backend.key_lt (Backend.ps_active x, Backend.ps_similarity x)
            (Backend.ps_active y, Backend.ps_similarity y))
       (map (fun r => Backend.summarize_patent today r term_norm) rows)).

(** Rows for the examples: a registered mark with its text and country,
    and a patent with its applicant, every other column [NULL]. *)
Definition bare_mark (id : Z) (reg_no mark_text country : string) : Backend.mark_row :=
  Backend.mk_mark_row id (Some reg_no) (Some mark_text)
    (Some (Backend.norm_text (Some mark_text))) None None (Some country)
    (Some "Registered") None None None None None None None None None None.

Definition bare_patent (id : Z) (applicant : string) : Backend.patent_row :=
  Backend.mk_patent_row id None None None None None None None None (Some applicant)
    None None None None None None None None None None None None None None None.

(** An index in which the exact tier and the prefix tier differ for the
    query "acme". *)
Definition two_tier_index : Backend.database :=
  Backend.mk_database
    [bare_mark 1 "UK1" "Acme Co" "United Kingdom";
     bare_mark 2 "UK2" "ACME" "United Kingdom";
     bare_mark 3 "US3" "Acme" "United States"]
    [bare_patent 1 "acme robotics ltd"].

(** The index [main] starts from: the old file is deleted and
    [setup_schema] creates the two tables, empty. *)
Definition empty_index : Backend.database := Backend.mk_database [] [].





(** An encoding attempt of [read_rows] that ends in its [except] clause:
    no first row, a header without both required columns, or a reading
    that fails later. *)
Definition attempt_fails (r : BuildIndex.reading) : bool :=
  match BuildIndex.rd_rows r with
  | [] => true
  | first :: _ =>
      negb (BuildIndex.has_trademark_headers (BuildIndex.clean_headers first))
      || BuildIndex.rd_fails r
  end.

(** An encoding attempt that yields nothing: no first row, or a header
    without both required columns. *)
Definition attempt_yields_nothing (r : BuildIndex.reading) : bool :=
  match BuildIndex.rd_rows r with
  | [] => true
  | first :: _ =>
      negb (BuildIndex.has_trademark_headers (BuildIndex.clean_headers first))
  end.

Definition all_encodings : list BuildIndex.encoding :=
  [BuildIndex.Utf16; BuildIndex.Utf16le; BuildIndex.Utf16be; BuildIndex.Utf8sig].

(** The file fails every encoding attempt of the chain. *)
Definition every_attempt_fails (f : BuildIndex.txt_file) : bool :=
  forallb (fun enc => attempt_fails (BuildIndex.txt_read f enc)) all_encodings.

(** No encoding gives the file a header with both required columns. *)
Definition no_header_fits (f : BuildIndex.txt_file) : bool :=
  forallb (fun enc => attempt_yields_nothing (BuildIndex.txt_read f enc)) all_encodings.

(** Files for the examples.  [bad_txt] is a UTF-8 text of 25 bytes,
    "Trade Mark|Name" and "UK1|Acme": it carries the marker the discovery
    looks for, cannot be decoded as UTF-16 (odd length), and its header has
    no "Mark Text".  [good_txt] is a well-formed export of one record. *)
Definition bad_txt : BuildIndex.txt_file :=
  BuildIndex.mk_txt_file "a/bad.txt"
    (fun enc =>
       match enc with
       | BuildIndex.Utf8sig =>
           BuildIndex.mk_reading [["Trade Mark"; "Name"]; ["UK1"; "Acme"]] false
       | _ => BuildIndex.mk_reading [] true
       end).

Definition good_txt : BuildIndex.txt_file :=
  BuildIndex.mk_txt_file "b/good.txt"
    (fun enc =>
       match enc with
       | BuildIndex.Utf16 =>
           BuildIndex.mk_reading
             [["Trade Mark"; "Mark Text"; "Country"; "Status"];
              ["US2"; "Bolt"; "United States"; "Registered"]] false
       | _ => BuildIndex.mk_reading [] true
       end).

(** The spreadsheet of the end-to-end property: two rows whose applicant
    is "Acme Robotics Ltd", no not-in-force date. *)
Definition acme_xlsx : BuildIndex.xlsx_file :=
  BuildIndex.mk_xlsx_file "c/patents.xlsx"
    [["Application number"; "Applicant name"; "Status"; "Date not in force"];
     ["GB1"; "Acme Robotics Ltd"; "Granted"; ""];
     ["GB2"; "Acme Robotics Ltd"; "Granted"]].

(** The index [main] builds from [acme_xlsx] alone, and the one it builds
    from [good_txt] (a United States mark) and [acme_xlsx]. *)
Definition acme_patents_index : Backend.database :=
  fst (BuildIndex.main empty_index [] [acme_xlsx] []).

Definition acme_index : Backend.database :=
  fst (BuildIndex.main empty_index [good_txt] [acme_xlsx] []).

(** The request of the end-to-end property. *)
Definition acme_request : Backend.request :=
  Backend.mk_request (Some "acme robotic") (Some "US") None None.

(** The patent list of a response; an error response has none. *)
Definition patents_of (r : Backend.response) : option (list Backend.patent_summary) :=
  match r with
  | Backend.Success body => Some (Backend.rs_patents body)
  | Backend.BadRequest _ _ => None
  end.

(** ** Predicates of the further properties *)

(** [s] consists of the digits 0-9. *)
Fixpoint all_digits (s : string) : bool :=
  match s with
  | EmptyString => true
  | String c s' => Py.between 48 57 c && all_digits s'
  end.

(** A class code: a non-empty text of digits. *)
Definition is_class_code (s : string) : bool := Py.truthy s && all_digits s.

(** The four regions of the country taxonomy. *)
Definition taxonomy : list string :=
  ["United Kingdom"; "European Union"; "United States"; "Rest of World"].

(** The rank of a risk tier: low, medium, high. *)
Definition risk_rank (risk : string) : nat :=
  if String.eqb risk "high" then 2%nat
  else if String.eqb risk "medium" then 1%nat
  else 0%nat.

(** In a list of activity flags, no [true] comes after a [false]. *)
Fixpoint active_first (flags : list bool) : bool :=
  match flags with
  | [] => true
  | b :: flags' => (b || forallb negb flags') && active_first flags'
  end.

(** The sort keys of [check] for the two kinds of summary. *)
Definition mark_key_lt (x y : Backend.mark_summary) : bool :=
  Backend.key_lt (Backend.ms_active x, Backend.ms_similarity x)
    (Backend.ms_active y, Backend.ms_similarity y).

Definition patent_key_lt (x y : Backend.patent_summary) : bool :=
  Backend.key_lt (Backend.ps_active x, Backend.ps_similarity x)
    (Backend.ps_active y, Backend.ps_similarity y).


(** The character [c] occurs in [s]. *)
Fixpoint has_char (c : ascii) (s : string) : bool :=
  match s with
  | EmptyString => false
  | String d s' => Ascii.eqb d c || has_char c s'
  end.

(** An entry of a comma-separated list: not empty, no white space at
    either end, no comma. *)
Definition is_entry (x : string) : bool :=
  Py.truthy x && String.eqb (Py.strip x) x && negb (has_char "," x).

(** [s] has no white space at either end. *)
Definition stripped (s : string) : bool := String.eqb (Py.strip s) s.

(** Every character of [s] is one of the capitals A-Z. *)
Fixpoint all_upper (s : string) : bool :=
  match s with
  | EmptyString => true
  | String c s' => Py.between 65 90 c && all_upper s'
  end.

(** What the schema and the ingestion keep of the table [marks]: no two
    rows share a [reg_no], the keys are 1, 2, ... in the order of the
    rows, no [reg_no] is [NULL], and [mark_text_norm] is the normalized
    [mark_text]. *)
Definition marks_ok (tbl : list Backend.mark_row) : Prop :=
  NoDup (map Backend.m_reg_no tbl)
  /\ map Backend.m_id tbl = map Z.of_nat (seq 1 (length tbl))
  /\ Forall (fun r => Backend.m_reg_no r <> None
                      /\ Backend.m_mark_text_norm r
                         = Some (Backend.norm_text (Backend.m_mark_text r))) tbl.

(** The keys of the table [patents] are 1, 2, ... in the order of the
    rows. *)
Definition patents_ok (tbl : list Backend.patent_row) : Prop :=
  map Backend.p_id tbl = map Z.of_nat (seq 1 (length tbl)).

Definition index_ok (db : Backend.database) : Prop :=
  marks_ok (Backend.marks db) /\ patents_ok (Backend.patents db).

(** A record whose normalized text is the normalized mark text. *)
Definition tuple_ok (t : BuildIndex.mark_tuple) : Prop :=
  BuildIndex.t_mark_text_norm t = Backend.norm_text (Some (BuildIndex.t_mark_text t)).

(** A row of a worksheet with at least one cell. *)
Definition nonempty_row (row : list string) : bool :=
  match row with
  | [] => false
  | _ => true
  end.


(** The column letters [read_xlsx_rows] takes from the reference of a
    cell, and whether there are any (a cell without letters is passed
    over). *)
Definition col_letters (c : BuildIndex.xlsx_cell) : string :=
  Py.filter_chars Py.isalpha (Py.or_empty (BuildIndex.c_r c)).

(** The cell is placed at the column of index [i]. *)
Definition placed_at (i : Z) (c : BuildIndex.xlsx_cell) : bool :=
  Py.truthy (col_letters c) && (BuildIndex.col_to_index (col_letters c) =? i).

(* ================================================================== *)
(** * Part II: lemmas and theorems                                      *)
(* ================================================================== *)

Example norm_text_acme :
  Backend.norm_text (Some "Acme-Co., Ltd!!") = "acme co ltd".
Proof. reflexivity. Qed.

(** ** Characters *)

Ltac ascii_cases c :=
  destruct c as [[] [] [] [] [] [] [] []]; vm_compute; try reflexivity; try discriminate.

Lemma alnum_not_space (c : ascii) :
  Backend.not_alnum c = false -> Py.isspace c = false.
Proof. ascii_cases c. Qed.


Lemma space_is (c : ascii) : Ascii.eqb c " " = true -> c = " "%char.
Proof. apply Ascii.eqb_eq. Qed.

(** ** The shape of a normalized text *)

Lemma re_sub_runs_collapsed (s : string) :
  forall b, collapsed b (Py.re_sub_runs Backend.not_alnum b s) = true.
Proof.
  induction s as [|c s IH]; intros b; simpl; [reflexivity|].
  destruct (Backend.not_alnum c) eqn:Hc.
  - destruct b; simpl; [apply IH|]. rewrite IH. reflexivity.
  - simpl. rewrite Hc. apply IH.
Qed.


Lemma collapsed_fix_space (t : string) :
  forall b, collapsed b t = true -> Py.re_sub_runs Py.isspace b t = t.
Proof.
  induction t as [|c t IH]; intros b H; simpl in *; [reflexivity|].
  destruct (Backend.not_alnum c) eqn:Hc.
  - apply andb_prop in H as [H Ht]. apply andb_prop in H as [Hsp Hb].
    apply space_is in Hsp. subst c. destruct b; [discriminate|].
    simpl. f_equal. apply IH, Ht.
  - rewrite (alnum_not_space _ Hc). f_equal. apply IH, H.
Qed.


Lemma collapsed_lstrip (t : string) :
  forall b, collapsed b t = true -> collapsed false (Py.lstrip t) = true.
Proof.
  induction t as [|c t IH]; intros b H; simpl in *; [reflexivity|].
  destruct (Backend.not_alnum c) eqn:Hc.
  - apply andb_prop in H as [H Ht]. apply andb_prop in H as [Hsp Hb].
    apply space_is in Hsp. subst c. simpl. apply (IH true), Ht.
  - rewrite (alnum_not_space _ Hc). simpl. rewrite Hc. exact H.
Qed.

Lemma collapsed_rstrip (t : string) :
  forall b, collapsed b t = true -> collapsed b (Py.rstrip t) = true.
Proof.
  induction t as [|c t IH]; intros b H; simpl in *; [reflexivity|].
  destruct (Backend.not_alnum c) eqn:Hc.
  - apply andb_prop in H as [H Ht]. apply andb_prop in H as [Hsp Hb].
    apply space_is in Hsp. subst c. specialize (IH true Ht).
    destruct (Py.rstrip t); [reflexivity|].
    simpl in *. rewrite Hb. exact IH.
  - specialize (IH false H).
    destruct (Py.rstrip t); simpl.
    + rewrite (alnum_not_space _ Hc). simpl. rewrite Hc. reflexivity.
    + simpl in IH. rewrite Hc. exact IH.
Qed.

(** ** [strip] *)

Lemma lstrip_first_nonspace (s : string) : first_nonspace (Py.lstrip s) = true.
Proof.
  induction s as [|c s IH]; simpl; [reflexivity|].
  destruct (Py.isspace c) eqn:Hc; [exact IH|]. simpl. rewrite Hc. reflexivity.
Qed.

Lemma lstrip_fixed (s : string) : first_nonspace s = true -> Py.lstrip s = s.
Proof.
  destruct s as [|c s]; simpl; [reflexivity|].
  destruct (Py.isspace c); [discriminate|reflexivity].
Qed.

Lemma rstrip_first_nonspace (s : string) :
  first_nonspace s = true -> first_nonspace (Py.rstrip s) = true.
Proof.
  destruct s as [|c s]; simpl; [reflexivity|]. intros Hc.
  destruct (Py.rstrip s); simpl; [|exact Hc].
  destruct (Py.isspace c) eqn:E; [reflexivity|]. simpl. rewrite E. reflexivity.
Qed.

Lemma rstrip_idem (s : string) : Py.rstrip (Py.rstrip s) = Py.rstrip s.
Proof.
  induction s as [|c s IH]; simpl; [reflexivity|].
  destruct (Py.rstrip s) as [|d r] eqn:Hr.
  - destruct (Py.isspace c) eqn:Hc; simpl; [reflexivity|]. rewrite Hc. reflexivity.
  - change (Py.rstrip (String c (String d r)) = String c (String d r)).
    simpl Py.rstrip at 1. fold Py.rstrip.
    change (match Py.rstrip (String d r) with
            | EmptyString => if Py.isspace c then EmptyString else String c EmptyString
            | String a r0 => String c (String a r0)
            end = String c (String d r)).
    rewrite IH. reflexivity.
Qed.

Lemma strip_idem (s : string) : Py.strip (Py.strip s) = Py.strip s.
Proof.
  unfold Py.strip.
  rewrite (lstrip_fixed (Py.rstrip (Py.lstrip s))).
  - apply rstrip_idem.
  - apply rstrip_first_nonspace, lstrip_first_nonspace.
Qed.

Lemma collapsed_strip (t : string) (b : bool) :
  collapsed b t = true -> collapsed false (Py.strip t) = true.
Proof.
  intros H. unfold Py.strip. apply collapsed_rstrip, (collapsed_lstrip _ b), H.
Qed.

(** ** [norm_text] *)


Lemma norm_text_collapsed (s : option string) :
  collapsed false (Backend.norm_text s) = true.
Proof.
  unfold Backend.norm_text. cbv zeta.
  rewrite (collapsed_fix_space _ false) by apply re_sub_runs_collapsed.
  apply (collapsed_strip _ false), re_sub_runs_collapsed.
Qed.




(** ** Dates: sanity checks of the model against CPython *)

Example strptime_examples :
  Py.strptime_ymd "2019-1-5" = Some (Py.mkdate 2019 1 5)
  /\ Py.strptime_ymd "2019-01-05" = Some (Py.mkdate 2019 1 5)
  /\ Py.strptime_ymd "2019-01-05 " = None
  /\ Py.strptime_ymd " 2019-01-05" = None
  /\ Py.strptime_ymd "2019-02-30" = None
  /\ Py.strptime_ymd "0000-01-01" = None
  /\ Py.strptime_ymd "2019-13-01" = None
  /\ Py.strptime_ymd "2019-1- 5" = Some (Py.mkdate 2019 1 5)
  /\ Py.strptime_ymd "2019-10-5" = Some (Py.mkdate 2019 10 5)
  /\ Py.strptime_ymd "2019-1-35" = None
  /\ Py.strptime_ymd "2019-00-10" = None
  /\ Py.strptime_ymd "2020-02-29" = Some (Py.mkdate 2020 2 29)
  /\ Py.strptime_ymd "1900-02-29" = None.
Proof. repeat split. Qed.

Example ordinal_examples :
  Py.toordinal (Py.mkdate 1899 12 30) = 693594
  /\ Py.fromordinal 693594 = Py.mkdate 1899 12 30
  /\ Py.fromordinal (693594 + 44197) = Py.mkdate 2021 1 1
  /\ Py.fromordinal Py.MAXORDINAL = Py.mkdate 9999 12 31
  /\ Py.fromordinal 1 = Py.mkdate 1 1 1
  /\ Py.fromordinal 730179 = Py.mkdate 2000 2 29
  /\ Py.isoformat (Py.mkdate 2021 1 1) = "2021-01-01".
Proof. repeat split. Qed.

(** ** [infer_owner_type] *)

Lemma truthy_false (s : string) : Py.truthy s = false <-> s = "".
Proof. destruct s; simpl; split; intros H; congruence. Qed.

Lemma infer_owner_type_eq (name : string) :
  BuildIndex.infer_owner_type name =
  if negb (Py.truthy name) then "unknown"
  else if existsb (fun x => Py.contains x (Py.lower name)) spaced_owner_tokens
       then "company" else "individual_or_other".
Proof.
  unfold BuildIndex.infer_owner_type, spaced_owner_tokens.
  destruct (Py.truthy name); simpl; [|reflexivity].
  repeat match goal with
         | |- context [Py.contains ?x ?n] =>
             let b := fresh "b" in
             generalize (Py.contains x n); intros b
         end.
  repeat match goal with b : bool |- _ => destruct b end; reflexivity.
Qed.

(** C8, the claim as stated fails: "Principal" contains the bare token
    "inc" once lower-cased, and is not classified as a company. *)
Lemma infer_owner_type_bare_token :
  In "inc" SpecWords.owner_tokens
  /\ Py.contains "inc" (Py.lower "Principal") = true
  /\ SpecWords.infer_owner_type "Principal" = "company"
  /\ BuildIndex.infer_owner_type "Principal" = "individual_or_other".
Proof. repeat split. simpl. tauto. Qed.

(** C8, amended.  [infer_owner_type] returns "unknown" exactly for the
    empty name; "company" exactly for a non-empty name whose lower-cased
    form contains one of " ltd", " limited", " llc", " inc", " corp",
    " gmbh", " plc", " llp" (each with its leading space), " and ", " & ";
    and "individual_or_other" for every other non-empty name. *)
Theorem infer_owner_type_cases (name : string) :
  (BuildIndex.infer_owner_type name = "unknown" <-> name = "")
  /\ (BuildIndex.infer_owner_type name = "company" <->
      name <> "" /\
      exists x, In x spaced_owner_tokens /\ Py.contains x (Py.lower name) = true)
  /\ (BuildIndex.infer_owner_type name = "individual_or_other" <->
      name <> "" /\
      forall x, In x spaced_owner_tokens -> Py.contains x (Py.lower name) = false).
Proof.
  rewrite infer_owner_type_eq.
  destruct name as [|c name].
  - simpl. repeat split; try discriminate; intros [H _]; congruence.
  - cbn [Py.truthy negb].
    destruct (existsb _ spaced_owner_tokens) eqn:E.
    + apply existsb_exists in E. repeat split; try discriminate; auto.
      intros [_ H]. destruct E as [x [Hin Hx]]. rewrite (H x Hin) in Hx. discriminate.
    + repeat split; try discriminate.
      * intros [_ [x [Hin Hx]]].
        assert (existsb (fun x => Py.contains x (Py.lower (String c name)))
                  spaced_owner_tokens = true) by (apply existsb_exists; eauto).
        congruence.
      * intros x Hin.
        destruct (Py.contains x (Py.lower (String c name))) eqn:Hx; [|reflexivity].
        assert (existsb (fun x => Py.contains x (Py.lower (String c name)))
                  spaced_owner_tokens = true) by (apply existsb_exists; eauto).
        congruence.
Qed.

Example infer_owner_type_examples :
  BuildIndex.infer_owner_type "" = "unknown"
  /\ BuildIndex.infer_owner_type "Acme Robotics Ltd" = "company"
  /\ BuildIndex.infer_owner_type "Smith & Sons" = "company"
  /\ BuildIndex.infer_owner_type "Ltd" = "individual_or_other"
  /\ BuildIndex.infer_owner_type "Jane Doe" = "individual_or_other".
Proof. repeat split. Qed.

(** ** [strptime] and [isoformat] *)

Lemma is_digit_inv (c : ascii) :
  Py.is_digit c = true ->
  In c (list_ascii_of_string "0123456789").
Proof. ascii_cases c; intros _; simpl; tauto. Qed.

Ltac digit_cases H :=
  apply is_digit_inv in H; simpl in H;
  repeat (destruct H as [H|H]; [subst|]); [..|contradiction].

(** A two-digit month is taken by the month group as a whole. *)
Lemma alts_month_two_digits (a b : ascii) (r : string) :
  Py.is_digit a = true -> Py.is_digit b = true ->
  1 <= 10 * Py.digit a + Py.digit b <= 12 ->
  exists tl, Py.alts_month (String a (String b r)) = (10 * Py.digit a + Py.digit b, r) :: tl.
Proof.
  intros Ha Hb. digit_cases Ha; digit_cases Hb; vm_compute;
    intros [H1 H2]; try (exfalso; congruence); eexists; reflexivity.
Qed.

Lemma alts_day_two_digits (a b : ascii) (r : string) :
  Py.is_digit a = true -> Py.is_digit b = true ->
  1 <= 10 * Py.digit a + Py.digit b <= 31 ->
  exists tl, Py.alts_day (String a (String b r)) = (10 * Py.digit a + Py.digit b, r) :: tl.
Proof.
  intros Ha Hb. digit_cases Ha; digit_cases Hb; vm_compute;
    intros [H1 H2]; try (exfalso; congruence); eexists; reflexivity.
Qed.

Lemma valid_date_bounds (d : Py.date) :
  Py.valid_date d = true ->
  1 <= Py.year d <= 9999 /\ 1 <= Py.month d <= 12 /\ 1 <= Py.day d <= 31.
Proof.
  unfold Py.valid_date. intros H.
  repeat (apply andb_prop in H as [H ?]).
  assert (Hm : 1 <= Py.month d <= 12) by lia.
  assert (Py.days_in_month (Py.year d) (Py.month d) <= 31).
  { unfold Py.days_in_month.
    destruct ((Py.month d =? 2) && Py.is_leap (Py.year d)); [lia|].
    assert (Hc : Py.month d = 1 \/ Py.month d = 2 \/ Py.month d = 3 \/ Py.month d = 4
            \/ Py.month d = 5 \/ Py.month d = 6 \/ Py.month d = 7 \/ Py.month d = 8
            \/ Py.month d = 9 \/ Py.month d = 10 \/ Py.month d = 11 \/ Py.month d = 12)
      by lia.
    repeat (destruct Hc as [Hc|Hc]; [rewrite Hc; simpl; lia|]).
    rewrite Hc; simpl; lia. }
  lia.
Qed.

(** Every strict [YYYY-MM-DD] text is read by [strptime] as the same date. *)
Lemma strict_ymd_strptime (s : string) (d : Py.date) :
  SpecWords.strict_ymd s = Some d -> Py.strptime_ymd s = Some d.
Proof.
  unfold SpecWords.strict_ymd.
  destruct s as [|y1 [|y2 [|y3 [|y4 [|h1 [|m1 [|m2 [|h2 [|d1 [|d2 [|? ?]]]]]]]]]]];
    try discriminate.
  destruct (Py.is_digit y1) eqn:Y1; [|discriminate].
  destruct (Py.is_digit y2) eqn:Y2; [|discriminate].
  destruct (Py.is_digit y3) eqn:Y3; [|discriminate].
  destruct (Py.is_digit y4) eqn:Y4; [|discriminate].
  destruct (Ascii.eqb h1 "-") eqn:H1; [|discriminate].
  destruct (Py.is_digit m1) eqn:M1; [|discriminate].
  destruct (Py.is_digit m2) eqn:M2; [|discriminate].
  destruct (Ascii.eqb h2 "-") eqn:H2; [|discriminate].
  destruct (Py.is_digit d1) eqn:D1; [|discriminate].
  destruct (Py.is_digit d2) eqn:D2; [|discriminate].
  cbn [andb].
  match goal with
  | |- (if Py.valid_date ?dt then _ else _) = _ -> _ =>
      destruct (Py.valid_date dt) eqn:V; [|discriminate]
  end.
  intros Hd. injection Hd as <-.
  pose proof (valid_date_bounds _ V) as (_ & Hm & Hday). cbn [Py.month Py.day] in Hm, Hday.
  apply Ascii.eqb_eq in H1, H2. subst h1 h2.
  destruct (alts_month_two_digits m1 m2 (String "-" (String d1 (String d2 ""))))
    as [tlm Em]; auto.
  destruct (alts_day_two_digits d1 d2 "") as [tld Ed]; auto.
  unfold Py.strptime_ymd, Py.match_ymd.
  rewrite Y1, Y2, Y3, Y4. cbn [andb Py.expect_dash].
  change (Ascii.eqb "-" "-") with true. cbv iota.
  rewrite Em. cbn [Py.first_success snd fst Py.expect_dash].
  change (Ascii.eqb "-" "-") with true. cbv iota.
  rewrite Ed, V. reflexivity.
Qed.

Lemma digit_char_ok (k : Z) :
  0 <= k <= 9 -> Py.is_digit (Py.digit_char k) = true /\ Py.digit (Py.digit_char k) = k.
Proof.
  intros H.
  assert (Hc : k = 0 \/ k = 1 \/ k = 2 \/ k = 3 \/ k = 4 \/ k = 5 \/ k = 6 \/ k = 7
          \/ k = 8 \/ k = 9) by lia.
  repeat (destruct Hc as [Hc|Hc]; [subst k; split; reflexivity|]).
  subst k; split; reflexivity.
Qed.

(** [isoformat] writes a valid date as a strict [YYYY-MM-DD]. *)
Lemma strict_ymd_isoformat (d : Py.date) :
  Py.valid_date d = true -> SpecWords.strict_ymd (Py.isoformat d) = Some d.
Proof.
  intros V. pose proof (valid_date_bounds _ V) as (Hy & Hm & Hd).
  destruct d as [y m dd]. cbn [Py.year Py.month Py.day] in *.
  unfold Py.isoformat, Py.fmt04, Py.fmt02. cbn [Py.year Py.month Py.day append].
  unfold SpecWords.strict_ymd.
  destruct (digit_char_ok (y / 1000)) as [A1 B1];
    [clear - Hy Hm Hd; Z.div_mod_to_equations; lia|].
  destruct (digit_char_ok (y / 100 mod 10)) as [A2 B2];
    [clear - Hy Hm Hd; Z.div_mod_to_equations; lia|].
  destruct (digit_char_ok (y / 10 mod 10)) as [A3 B3];
    [clear - Hy Hm Hd; Z.div_mod_to_equations; lia|].
  destruct (digit_char_ok (y mod 10)) as [A4 B4];
    [clear - Hy Hm Hd; Z.div_mod_to_equations; lia|].
  destruct (digit_char_ok (m / 10)) as [A5 B5];
    [clear - Hy Hm Hd; Z.div_mod_to_equations; lia|].
  destruct (digit_char_ok (m mod 10)) as [A6 B6];
    [clear - Hy Hm Hd; Z.div_mod_to_equations; lia|].
  destruct (digit_char_ok (dd / 10)) as [A7 B7];
    [clear - Hy Hm Hd; Z.div_mod_to_equations; lia|].
  destruct (digit_char_ok (dd mod 10)) as [A8 B8];
    [clear - Hy Hm Hd; Z.div_mod_to_equations; lia|].
  rewrite A1, A2, A3, A4, A5, A6, A7, A8, B1, B2, B3, B4, B5, B6, B7, B8.
  change (Ascii.eqb "-" "-") with true. cbn [andb].
  replace (1000 * (y / 1000) + 100 * (y / 100 mod 10) + 10 * (y / 10 mod 10) + y mod 10)
    with y by (clear; Z.div_mod_to_equations; lia).
  replace (10 * (m / 10) + m mod 10) with m by (clear; Z.div_mod_to_equations; lia).
  replace (10 * (dd / 10) + dd mod 10) with dd by (clear; Z.div_mod_to_equations; lia).
  rewrite V. reflexivity.
Qed.

Lemma strptime_isoformat (d : Py.date) :
  Py.valid_date d = true -> Py.strptime_ymd (Py.isoformat d) = Some d.
Proof. intros V. apply strict_ymd_strptime, strict_ymd_isoformat, V. Qed.

Lemma isoformat_truthy (d : Py.date) : Py.truthy (Py.isoformat d) = true.
Proof. reflexivity. Qed.

(** ** The calendar *)

Lemma date_ltb_irrefl (d : Py.date) : Py.date_ltb d d = false.
Proof.
  unfold Py.date_ltb. rewrite !Z.ltb_irrefl, !Z.eqb_refl. reflexivity.
Qed.

Lemma date_ltb_next_day (d : Py.date) :
  Py.valid_date d = true -> Py.date_ltb d (next_day d) = true.
Proof.
  intros V. pose proof (valid_date_bounds _ V) as (Hy & Hm & Hd).
  unfold next_day, Py.date_ltb.
  destruct (Py.day d <? Py.days_in_month (Py.year d) (Py.month d));
    [|destruct (Py.month d <? 12)]; cbn [Py.year Py.month Py.day];
    repeat match goal with
           | |- context [?a <? ?b] => destruct (Z.ltb_spec a b)
           | |- context [?a =? ?b] => destruct (Z.eqb_spec a b)
           end; simpl; try reflexivity; lia.
Qed.

Lemma date_ltb_asym (a b : Py.date) :
  Py.date_ltb a b = true -> Py.date_ltb b a = false.
Proof.
  unfold Py.date_ltb. intros H.
  destruct (Z.ltb_spec (Py.year a) (Py.year b)), (Z.ltb_spec (Py.year b) (Py.year a)),
    (Z.eqb_spec (Py.year a) (Py.year b)), (Z.eqb_spec (Py.year b) (Py.year a)),
    (Z.ltb_spec (Py.month a) (Py.month b)), (Z.ltb_spec (Py.month b) (Py.month a)),
    (Z.eqb_spec (Py.month a) (Py.month b)), (Z.eqb_spec (Py.month b) (Py.month a)),
    (Z.ltb_spec (Py.day a) (Py.day b)), (Z.ltb_spec (Py.day b) (Py.day a));
    simpl in *; try reflexivity; try discriminate; lia.
Qed.

Lemma days_before_next_month (y m : Z) :
  1 <= m <= 11 ->
  Py.days_before_month y (m + 1) = Py.days_before_month y m + Py.days_in_month y m.
Proof.
  intros Hm. unfold Py.days_before_month, Py.days_in_month.
  assert (Hc : m = 1 \/ m = 2 \/ m = 3 \/ m = 4 \/ m = 5 \/ m = 6 \/ m = 7
          \/ m = 8 \/ m = 9 \/ m = 10 \/ m = 11) by lia.
  destruct (Py.is_leap y);
    repeat (destruct Hc as [Hc|Hc]; [subst m; reflexivity|]); subst m; reflexivity.
Qed.

Lemma days_before_next_year (y : Z) :
  Py.days_before_year (y + 1) =
  Py.days_before_year y + 365 + (if Py.is_leap y then 1 else 0).
Proof.
  unfold Py.days_before_year, Py.is_leap.
  destruct (Z.eqb_spec (y mod 4) 0), (Z.eqb_spec (y mod 100) 0),
    (Z.eqb_spec (y mod 400) 0); cbn [andb orb negb];
    Z.div_mod_to_equations; lia.
Qed.

(** [next_day] agrees with the day count of [toordinal], on which Python's
    [date + timedelta(days=1)] is defined. *)
Lemma toordinal_next_day (d : Py.date) :
  Py.valid_date d = true -> Py.toordinal (next_day d) = Py.toordinal d + 1.
Proof.
  intros V. pose proof (valid_date_bounds _ V) as (Hy & Hm & Hd).
  unfold Py.valid_date in V. repeat (apply andb_prop in V as [V ?]).
  destruct d as [y m dd]. cbn [Py.year Py.month Py.day] in *.
  unfold next_day, Py.toordinal. cbn [Py.year Py.month Py.day].
  destruct (Z.ltb_spec dd (Py.days_in_month y m)) as [Hlt|Hge];
    cbn [Py.year Py.month Py.day]; [lia|].
  assert (Hdd : dd = Py.days_in_month y m) by lia. clear Hge.
  destruct (Z.ltb_spec m 12) as [Hm12|Hm12]; cbn [Py.year Py.month Py.day].
  - rewrite days_before_next_month by lia. lia.
  - assert (m = 12) by lia. subst m dd.
    rewrite days_before_next_year.
    unfold Py.days_before_month, Py.days_in_month.
    destruct (Py.is_leap y); change (12 =? 2) with false; cbn [andb];
      change (2 <? 12) with true; change (2 <? 1) with false; cbn [andb];
      change (Z.to_nat 12) with 12%nat; change (Z.to_nat 1) with 1%nat;
      cbn [nth]; lia.
Qed.

(** ** [is_active] *)

(** C3, the claim as stated fails: "2019-1-5" is not a strict [YYYY-MM-DD],
    so the claim keeps a registered mark with that expiry active, while
    [strptime] reads it as 5 January 2019 and [is_active] answers [False]
    on 1 June 2024. *)
Lemma is_active_one_digit_month :
  SpecWords.strict_ymd "2019-1-5" = None
  /\ SpecWords.mark_active (Py.mkdate 2024 6 1) "Registered" "2019-1-5" = true
  /\ Py.strptime_ymd "2019-1-5" = Some (Py.mkdate 2019 1 5)
  /\ Backend.is_active (Py.mkdate 2024 6 1) (Some "Registered") "2019-1-5" = false.
Proof. repeat split. Qed.

(** C3, amended.  A mark is derived inactive iff its trimmed, lower-cased
    status is one of dead, expired, withdrawn, revoked, cancelled, removed,
    or its expiry value is present, is read by [strptime] under the format
    [%Y-%m-%d] (four-digit year; month and day of one or two digits; a day
    that exists) and is strictly before the current UTC date; otherwise it
    is active.  Every strict [YYYY-MM-DD] text is read as the date it
    names.  A mark with status "Registered" whose expiry is yesterday is
    inactive; with today or tomorrow it is active. *)
Theorem is_active_cases :
  (forall (today : Py.date) (status : option string) (expired : string),
      Backend.is_active today status expired = false <->
      (Py.mem (Py.lower (Py.strip (Py.or_empty status))) Backend.dead_statuses = true
       \/ (expired <> "" /\
           exists exp, Py.strptime_ymd expired = Some exp /\ Py.date_ltb exp today = true)))
  /\ (forall (s : string) (d : Py.date),
         SpecWords.strict_ymd s = Some d -> Py.strptime_ymd s = Some d)
  /\ (forall today : Py.date,
         Py.valid_date today = true ->
         Backend.is_active today (Some "Registered") (Py.isoformat today) = true
         /\ (Py.valid_date (next_day today) = true ->
             Backend.is_active today (Some "Registered") (Py.isoformat (next_day today)) = true)
         /\ (forall yesterday : Py.date,
                Py.valid_date yesterday = true -> next_day yesterday = today ->
                Backend.is_active today (Some "Registered") (Py.isoformat yesterday) = false)).
Proof.
  split; [|split].
  - intros today status expired. unfold Backend.is_active.
    destruct (Py.mem _ Backend.dead_statuses); [split; auto|].
    destruct expired as [|c e]; cbn [Py.truthy].
    + split; [discriminate|]. intros [H|[H _]]; congruence.
    + destruct (Py.strptime_ymd (String c e)) as [exp|] eqn:P.
      * destruct (Py.date_ltb exp today) eqn:L.
        -- split; [|reflexivity]. intros _. right. split; [discriminate|eauto].
        -- split; [discriminate|].
           intros [H|[_ [x [Hx Hl]]]]; [discriminate|]. congruence.
      * split; [discriminate|].
        intros [H|[_ [x [Hx Hl]]]]; discriminate.
  - apply strict_ymd_strptime.
  - intros today V.
    assert (R : forall d, Py.valid_date d = true ->
                Backend.is_active today (Some "Registered") (Py.isoformat d)
                = negb (Py.date_ltb d today)).
    { intros d Vd. unfold Backend.is_active.
      change (Py.mem (Py.lower (Py.strip (Py.or_empty (Some "Registered"))))
                Backend.dead_statuses) with false. cbv iota.
      rewrite isoformat_truthy, (strptime_isoformat _ Vd).
      destruct (Py.date_ltb d today); reflexivity. }
    split; [|split].
    + rewrite (R _ V), date_ltb_irrefl. reflexivity.
    + intros V'. rewrite (R _ V'), (date_ltb_asym _ _ (date_ltb_next_day _ V)).
      reflexivity.
    + intros y Vy <-. rewrite (R _ Vy), (date_ltb_next_day _ Vy). reflexivity.
Qed.

Lemma is_active_cases_witness :
  Backend.is_active (Py.mkdate 2024 6 1) (Some "Registered") "2024-05-31" = false
  /\ Backend.is_active (Py.mkdate 2024 6 1) (Some "Registered") "2024-06-01" = true
  /\ Backend.is_active (Py.mkdate 2024 6 1) (Some "Registered") "2024-06-02" = true.
Proof.
  destruct is_active_cases as (_ & _ & H).
  destruct (H (Py.mkdate 2024 6 1) eq_refl) as (A & B & C).
  split; [exact (C (Py.mkdate 2024 5 31) eq_refl eq_refl)|].
  split; [exact A|exact (B eq_refl)].
Defined.

(** ** Comparison of floats *)

Lemma SFcompare_antisym (x y : Py.float) :
  SFcompare y x = option_map CompOpp (SFcompare x y).
Proof.
  destruct x as [sx|sx| |sx mx ex], y as [sy|sy| |sy my ey]; simpl;
    try reflexivity;
    try (destruct sx; reflexivity); try (destruct sy; reflexivity);
    try (destruct sx, sy; reflexivity).
  pose proof (Pos.compare_cont_antisym mx my Eq) as HP. cbn [CompOpp] in HP.
  destruct sx, sy; simpl; try reflexivity;
    rewrite (Z.compare_antisym ex ey);
    destruct (ex ?= ey); simpl; try reflexivity;
    rewrite <- HP; destruct (Pos.compare_cont Eq mx my); reflexivity.
Qed.

(** [x < y] excludes [y <= x]. *)
Lemma flt_not_fle (x y : Py.float) : Py.flt x y = true -> Py.fle y x = false.
Proof.
  unfold Py.flt, Py.fle, SFltb, SFleb. rewrite (SFcompare_antisym x y).
  destruct (SFcompare x y) as [[]|]; simpl; congruence.
Qed.

(** When [x] and [y] compare at all, [not (y <= x)] is [x < y]. *)
Lemma not_fle_flt (x y : Py.float) :
  SFcompare x y <> None -> negb (Py.fle y x) = Py.flt x y.
Proof.
  unfold Py.flt, Py.fle, SFltb, SFleb. rewrite (SFcompare_antisym x y).
  destruct (SFcompare x y) as [[]|]; simpl; congruence.
Qed.

(** ** [excel_date_to_iso] *)

Example excel_date_to_iso_examples :
  BuildIndex.excel_date_to_iso (Some "44197") = Py.Ok "2021-01-01"
  /\ BuildIndex.excel_date_to_iso (Some " 44197.75 ") = Py.Ok "2021-01-01"
  /\ BuildIndex.excel_date_to_iso (Some "1") = Py.Ok "1899-12-31"
  /\ BuildIndex.excel_date_to_iso (Some "0.5") = Py.Ok "1899-12-30"
  /\ BuildIndex.excel_date_to_iso (Some "2958465") = Py.Ok "9999-12-31"
  /\ BuildIndex.excel_date_to_iso (Some "0") = Py.Ok ""
  /\ BuildIndex.excel_date_to_iso (Some "-3") = Py.Ok ""
  /\ BuildIndex.excel_date_to_iso (Some "1e-400") = Py.Ok ""
  /\ BuildIndex.excel_date_to_iso (Some "N/A") = Py.Ok ""
  /\ BuildIndex.excel_date_to_iso None = Py.Ok ""
  /\ BuildIndex.excel_date_to_iso (Some "nan") = Py.Ok "nan"
  /\ BuildIndex.excel_date_to_iso (Some "2958466") = Py.Raised Py.OverflowError
  /\ BuildIndex.excel_date_to_iso (Some "inf") = Py.Raised Py.OverflowError.
Proof. repeat split. Qed.

(** C7, the claim as stated fails: a text that is not a number is not
    mapped to the empty string, it is returned as it is (trimmed). *)
Lemma excel_date_to_iso_keeps_text :
  Py.float_of_str "abc" = None
  /\ BuildIndex.excel_date_to_iso (Some "abc") = Py.Ok "abc"
  /\ Py.float_of_str "05/01/2021" = None
  /\ BuildIndex.excel_date_to_iso (Some " 05/01/2021") = Py.Ok "05/01/2021".
Proof. repeat split. Qed.

Lemma int_of_float_positive (v : Py.float) (n : Z) :
  Py.flt (S754_zero false) v = true -> Py.int_of_float v = Py.Ok n -> 0 <= n.
Proof.
  destruct v as [s|s| |s m e];
    try (simpl; intros; discriminate); try (destruct s; simpl; intros; discriminate).
  destruct s; [simpl; intros; discriminate|].
  intros _ H.
  assert (Hn : n = if 0 <=? e then Z.pos m * 2 ^ e else Z.pos m / 2 ^ (- e))
    by (unfold Py.int_of_float in H; congruence).
  subst n. clear H.
  destruct (0 <=? e) eqn:E.
  - apply Z.leb_le in E. apply Z.mul_nonneg_nonneg; [lia|]. apply Z.pow_nonneg. lia.
  - apply Z.div_pos; [lia|]. apply Z.pow_pos_nonneg; [lia|].
    apply Z.leb_gt in E. lia.
Qed.

Lemma mem_In (x : string) (xs : list string) : Py.mem x xs = true <-> In x xs.
Proof.
  unfold Py.mem. rewrite existsb_exists. split.
  - intros [y [Hin Hy]]. apply String.eqb_eq in Hy. subst y. exact Hin.
  - intros Hin. exists x. split; [exact Hin|apply String.eqb_refl].
Qed.

Lemma null_gate_open (t : string) :
  t <> "" -> ~ In t BuildIndex.NULL_VALUES ->
  negb (Py.truthy t) || Py.mem t BuildIndex.NULL_VALUES = false.
Proof.
  intros Ht Hn.
  destruct (Py.mem t BuildIndex.NULL_VALUES) eqn:M.
  - exfalso. apply Hn, mem_In, M.
  - destruct t; [congruence|reflexivity].
Qed.

(** The empty text and the null tokens are not numbers. *)
Lemma float_not_null (t : string) (v : Py.float) :
  Py.float_of_str t = Some v -> t <> "" /\ ~ In t BuildIndex.NULL_VALUES.
Proof.
  intros H. split.
  - intros ->. discriminate H.
  - intros Hin. simpl in Hin.
    repeat (destruct Hin as [Hin|Hin]; [subst t; discriminate H|]). exact Hin.
Qed.

(** C7, amended.  With [t] the trimmed input: an empty [t] or one of the
    null tokens gives the empty string; a [t] that [float] does not read,
    and a NaN, is returned unchanged; a non-positive number gives the empty
    string; a positive number [v] whose integer part [n] is at most
    2958465 gives the ISO form of the day [n] days after 1899-12-30. *)
Theorem excel_date_to_iso_cases (s : option string) :
  let t := Py.strip (Py.or_empty s) in
  (t = "" \/ In t BuildIndex.NULL_VALUES -> BuildIndex.excel_date_to_iso s = Py.Ok "")
  /\ (t <> "" -> ~ In t BuildIndex.NULL_VALUES ->
      (Py.float_of_str t = None \/ Py.float_of_str t = Some S754_nan) ->
      BuildIndex.excel_date_to_iso s = Py.Ok t)
  /\ (forall v : Py.float,
         Py.float_of_str t = Some v -> Py.fle v (S754_zero false) = true ->
         BuildIndex.excel_date_to_iso s = Py.Ok "")
  /\ (forall (v : Py.float) (n : Z),
         Py.float_of_str t = Some v -> Py.flt (S754_zero false) v = true ->
         Py.int_of_float v = Py.Ok n -> n <= 2958465 ->
         BuildIndex.excel_date_to_iso s =
         Py.Ok (Py.isoformat
                  (Py.fromordinal (Py.toordinal (Py.mkdate 1899 12 30) + n)))).
Proof.
  unfold BuildIndex.excel_date_to_iso. cbv zeta.
  generalize (Py.strip (Py.or_empty s)). intros t.
  pose proof (mem_In t BuildIndex.NULL_VALUES) as Hmem.
  pose proof (null_gate_open t) as Hgate.
  repeat split.
  - intros [Ht|Hin].
    + rewrite Ht. reflexivity.
    + apply Hmem in Hin. rewrite Hin, orb_true_r. reflexivity.
  - intros Ht Hn Hf. rewrite (Hgate Ht Hn).
    destruct Hf as [Hf|Hf]; rewrite Hf; reflexivity.
  - intros v Hv Hle.
    destruct (negb (Py.truthy t) || Py.mem t BuildIndex.NULL_VALUES); [reflexivity|].
    rewrite Hv, Hle. reflexivity.
  - intros v n Hv Hpos Hint Hmax.
    destruct (float_not_null _ _ Hv) as [Ht Hn]. rewrite (Hgate Ht Hn), Hv.
    rewrite (flt_not_fle _ _ Hpos), Hint.
    pose proof (int_of_float_positive _ _ Hpos Hint) as Hn0.
    unfold Py.date_add_days.
    replace (n <? -999999999) with false by (symmetry; apply Z.ltb_ge; lia).
    replace (999999999 <? n) with false by (symmetry; apply Z.ltb_ge; lia).
    change (Py.toordinal (Py.mkdate 1899 12 30)) with 693594.
    cbn [orb].
    replace (0 <? 693594 + n) with true by (symmetry; apply Z.ltb_lt; lia).
    replace (693594 + n <=? Py.MAXORDINAL) with true
      by (symmetry; apply Z.leb_le; unfold Py.MAXORDINAL; lia).
    reflexivity.
Qed.

Lemma excel_date_to_iso_cases_witness :
  BuildIndex.excel_date_to_iso (Some "44197") = Py.Ok "2021-01-01"
  /\ BuildIndex.excel_date_to_iso (Some "abc") = Py.Ok "abc"
  /\ BuildIndex.excel_date_to_iso (Some "-3") = Py.Ok ""
  /\ BuildIndex.excel_date_to_iso (Some "NULL") = Py.Ok "".
Proof.
  split; [|split; [|split]].
  - apply (proj2 (proj2 (proj2 (excel_date_to_iso_cases (Some "44197"))))
             (S754_finite false 6074389426601984 (-37)) 44197).
    + vm_compute. reflexivity.
    + reflexivity.
    + reflexivity.
    + lia.
  - apply (proj1 (proj2 (excel_date_to_iso_cases (Some "abc")))).
    + discriminate.
    + simpl. intros H. repeat (destruct H as [H|H]; [discriminate|]). exact H.
    + left. reflexivity.
  - apply (proj1 (proj2 (proj2 (excel_date_to_iso_cases (Some "-3"))))
             (S754_finite true 6755399441055744 (-51))).
    + vm_compute. reflexivity.
    + reflexivity.
  - apply (proj1 (excel_date_to_iso_cases (Some "NULL"))).
    right. simpl. tauto.
Defined.

(** ** [score_risk] *)

Lemma SFcompare_None (x y : Py.float) :
  SFcompare x y = None -> x = S754_nan \/ y = S754_nan.
Proof.
  destruct x as [sx|sx| |sx mx ex], y as [sy|sy| |sy my ey]; simpl; auto;
    try discriminate; try (destruct sx; discriminate).
Qed.

(** Above 0.85, "not at least 0.92" is "below 0.92". *)
Lemma below_strong (x : Py.float) :
  Py.fge x (Py.lit 85 (-2)) = true ->
  negb (Py.fge x (Py.lit 92 (-2))) = Py.flt x (Py.lit 92 (-2)).
Proof.
  intros H. unfold Py.fge. apply not_fle_flt. intros C.
  apply SFcompare_None in C. destruct C as [C|C]; [|discriminate C].
  subst x. discriminate H.
Qed.

Lemma strong_medium_disjoint (m : Backend.mark_summary) : strong m && medium m = false.
Proof.
  unfold strong, medium.
  destruct (Backend.ms_active m); [|reflexivity]. cbn [andb].
  destruct (Py.fge (Backend.ms_similarity m) (Py.lit 85 (-2))) eqn:E;
    [|apply andb_false_r].
  rewrite <- (below_strong _ E).
  destruct (Py.fge (Backend.ms_similarity m) (Py.lit 92 (-2))); reflexivity.
Qed.

(** The loop body, by the three classes of a record. *)
Lemma risk_step_eq (cf : list string) (st : nat * nat) (m : Backend.mark_summary) :
  Backend.risk_step cf st m =
  if passes_filter cf m && strong m then (S (fst st), snd st)
  else if passes_filter cf m && medium m then (fst st, S (snd st))
  else st.
Proof.
  destruct st as [a b]. unfold Backend.risk_step, passes_filter, strong, medium.
  cbn [fst snd].
  assert (G : forall p : bool,
             (if negb p then (a, b)
              else if Backend.ms_active m && Py.fge (Backend.ms_similarity m) (Py.lit 92 (-2))
                   then (S a, b)
                   else if Backend.ms_active m
                           && Py.fge (Backend.ms_similarity m) (Py.lit 85 (-2))
                        then (a, S b) else (a, b))
             = (if p && (Backend.ms_active m
                         && Py.fge (Backend.ms_similarity m) (Py.lit 92 (-2)))
                then (S a, b)
                else if p && (Backend.ms_active m
                              && Py.fge (Backend.ms_similarity m) (Py.lit 85 (-2))
                              && Py.flt (Backend.ms_similarity m) (Py.lit 92 (-2)))
                     then (a, S b) else (a, b))).
  { intros p. destruct p; [|reflexivity]. cbn [negb andb].
    destruct (Backend.ms_active m); [|reflexivity]. cbn [andb].
    destruct (Py.fge (Backend.ms_similarity m) (Py.lit 85 (-2))) eqn:E.
    - rewrite <- (below_strong _ E).
      destruct (Py.fge (Backend.ms_similarity m) (Py.lit 92 (-2))); reflexivity.
    - destruct (Py.fge (Backend.ms_similarity m) (Py.lit 92 (-2))); reflexivity. }
  destruct cf as [|c cf].
  - exact (G true).
  - rewrite <- G. reflexivity.
Qed.

Lemma risk_fold (cf : list string) (l : list Backend.mark_summary) :
  forall st,
    fold_left (Backend.risk_step cf) l st =
    ((fst st + count_if (fun m => passes_filter cf m && strong m) l)%nat,
     (snd st + count_if (fun m => passes_filter cf m && medium m) l)%nat).
Proof.
  unfold count_if.
  induction l as [|m l IH]; intros [a b]; cbn [fold_left filter fst snd].
  - simpl. rewrite !Nat.add_0_r. reflexivity.
  - rewrite IH, risk_step_eq. cbn [fst snd].
    destruct (passes_filter cf m) eqn:P; cbn [andb].
    + pose proof (strong_medium_disjoint m) as D.
      destruct (strong m), (medium m); try discriminate D; cbn [fst snd length];
        f_equal; lia.
    + reflexivity.
Qed.



(** ** [LIKE] and prefixes *)

Lemma like_percent (t : string) : Backend.like "%" t = true.
Proof.
  induction t as [|c t IH]; [reflexivity|].
  simpl in *. exact IH.
Qed.

(** A pattern without wildcards followed by [%] selects the texts that
    start with it. *)
Lemma like_prefix (p : string) :
  no_wildcard p = true ->
  forall t, Backend.like (p ++ "%") t = Py.startswith p t.
Proof.
  induction p as [|c p IH]; intros W t.
  - simpl append. rewrite like_percent. destruct t; reflexivity.
  - cbn [no_wildcard] in W. apply andb_prop in W as [Wc Wp].
    apply negb_true_iff, orb_false_elim in Wc as [W1 W2].
    cbn [append Backend.like]. rewrite W1.
    destruct t as [|d t]; [reflexivity|].
    rewrite W2. cbn [orb Py.startswith]. rewrite (IH Wp). reflexivity.
Qed.

Lemma alnum_not_wildcard (c : ascii) :
  Backend.not_alnum c = false -> Ascii.eqb c "%" || Ascii.eqb c "_" = false.
Proof. ascii_cases c. Qed.

Lemma collapsed_no_wildcard (t : string) :
  forall b, collapsed b t = true -> no_wildcard t = true.
Proof.
  induction t as [|c t IH]; intros b H; simpl in *; [reflexivity|].
  destruct (Backend.not_alnum c) eqn:Hc.
  - apply andb_prop in H as [H Ht]. apply andb_prop in H as [Hsp Hb].
    apply space_is in Hsp. subst c. simpl. apply (IH true), Ht.
  - rewrite (alnum_not_wildcard _ Hc). simpl. apply (IH false), H.
Qed.

Lemma norm_text_no_wildcard (s : option string) :
  no_wildcard (Backend.norm_text s) = true.
Proof. apply (collapsed_no_wildcard _ false), norm_text_collapsed. Qed.

(** ** [query_candidates] *)

Lemma firstn_length_le {A : Type} (n : nat) (l : list A) : (length (firstn n l) <= n)%nat.
Proof. rewrite length_firstn. lia. Qed.

Example resolve_countries_examples :
  Backend.resolve_countries "UK and EU" = ["United Kingdom"; "European Union"]
  /\ Backend.resolve_countries "made-up-string" = ["made-up-string"]
  /\ Backend.resolve_countries "US" = ["United States"]
  /\ Backend.resolve_countries " Any " =
     ["United Kingdom"; "European Union"; "United States"; "Rest of World"].
Proof. repeat split. Qed.


(** The fixture of the specification: the exact tier answers, the prefix
    tier, which would give another set, is not consulted. *)
Example query_candidates_short_circuit :
  Backend.query_candidates (Backend.open_db two_tier_index) "acme" "UK" 25 =
  ([bare_mark 2 "UK2" "ACME" "United Kingdom"],
   Backend.mk_connection two_tier_index
     [Backend.SelectMarksExact ["United Kingdom"] "acme" 25])
  /\ prefix_tier two_tier_index "acme" "UK" =
     [bare_mark 1 "UK1" "Acme Co" "United Kingdom";
      bare_mark 2 "UK2" "ACME" "United Kingdom"]
  /\ Backend.query_candidates (Backend.open_db two_tier_index) "acme c" "UK" 25 =
     ([bare_mark 1 "UK1" "Acme Co" "United Kingdom"],
      Backend.mk_connection two_tier_index
        [Backend.SelectMarksExact ["United Kingdom"] "acme c" 25;
         Backend.SelectMarksLike ["United Kingdom"] "acme c%" 25])
  /\ Backend.query_candidates (Backend.open_db two_tier_index) "acm" "UK" 25 =
     ([], Backend.mk_connection two_tier_index
            [Backend.SelectMarksExact ["United Kingdom"] "acm" 25]).
Proof. repeat split. Qed.

(** ** Patent retrieval and the country *)

Lemma query_candidates_db (con : Backend.connection) (term country : string) (limit : Z) :
  Backend.con_db (snd (Backend.query_candidates con term country limit)) = Backend.con_db con.
Proof.
  unfold Backend.query_candidates, Backend.execute_marks.
  destruct (Backend.select_marks _ _); [|reflexivity].
  destruct (String.length term <? 4)%nat; [reflexivity|].
  cbn [Backend.con_db].
  destruct (Backend.select_marks _ _); reflexivity.
Qed.

Lemma query_patents_db (con1 con2 : Backend.connection) (term : string) (limit : Z) :
  Backend.con_db con1 = Backend.con_db con2 ->
  fst (Backend.query_patents con1 term limit) = fst (Backend.query_patents con2 term limit).
Proof.
  intros H. unfold Backend.query_patents, Backend.execute_patents.
  destruct (String.length term <? 4)%nat; [reflexivity|].
  cbn [fst]. rewrite H. reflexivity.
Qed.

(** The patent list of a successful response, whatever the country. *)
Lemma check_patents (db : Backend.database) (today : Py.date)
    (tm c cls : option string) (inc : option bool)
    (b : Backend.check_result) (l : list Backend.sql) :
  Backend.check (Backend.IndexReady db) today (Backend.mk_request tm c cls inc)
  = (Backend.Success b, l) ->
  Backend.rs_patents b =
  patent_list db today (Py.strip (Py.or_empty tm))
    (match inc with Some x => x | None => true end).
Proof.
  unfold Backend.check.
  cbn [Backend.rq_trademark Backend.rq_country Backend.rq_classes
       Backend.rq_include_patents].
  destruct (negb (Py.truthy (Py.strip (Py.or_empty tm)))); [discriminate|].
  destruct (negb (Py.truthy (Py.strip (Py.or_empty c)))); [discriminate|].
  destruct (String.length (Py.strip (Py.strip (Py.or_empty tm))) <? 3)%nat;
    [discriminate|].
  destruct (Backend.country_available _ _) as [available con0] eqn:CA.
  assert (D0 : Backend.con_db con0 = db).
  { unfold Backend.country_available, Backend.execute_marks in CA.
    injection CA as _ <-. reflexivity. }
  destruct (negb available); [discriminate|].
  destruct (Backend.query_candidates con0 _ _ 25) as [rows con1] eqn:QC.
  assert (D1 : Backend.con_db con1 = db).
  { rewrite <- D0. change con1 with (snd (rows, con1)). rewrite <- QC.
    apply query_candidates_db. }
  set (incl := match inc with Some x => x | None => true end).
  destruct (if incl then Backend.query_patents con1 _ 25 else ([], con1))
    as [patent_rows con2] eqn:QP.
  intros H. injection H as <- _. cbn [Backend.rs_patents].
  unfold patent_list. fold incl.
  assert (R : patent_rows =
              if incl
              then fst (Backend.query_patents (Backend.open_db db)
                          (Backend.norm_text (Some (Py.strip (Py.or_empty tm)))) 25)
              else []).
  { destruct incl.
    - change patent_rows with (fst (patent_rows, con2)). rewrite <- QP.
      apply query_patents_db. exact D1.
    - injection QP as <- _. reflexivity. }
  rewrite R. reflexivity.
Qed.



(** ** [insert_batch] *)

(** What [INSERT OR IGNORE] leaves of a table after a sequence of records. *)
Lemma insert_marks_ignore_ok (ts : list BuildIndex.mark_tuple) :
  forall tbl, exists added,
    BuildIndex.insert_marks BuildIndex.OrIgnore tbl ts = Py.Ok (tbl ++ added)%list.
Proof.
  induction ts as [|t ts IH]; intros tbl; cbn [BuildIndex.insert_marks].
  - exists []. rewrite app_nil_r. reflexivity.
  - unfold BuildIndex.insert_mark.
    destruct (existsb _ tbl).
    + apply IH.
    + destruct (IH (tbl ++ [BuildIndex.mark_row_of
                              (BuildIndex.next_rowid (map Backend.m_id tbl)) t])%list)
        as [added E].
      rewrite E, <- app_assoc. eexists. reflexivity.
Qed.









(** ** [read_rows], [ingest_file] and [main] *)

Lemma read_rows_from_raises (f : BuildIndex.txt_file) (encs : list BuildIndex.encoding) :
  forallb (fun enc => attempt_fails (BuildIndex.txt_read f enc)) encs = true ->
  snd (BuildIndex.read_rows_from f encs) = Py.Raised Py.ValueError.
Proof.
  induction encs as [|enc encs IH]; intros H; [reflexivity|].
  cbn [forallb] in H. apply andb_prop in H as [He Hr]. specialize (IH Hr).
  cbn [BuildIndex.read_rows_from]. unfold attempt_fails in He.
  destruct (BuildIndex.rd_rows (BuildIndex.txt_read f enc)) as [|first rest]; [exact IH|].
  destruct (negb (BuildIndex.has_trademark_headers (BuildIndex.clean_headers first)));
    [exact IH|].
  cbn [orb] in He. rewrite He.
  destruct (BuildIndex.read_rows_from f encs) as [more out]. exact IH.
Qed.

Lemma read_rows_from_nothing (f : BuildIndex.txt_file) (encs : list BuildIndex.encoding) :
  forallb (fun enc => attempt_yields_nothing (BuildIndex.txt_read f enc)) encs = true ->
  BuildIndex.read_rows_from f encs = ([], Py.Raised Py.ValueError).
Proof.
  induction encs as [|enc encs IH]; intros H; [reflexivity|].
  cbn [forallb] in H. apply andb_prop in H as [He Hr]. specialize (IH Hr).
  cbn [BuildIndex.read_rows_from]. unfold attempt_yields_nothing in He.
  destruct (BuildIndex.rd_rows (BuildIndex.txt_read f enc)) as [|first rest]; [exact IH|].
  rewrite He. exact IH.
Qed.

Lemma insert_batch_ok (con : Backend.database) (batch : list BuildIndex.mark_tuple) :
  exists con', BuildIndex.insert_batch con batch = Py.Ok con'.
Proof.
  unfold BuildIndex.insert_batch.
  destruct (insert_marks_ignore_ok batch (Backend.marks con)) as [added E].
  rewrite E. eexists. reflexivity.
Qed.

Lemma update_insert_batch_ok (con : Backend.database) (batch : list BuildIndex.mark_tuple) :
  exists con',
    BuildIndex.update (fun c => BuildIndex.insert_batch c batch) con = (con', Py.Ok tt).
Proof.
  unfold BuildIndex.update. destruct (insert_batch_ok con batch) as [con' E].
  rewrite E. eexists. reflexivity.
Qed.

(** The batching loop over mark tuples never raises. *)
Lemma batch_marks_ok (ts : list BuildIndex.mark_tuple) :
  forall batch con, exists con' left,
    BuildIndex.batch_marks batch ts con = (con', Py.Ok left).
Proof.
  induction ts as [|t ts IH]; intros batch con; cbn [BuildIndex.batch_marks].
  - eexists. eexists. reflexivity.
  - destruct (5000 <=? length (batch ++ [t]))%nat; [|apply IH].
    unfold BuildIndex.seq.
    destruct (update_insert_batch_ok con (batch ++ [t])) as [con' E]. rewrite E.
    apply IH.
Qed.

Lemma ingest_file_raises (f : BuildIndex.txt_file) (con : Backend.database) :
  snd (BuildIndex.read_rows f) = Py.Raised Py.ValueError ->
  snd (BuildIndex.ingest_file f con) = Py.Raised Py.ValueError.
Proof.
  unfold BuildIndex.ingest_file.
  destruct (BuildIndex.read_rows f) as [yielded out]. cbn [snd]. intros ->.
  destruct yielded as [|headers rows]; [reflexivity|].
  unfold BuildIndex.seq.
  destruct (batch_marks_ok
              (map (BuildIndex.mark_tuple_of_row (BuildIndex.txt_path f) headers) rows)
              [] con) as [con' [left E]].
  rewrite E. reflexivity.
Qed.

Lemma for_each_app {A : Type} (body : A -> BuildIndex.proc unit) (xs ys : list A)
    (con : Backend.database) :
  BuildIndex.for_each body (xs ++ ys) con =
  match BuildIndex.for_each body xs con with
  | (con', Py.Ok _) => BuildIndex.for_each body ys con'
  | (con', Py.Raised e) => (con', Py.Raised e)
  end.
Proof.
  revert con. induction xs as [|x xs IH]; intros con; cbn [app BuildIndex.for_each].
  - reflexivity.
  - unfold BuildIndex.seq. destruct (body x con) as [con' [[]|e]]; [apply IH|reflexivity].
Qed.

(** C5, the claim as stated fails: [bad_txt] fails every encoding attempt,
    and the run over [bad_txt] and [good_txt] ends with the [ValueError] of
    [read_rows], the record of [good_txt] not ingested; the same run
    without [bad_txt] ingests it. *)
Lemma main_aborts_on_bad_file :
  every_attempt_fails bad_txt = true
  /\ BuildIndex.read_rows bad_txt = ([], Py.Raised Py.ValueError)
  /\ BuildIndex.main empty_index [bad_txt; good_txt] [] []
     = (empty_index, Py.Raised Py.ValueError)
  /\ snd (BuildIndex.main empty_index [good_txt] [] []) = Py.Ok tt
  /\ map Backend.m_reg_no (Backend.marks (fst (BuildIndex.main empty_index [good_txt] [] [])))
     = [Some "US2"].
Proof. repeat split. Qed.

(** C5, amended.  When a delimited-text file fails every encoding attempt
    of the chain, [read_rows] ends by raising [ValueError] and so does
    [ingest_file]; when moreover no encoding gives a header with both
    required columns, nothing is yielded and the index is left as it was.
    Nothing in [main] catches the error: the run stops at that file with
    the [ValueError], and the text files after it, the spreadsheets and the
    XML journals are not ingested. *)
Theorem bad_file_aborts_run (f : BuildIndex.txt_file) :
  every_attempt_fails f = true ->
  snd (BuildIndex.read_rows f) = Py.Raised Py.ValueError
  /\ (forall con, snd (BuildIndex.ingest_file f con) = Py.Raised Py.ValueError)
  /\ (no_header_fits f = true ->
      BuildIndex.read_rows f = ([], Py.Raised Py.ValueError)
      /\ forall con, BuildIndex.ingest_file f con = (con, Py.Raised Py.ValueError))
  /\ (forall (old con1 : Backend.database) (pre post : list BuildIndex.txt_file)
             (xlsx_files : list BuildIndex.xlsx_file) (xml_files : list BuildIndex.xml_file),
         BuildIndex.for_each BuildIndex.ingest_file pre empty_index = (con1, Py.Ok tt) ->
         BuildIndex.main old (pre ++ f :: post) xlsx_files xml_files
         = (fst (BuildIndex.ingest_file f con1), Py.Raised Py.ValueError)).
Proof.
  intros H.
  assert (R : snd (BuildIndex.read_rows f) = Py.Raised Py.ValueError)
    by (apply read_rows_from_raises, H).
  split; [exact R|]. split; [intros con; apply ingest_file_raises, R|]. split.
  - intros N.
    assert (R0 : BuildIndex.read_rows f = ([], Py.Raised Py.ValueError))
      by (apply read_rows_from_nothing, N).
    split; [exact R0|]. intros con. unfold BuildIndex.ingest_file. rewrite R0. reflexivity.
  - intros old con1 pre post xlsx_files xml_files P.
    assert (M : BuildIndex.main old (pre ++ f :: post) xlsx_files xml_files =
                BuildIndex.seq (BuildIndex.for_each BuildIndex.ingest_file (pre ++ f :: post))
                  (fun _ => BuildIndex.seq
                              (BuildIndex.for_each BuildIndex.ingest_patents xlsx_files)
                              (fun _ => BuildIndex.for_each BuildIndex.ingest_journal_xml
                                          xml_files))
                  empty_index).
    { unfold BuildIndex.main. destruct pre; reflexivity. }
    rewrite M. unfold BuildIndex.seq at 1. rewrite for_each_app, P.
    cbn [BuildIndex.for_each]. unfold BuildIndex.seq at 1.
    pose proof (ingest_file_raises f con1 R) as E.
    destruct (BuildIndex.ingest_file f con1) as [con2 out]. cbn [snd fst] in *.
    rewrite E. reflexivity.
Qed.

Lemma bad_file_aborts_run_witness :
  BuildIndex.main empty_index ([good_txt] ++ bad_txt :: [good_txt]) [acme_xlsx] []
  = (fst (BuildIndex.main empty_index [good_txt] [] []), Py.Raised Py.ValueError).
Proof.
  exact (proj2 (proj2 (proj2 (bad_file_aborts_run bad_txt eq_refl)))
           empty_index (fst (BuildIndex.main empty_index [good_txt] [] []))
           [good_txt] [good_txt] [acme_xlsx] [] eq_refl).
Defined.

(** ** The end-to-end property of patents *)

Example acme_index_built :
  snd (BuildIndex.main empty_index [good_txt] [acme_xlsx] []) = Py.Ok tt
  /\ map Backend.p_applicant_name (Backend.patents acme_index)
     = [Some "Acme Robotics Ltd"; Some "Acme Robotics Ltd"]
  /\ map Backend.p_date_not_in_force (Backend.patents acme_index) = [Some ""; Some ""]
  /\ map Backend.p_status (Backend.patents acme_index) = [Some "Granted"; Some "Granted"]
  /\ map Backend.m_country (Backend.marks acme_index) = [Some "United States"].
Proof. repeat split. Qed.

Example acme_similarity :
  Backend.norm_text (Some "Acme Robotics Ltd") = "acme robotics ltd"
  /\ Py.ratio "acme robotic" "acme robotics ltd" = Py.float_of_ratio false 24 29
  /\ Py.round_ndigits (Py.float_of_ratio false 24 29) 4 = Py.lit 8276 (-4).
Proof. repeat split. Qed.

(** The statement of [query_patents] compares the stored applicant name,
    as written, with the lower-cased query under a case-sensitive [LIKE]. *)
Example query_patents_case_sensitive :
  Backend.like "acme robotic%" "Acme Robotics Ltd" = false
  /\ Backend.like "acme robotic%" "acme robotics ltd" = true.
Proof. split; reflexivity. Qed.

(** C9, the claim as stated fails.  On the index built from the two
    spreadsheet rows (and one United States mark) the request is answered
    with an empty patent list: no stored name starts with "acme robotic".
    On the index built from the spreadsheet alone the request is refused,
    no mark being of the country.  And the similarity of the query to that
    applicant is 0.8276, which is not above 0.85. *)
Lemma acme_patent_not_returned :
  Backend.norm_text (Some "acme robotic") = "acme robotic"
  /\ fst (Backend.query_patents (Backend.open_db acme_index) "acme robotic" 25) = []
  /\ patents_of (fst (Backend.check (Backend.IndexReady acme_index) (Py.mkdate 2026 1 1)
                        acme_request)) = Some []
  /\ fst (Backend.check (Backend.IndexReady acme_patents_index) (Py.mkdate 2026 1 1)
            acme_request)
     = Backend.BadRequest "No records found for this country in the current index."
         (Some "US")
  /\ map (fun r => Backend.ps_similarity
                     (Backend.summarize_patent (Py.mkdate 2026 1 1) r "acme robotic"))
       (Backend.patents acme_index)
     = [Py.lit 8276 (-4); Py.lit 8276 (-4)]
  /\ Py.fge (Py.lit 8276 (-4)) (Py.lit 85 (-2)) = false.
Proof. repeat split. Qed.

(** C9, amended.  For a patent row whose applicant is "Acme Robotics Ltd",
    with no not-in-force date and a status that names none of lapsed,
    ceased, withdrawn, revoked, the summary for the query text
    "acme robotic" names that applicant, with similarity 0.8276 (twice 12
    matching characters over 29, rounded to four places; below 0.85) and
    active equal to true. *)
Theorem acme_patent_summary (today : Py.date) (row : Backend.patent_row) :
  Backend.p_applicant_name row = Some "Acme Robotics Ltd" ->
  Py.truthy_opt (Backend.p_date_not_in_force row) = false ->
  existsb (fun x => Py.contains x (Py.lower (Py.strip (Py.or_empty (Backend.p_status row)))))
    ["lapsed"; "ceased"; "withdrawn"; "revoked"] = false ->
  let s := Backend.summarize_patent today row (Backend.norm_text (Some "acme robotic")) in
  Backend.ps_applicant_name s = "Acme Robotics Ltd"
  /\ Backend.ps_similarity s = Py.lit 8276 (-4)
  /\ Py.flt (Backend.ps_similarity s) (Py.lit 85 (-2)) = true
  /\ Backend.ps_active s = true.
Proof.
  intros Ha Hd Hs s. subst s. unfold Backend.summarize_patent.
  cbn [Backend.ps_applicant_name Backend.ps_similarity Backend.ps_active].
  rewrite Ha. cbn [Py.or_empty Py.truthy].
  assert (E : Py.round_ndigits
                (Backend.similarity (Backend.norm_text (Some "acme robotic"))
                   (Backend.norm_text (Some "Acme Robotics Ltd"))) 4
              = Py.lit 8276 (-4)) by (vm_compute; reflexivity).
  rewrite E.
  split; [reflexivity|]. split; [reflexivity|]. split; [vm_compute; reflexivity|].
  unfold Backend.patent_active. rewrite Hd, Hs. reflexivity.
Qed.

Lemma acme_patent_summary_witness :
  Forall (fun row =>
            let s := Backend.summarize_patent (Py.mkdate 2026 1 1) row "acme robotic" in
            Backend.ps_applicant_name s = "Acme Robotics Ltd"
            /\ Backend.ps_similarity s = Py.lit 8276 (-4)
            /\ Py.flt (Backend.ps_similarity s) (Py.lit 85 (-2)) = true
            /\ Backend.ps_active s = true)
    (Backend.patents acme_index).
Proof.
  assert (E : Backend.patents acme_index =
              [BuildIndex.patent_row_of 1
                 (BuildIndex.mk_patent_tuple "GB1" "" "" "" "" "" "" "" "Acme Robotics Ltd"
                    "" "" "" "" "" "" "" "" "" "" "" "" "" "Granted" "c/patents.xlsx");
               BuildIndex.patent_row_of 2
                 (BuildIndex.mk_patent_tuple "GB2" "" "" "" "" "" "" "" "Acme Robotics Ltd"
                    "" "" "" "" "" "" "" "" "" "" "" "" "" "Granted" "c/patents.xlsx")])
    by (vm_compute; reflexivity).
  rewrite E.
  constructor; [|constructor; [|constructor]];
    apply (acme_patent_summary (Py.mkdate 2026 1 1)); reflexivity.
Defined.

(** ** The record builders at work *)

Example mark_tuple_of_row_example :
  BuildIndex.mark_tuple_of_row "f.txt"
    ["Trade Mark"; "Mark Text"; "Name"; "Class1"; "Class25"; "Class 07"; "Filed"]
    ["UK1"; " Acme-Co "; "Acme Ltd"; "Yes"; "0"; "X"; "2020-1-5"; "beyond the header"]
  = BuildIndex.mk_mark_tuple "UK1" "Acme-Co" "acme co" "Acme Ltd" "company" "" "" "" ""
      "2020-1-5" "" "" "" "" "1,7" "" "f.txt"
  /\ BuildIndex.t_reg_no (BuildIndex.mark_tuple_of_row "f.txt" ["Trade Mark"; "Mark Text"] [])
     = "".
Proof. split; reflexivity. Qed.

Example mark_tuple_of_elem_example :
  BuildIndex.mark_tuple_of_elem "j.xml"
    (BuildIndex.mk_trademark_elem (Some "WO123") (Some "2021-03-04") (Some "em") None
       (Some "Word") (Some " Bolt ") (Some "Bolt GmbH")
       [(Some "9", Some "Software"); (None, Some "Games"); (Some " 41 ", None)])
  = BuildIndex.mk_mark_tuple "WO123" "Bolt" "bolt" "Bolt GmbH" "company" "European Union"
      "Published" "" "Word" "2021-03-04" "2021-03-04" "" "" "" "9,41" "Software | Games"
      "j.xml".
Proof. reflexivity. Qed.

Example normalize_country_from_office_examples :
  BuildIndex.normalize_country_from_office "uk00003" "" = "United Kingdom"
  /\ BuildIndex.normalize_country_from_office "123" "gb" = "United Kingdom"
  /\ BuildIndex.normalize_country_from_office "US77" "EM" = "United States"
  /\ BuildIndex.normalize_country_from_office "EU01" "" = "European Union"
  /\ BuildIndex.normalize_country_from_office "WO55" "" = "Rest of World"
  /\ BuildIndex.normalize_country_from_office "55" "JP" = "Rest of World"
  /\ BuildIndex.normalize_country_from_office "" "" = "Rest of World".
Proof. repeat split. Qed.

Example read_rows_examples :
  BuildIndex.read_rows good_txt
  = ([["Trade Mark"; "Mark Text"; "Country"; "Status"];
      ["US2"; "Bolt"; "United States"; "Registered"]], Py.Ok tt)
  /\ no_header_fits bad_txt = true.
Proof. split; reflexivity. Qed.

(* ------------------------------------------------------------------ *)
(** * Further properties of the code                                    *)
(* ------------------------------------------------------------------ *)

(** ** [parse_classes] *)

Lemma digit_runs_codes (s : string) :
  Forall (fun w => is_class_code w = true) (Py.digit_runs s).
Proof.
  induction s as [|c s IH]; cbn [Py.digit_runs]; [constructor|].
  destruct (Py.between 48 57 c) eqn:Hc; [|exact IH].
  destruct s as [|d s']; [constructor; [|constructor]|].
  - unfold is_class_code. simpl. rewrite Hc. reflexivity.
  - destruct (Py.between 48 57 d) eqn:Hd.
    + destruct (Py.digit_runs (String d s')) as [|w ws].
      * constructor; [|constructor]. unfold is_class_code. simpl. rewrite Hc. reflexivity.
      * inversion IH as [|? ? Hw Hws]; subst. constructor; [|exact Hws].
        unfold is_class_code in *. simpl. rewrite Hc. simpl.
        apply andb_prop in Hw as [_ Hw]. exact Hw.
    + constructor; [|exact IH]. unfold is_class_code. simpl. rewrite Hc. reflexivity.
Qed.

(** A code followed by nothing, or by a character that is no digit, is the
    first run. *)
Lemma digit_runs_code_app (x r : string) :
  is_class_code x = true ->
  match r with
  | EmptyString => True
  | String c _ => Py.between 48 57 c = false
  end ->
  Py.digit_runs (x ++ r) = x :: Py.digit_runs r.
Proof.
  intros Hx Hr. unfold is_class_code in Hx. apply andb_prop in Hx as [Hne Hd].
  destruct x as [|a x]; [discriminate|]. clear Hne.
  revert a Hd. induction x as [|b x IH]; intros a Hd.
  - simpl in Hd. rewrite andb_true_r in Hd. cbn [append Py.digit_runs]. rewrite Hd.
    destruct r as [|c r]; [reflexivity|]. rewrite Hr. reflexivity.
  - cbn [all_digits] in Hd. apply andb_prop in Hd as [Ha Hb].
    pose proof Hb as Hb'. cbn [all_digits] in Hb'. apply andb_prop in Hb' as [Hb1 _].
    change (String a (String b x) ++ r) with (String a (String b x ++ r)).
    cbn [Py.digit_runs]. rewrite Ha, (IH b Hb).
    change (String b x ++ r) with (String b (x ++ r)). cbv iota.
    rewrite Hb1. reflexivity.
Qed.

Lemma digit_runs_join (codes : list string) :
  Forall (fun w => is_class_code w = true) codes ->
  Py.digit_runs (Py.join "," codes) = codes.
Proof.
  induction codes as [|x l IH]; intros H; [reflexivity|].
  inversion H as [|? ? Hx Hl]; subst. specialize (IH Hl).
  destruct l as [|y l'].
  - cbn [Py.join]. pose proof (digit_runs_code_app x "" Hx I) as E.
    assert (A : x ++ "" = x) by (clear; induction x; simpl; congruence).
    rewrite A in E. exact E.
  - change (Py.join "," (x :: y :: l')) with (x ++ "," ++ Py.join "," (y :: l')).
    rewrite (digit_runs_code_app x _ Hx); [|reflexivity].
    change ("," ++ Py.join "," (y :: l')) with (String "," (Py.join "," (y :: l'))).
    cbn [Py.digit_runs]. change (Py.between 48 57 ",") with false. cbv iota.
    rewrite IH. reflexivity.
Qed.

Lemma digit_runs_nil_iff (s : string) :
  Py.digit_runs s = [] <-> forall c, In c (list_ascii_of_string s) -> Py.between 48 57 c = false.
Proof.
  induction s as [|c s IH]; cbn [Py.digit_runs list_ascii_of_string].
  - split; [intros _ c []|reflexivity].
  - destruct (Py.between 48 57 c) eqn:Hc.
    + split.
      * intros H. exfalso. destruct s as [|d s']; [discriminate|].
        destruct (Py.between 48 57 d); [|discriminate].
        destruct (Py.digit_runs (String d s')); discriminate.
      * intros H. specialize (H c (or_introl eq_refl)). congruence.
    + rewrite IH. split.
      * intros H x [<-|Hx]; auto.
      * intros H x Hx. apply H. right. exact Hx.
Qed.

(** X1.  Every element [parse_classes] returns is a non-empty text of
    digits; the result is empty exactly when the text holds no digit; and
    the codes of a list joined by commas are read back as that list. *)
Theorem parse_classes_codes :
  (forall s : string, Forall (fun w => is_class_code w = true) (Backend.parse_classes s))
  /\ (forall s : string,
         Backend.parse_classes s = [] <->
         forall c, In c (list_ascii_of_string s) -> Py.between 48 57 c = false)
  /\ (forall codes : list string,
         Forall (fun w => is_class_code w = true) codes ->
         Backend.parse_classes (Py.join "," codes) = codes).
Proof.
  split; [|split].
  - intros s. unfold Backend.parse_classes.
    destruct (negb (Py.truthy s)); [constructor|apply digit_runs_codes].
  - intros s. unfold Backend.parse_classes. destruct s as [|c s].
    + simpl. split; [intros _ c []|reflexivity].
    + cbn [Py.truthy negb]. apply digit_runs_nil_iff.
  - intros codes H. unfold Backend.parse_classes.
    destruct (Py.join "," codes) eqn:J.
    + simpl. rewrite <- (digit_runs_join codes H), J. reflexivity.
    + cbn [Py.truthy negb]. rewrite <- J. apply digit_runs_join, H.
Qed.

Lemma parse_classes_codes_witness :
  Backend.parse_classes (Py.join "," ["9"; "25"; "41"]) = ["9"; "25"; "41"]
  /\ Backend.parse_classes "9, 25;x41" = ["9"; "25"; "41"].
Proof.
  split; [|reflexivity].
  apply (proj2 (proj2 parse_classes_codes)). repeat constructor.
Defined.

(** ** [years_since] *)

(** X2.  [years_since] gives no age exactly when the date text is empty or
    is not read by [strptime]; otherwise it gives the whole number of
    365-day years from that date to today, never a negative one: zero for a
    date of today or later. *)
Theorem years_since_cases (today : Py.date) (s : string) :
  (Backend.years_since today s = None <-> s = "" \/ Py.strptime_ymd s = None)
  /\ (forall d : Py.date,
         s <> "" -> Py.strptime_ymd s = Some d ->
         exists n,
           Backend.years_since today s = Some n
           /\ 0 <= n
           /\ 365 * n <= Z.max 0 (Py.toordinal today - Py.toordinal d) < 365 * (n + 1)).
Proof.
  unfold Backend.years_since. destruct s as [|c s]; cbn [Py.truthy negb].
  - split; [split; auto|]. intros d H. congruence.
  - destruct (Py.strptime_ymd (String c s)) as [d|] eqn:P.
    + split.
      * split.
        -- destruct (Py.toordinal today - Py.toordinal d <? 0); discriminate.
        -- intros [H|H]; discriminate.
      * intros d' _ H. injection H as <-.
        destruct (Z.ltb_spec (Py.toordinal today - Py.toordinal d) 0) as [L|L].
        -- exists 0. split; [reflexivity|]. lia.
        -- eexists. split; [reflexivity|].
           pose proof (Z.div_mod (Py.toordinal today - Py.toordinal d) 365 ltac:(lia)).
           pose proof (Z.mod_pos_bound (Py.toordinal today - Py.toordinal d) 365 ltac:(lia)).
           split; [apply Z.div_pos; lia|]. lia.
    + split; [split; auto|]. intros d _ H. discriminate.
Qed.

Lemma years_since_cases_witness :
  Backend.years_since (Py.mkdate 2024 12 26) "2000-01-01" = Some 25
  /\ Backend.years_since (Py.mkdate 2024 12 26) "2031-05-05" = Some 0
  /\ Backend.years_since (Py.mkdate 2024 12 26) "01/01/2000" = None.
Proof.
  split; [|split].
  - destruct (proj2 (years_since_cases (Py.mkdate 2024 12 26) "2000-01-01")
                (Py.mkdate 2000 1 1) ltac:(discriminate) eq_refl) as [n [E _]].
    rewrite E. vm_compute in E. symmetry. exact E.
  - reflexivity.
  - apply (proj1 (years_since_cases (Py.mkdate 2024 12 26) "01/01/2000")).
    right. reflexivity.
Defined.

(** ** [resolve_countries] *)

(** X3.  [resolve_countries] never returns an empty list: it returns
    regions of the taxonomy, or else the text it was given, unchanged, as
    the only country.  Two selectors that agree once trimmed and
    lower-cased name the same regions, unless both are passed through. *)
Theorem resolve_countries_shape (country : string) :
  Backend.resolve_countries country <> []
  /\ (Backend.resolve_countries country = [country]
      \/ incl (Backend.resolve_countries country) taxonomy)
  /\ (forall c2 : string,
         Py.lower (Py.strip c2) = Py.lower (Py.strip country) ->
         Backend.resolve_countries c2 = Backend.resolve_countries country
         \/ (Backend.resolve_countries c2 = [c2]
             /\ Backend.resolve_countries country = [country])).
Proof.
  unfold Backend.resolve_countries, taxonomy.
  split; [|split].
  - repeat match goal with
           | |- context [if ?b then _ else _] => destruct b
           end; discriminate.
  - repeat match goal with
           | |- context [if ?b then _ else _] => destruct b
           end; try (left; reflexivity);
      right; intros x Hx; simpl in *; tauto.
  - intros c2 E. rewrite E.
    repeat match goal with
           | |- context [if ?b then _ else _] => destruct b
           end; try (left; reflexivity).
    right. split; reflexivity.
Qed.

(** ** What the two retrievals return *)

Lemma startswith_refl (s : string) : Py.startswith s s = true.
Proof. induction s as [|c s IH]; simpl; [reflexivity|]. rewrite Ascii.eqb_refl. exact IH. Qed.

Lemma in_firstn {A : Type} (n : nat) (l : list A) (x : A) : In x (firstn n l) -> In x l.
Proof.
  revert l. induction n as [|n IH]; intros l H; [contradiction|].
  destruct l as [|y l]; [contradiction|]. destruct H as [H|H]; [left; exact H|].
  right. apply IH, H.
Qed.

Lemma firstn_nil_inv {A : Type} (n : nat) (l : list A) :
  firstn (S n) l = [] -> l = [].
Proof. destruct l; [reflexivity|discriminate]. Qed.

(** The result of [query_candidates] on a normalized term, by tiers. *)
Lemma query_candidates_result (db : Backend.database) (log : list Backend.sql)
    (q country : string) :
  fst (Backend.query_candidates (Backend.mk_connection db log)
         (Backend.norm_text (Some q)) country 25) =
  match exact_tier db (Backend.norm_text (Some q)) country with
  | _ :: _ => exact_tier db (Backend.norm_text (Some q)) country
  | [] =>
      if (String.length (Backend.norm_text (Some q)) <? 4)%nat then []
      else prefix_tier db (Backend.norm_text (Some q)) country
  end.
Proof.
  set (term := Backend.norm_text (Some q)).
  unfold Backend.query_candidates, Backend.execute_marks.
  cbn [Backend.select_marks Backend.con_db Backend.con_log].
  change (Backend.sql_limit 25) with (@firstn Backend.mark_row 25).
  change (firstn 25
            (filter (fun m => Backend.sql_in (Backend.m_country m)
                                (Backend.resolve_countries country)
                              && Backend.sql_eq (Backend.m_mark_text_norm m) term)
               (Backend.marks db))) with (exact_tier db term country).
  destruct (exact_tier db term country) as [|r rs]; [|reflexivity].
  destruct (String.length term <? 4)%nat; [reflexivity|].
  assert (P : firstn 25
                (filter (fun m => Backend.sql_in (Backend.m_country m)
                                    (Backend.resolve_countries country)
                                  && Backend.sql_like (Backend.m_mark_text_norm m)
                                       (term ++ "%"))
                   (Backend.marks db)) = prefix_tier db term country).
  { unfold prefix_tier. f_equal. apply filter_ext. intros m. f_equal.
    unfold Backend.sql_like. destruct (Backend.m_mark_text_norm m); [|reflexivity].
    apply like_prefix, norm_text_no_wildcard. }
  rewrite P. destruct (prefix_tier db term country); reflexivity.
Qed.

(** X4.  On a normalized term, every row [query_candidates] returns is a
    row of [marks] of a resolved country whose normalized text starts with
    the term.  An empty result means that no mark of those countries has
    the term as its normalized text, and, for a term of 4 characters or
    more, that none has a normalized text starting with it. *)
Theorem query_candidates_sound (db : Backend.database) (log : list Backend.sql)
    (q country : string) :
  let term := Backend.norm_text (Some q) in
  let result :=
    fst (Backend.query_candidates (Backend.mk_connection db log) term country 25) in
  (forall r, In r result ->
     In r (Backend.marks db)
     /\ Backend.sql_in (Backend.m_country r) (Backend.resolve_countries country) = true
     /\ exists s, Backend.m_mark_text_norm r = Some s /\ Py.startswith term s = true)
  /\ (result = [] ->
      forall r, In r (Backend.marks db) ->
        Backend.sql_in (Backend.m_country r) (Backend.resolve_countries country) = true ->
        Backend.m_mark_text_norm r <> Some term
        /\ ((4 <= String.length term)%nat ->
            forall s, Backend.m_mark_text_norm r = Some s -> Py.startswith term s = false)).
Proof.
  intros term result. subst result. unfold term. rewrite query_candidates_result.
  fold term.
  assert (SE : forall r, In r (exact_tier db term country) ->
               In r (Backend.marks db)
               /\ Backend.sql_in (Backend.m_country r) (Backend.resolve_countries country)
                  = true
               /\ exists s, Backend.m_mark_text_norm r = Some s
                            /\ Py.startswith term s = true).
  { intros r H. apply in_firstn, filter_In in H as [H1 H2].
    apply andb_prop in H2 as [H2 H3]. repeat split; auto.
    unfold Backend.sql_eq in H3. destruct (Backend.m_mark_text_norm r) as [s|];
      [|discriminate].
    apply String.eqb_eq in H3. subst s. exists term. split; [reflexivity|].
    apply startswith_refl. }
  assert (SP : forall r, In r (prefix_tier db term country) ->
               In r (Backend.marks db)
               /\ Backend.sql_in (Backend.m_country r) (Backend.resolve_countries country)
                  = true
               /\ exists s, Backend.m_mark_text_norm r = Some s
                            /\ Py.startswith term s = true).
  { intros r H. apply in_firstn, filter_In in H as [H1 H2].
    apply andb_prop in H2 as [H2 H3]. repeat split; auto.
    destruct (Backend.m_mark_text_norm r) as [s|]; [|discriminate]. eauto. }
  split.
  - intros r H. destruct (exact_tier db term country) as [|r0 rs] eqn:X.
    + destruct (String.length term <? 4)%nat; [contradiction|]. apply SP, H.
    + apply SE. exact H.
  - intros E r Hin Hc.
    destruct (exact_tier db term country) as [|r0 rs] eqn:X; [|discriminate].
    unfold exact_tier in X. apply firstn_nil_inv in X.
    split.
    + intros Hs.
      assert (In r (filter (fun m => Backend.sql_in (Backend.m_country m)
                                       (Backend.resolve_countries country)
                                     && Backend.sql_eq (Backend.m_mark_text_norm m) term)
                      (Backend.marks db))).
      { apply filter_In. split; [exact Hin|]. rewrite Hc, Hs. simpl.
        apply String.eqb_refl. }
      rewrite X in H. contradiction.
    + intros L s Hs.
      destruct (Nat.ltb_spec (String.length term) 4) as [L'|_]; [lia|].
      unfold prefix_tier in E. apply firstn_nil_inv in E.
      destruct (Py.startswith term s) eqn:P; [|reflexivity]. exfalso.
      assert (In r (filter (fun m => Backend.sql_in (Backend.m_country m)
                                       (Backend.resolve_countries country)
                                     && match Backend.m_mark_text_norm m with
                                        | Some s => Py.startswith term s
                                        | None => false
                                        end)
                      (Backend.marks db))).
      { apply filter_In. split; [exact Hin|]. rewrite Hc, Hs. exact P. }
      rewrite E in H. contradiction.
Qed.

Lemma query_candidates_sound_witness :
  Forall (fun r => In r (Backend.marks two_tier_index))
    (fst (Backend.query_candidates (Backend.open_db two_tier_index)
            (Backend.norm_text (Some "Acme C")) "UK" 25)).
Proof.
  apply Forall_forall. intros r H.
  apply (proj1 (query_candidates_sound two_tier_index [] "Acme C" "UK") r H).
Defined.

(** X5.  [query_patents] executes nothing and returns nothing for a term
    of fewer than 4 characters; otherwise it executes one statement, and
    every row it returns is a row of [patents] one of whose applicant name,
    application number and publication number, as stored, matches the term
    followed by anything; for a term without wildcard, one of them starts
    with the term, letter case included.  It never returns more than
    [limit] rows. *)
Theorem query_patents_sound (con : Backend.connection) (term : string) (limit : Z) :
  ((String.length term < 4)%nat -> Backend.query_patents con term limit = ([], con))
  /\ ((4 <= String.length term)%nat ->
      Backend.con_log (snd (Backend.query_patents con term limit)) =
      (Backend.con_log con ++ [Backend.SelectPatentsLike (term ++ "%") limit])%list)
  /\ (0 <= limit ->
      (length (fst (Backend.query_patents con term limit)) <= Z.to_nat limit)%nat)
  /\ (forall p, In p (fst (Backend.query_patents con term limit)) ->
        In p (Backend.patents (Backend.con_db con))
        /\ exists col,
             In col [Backend.p_applicant_name p; Backend.p_application_number p;
                     Backend.p_publication_number p]
             /\ Backend.sql_like col (term ++ "%") = true
             /\ (no_wildcard term = true ->
                 exists s, col = Some s /\ Py.startswith term s = true)).
Proof.
  unfold Backend.query_patents, Backend.execute_patents.
  destruct (Nat.ltb_spec (String.length term) 4) as [L|L].
  - split; [reflexivity|]. split; [lia|]. split; [simpl; lia|]. intros p [].
  - split; [lia|]. split; [reflexivity|]. cbn [fst snd Backend.select_patents].
    split.
    + intros Hl. unfold Backend.sql_limit.
      destruct (Z.ltb_spec limit 0); [lia|]. rewrite length_firstn. lia.
    + intros p H.
      assert (Hf : In p (filter
                           (fun p0 => Backend.sql_like (Backend.p_applicant_name p0)
                                        (term ++ "%")
                                      || Backend.sql_like (Backend.p_application_number p0)
                                           (term ++ "%")
                                      || Backend.sql_like (Backend.p_publication_number p0)
                                           (term ++ "%"))
                           (Backend.patents (Backend.con_db con)))).
      { unfold Backend.sql_limit in H. destruct (limit <? 0); [exact H|].
        apply in_firstn in H. exact H. }
      apply filter_In in Hf as [Hin Hm]. split; [exact Hin|].
      assert (K : forall col, Backend.sql_like col (term ++ "%") = true ->
                  no_wildcard term = true ->
                  exists s, col = Some s /\ Py.startswith term s = true).
      { intros col Hc W. destruct col as [s|]; [|discriminate].
        exists s. split; [reflexivity|]. simpl in Hc. rewrite like_prefix in Hc; auto. }
      apply orb_prop in Hm as [Hm|Hm]; [apply orb_prop in Hm as [Hm|Hm]|].
      * exists (Backend.p_applicant_name p). split; [simpl; auto|]. split; auto.
      * exists (Backend.p_application_number p). split; [simpl; auto|]. split; auto.
      * exists (Backend.p_publication_number p). split; [simpl; auto|]. split; auto.
Qed.

Lemma query_patents_sound_witness :
  Backend.query_patents (Backend.open_db two_tier_index) "acm" 25
  = ([], Backend.open_db two_tier_index)
  /\ (length (fst (Backend.query_patents (Backend.open_db two_tier_index) "acme" 25)) <= 25)%nat.
Proof.
  split.
  - apply (proj1 (query_patents_sound (Backend.open_db two_tier_index) "acm" 25)).
    simpl. lia.
  - apply (proj1 (proj2 (proj2 (query_patents_sound (Backend.open_db two_tier_index)
                                  "acme" 25)))). lia.
Defined.

(** ** [score_risk] as a function of two counts *)

Lemma score_risk_counts (l : list Backend.mark_summary) (cf : list string) :
  Backend.score_risk l cf =
  if (0 <? count_if (fun m => passes_filter cf m && strong m) l)%nat then "high"
  else if (0 <? count_if (fun m => passes_filter cf m && medium m) l)%nat then "medium"
  else "low".
Proof. unfold Backend.score_risk. rewrite risk_fold. reflexivity. Qed.

Lemma count_if_perm {A : Type} (p : A -> bool) (l l' : list A) :
  Permutation l l' -> count_if p l = count_if p l'.
Proof.
  unfold count_if. induction 1 as [|x l l' _ IH|x y l|l l' l'' _ IH1 _ IH2]; simpl.
  - reflexivity.
  - destruct (p x); simpl; congruence.
  - destruct (p x), (p y); reflexivity.
  - congruence.
Qed.

Lemma count_if_app {A : Type} (p : A -> bool) (l l' : list A) :
  count_if p (l ++ l') = (count_if p l + count_if p l')%nat.
Proof. unfold count_if. rewrite filter_app, length_app. reflexivity. Qed.

Lemma count_if_implies {A : Type} (p q : A -> bool) (l : list A) :
  (forall x, p x = true -> q x = true) -> (count_if p l <= count_if q l)%nat.
Proof.
  intros H. unfold count_if. induction l as [|x l IH]; simpl; [lia|].
  destruct (p x) eqn:P.
  - rewrite (H x P). simpl. lia.
  - destruct (q x); simpl; lia.
Qed.

Lemma count_if_filter {A : Type} (p q : A -> bool) (l : list A) :
  (forall x, p x = true -> q x = true) -> count_if p (filter q l) = count_if p l.
Proof.
  intros H. unfold count_if. induction l as [|x l IH]; simpl; [reflexivity|].
  destruct (q x) eqn:Q; simpl.
  - destruct (p x); simpl; congruence.
  - destruct (p x) eqn:P; [rewrite (H x P) in Q; discriminate|exact IH].
Qed.

(** The rank of the tier two counts give grows with the counts. *)
Lemma tier_rank_mono (s1 m1 s2 m2 : nat) :
  (s1 <= s2)%nat -> (m1 <= m2)%nat ->
  (risk_rank (if (0 <? s1)%nat then "high" else if (0 <? m1)%nat then "medium" else "low")
   <= risk_rank (if (0 <? s2)%nat then "high"
                 else if (0 <? m2)%nat then "medium" else "low"))%nat.
Proof.
  intros Hs Hm.
  destruct (Nat.ltb_spec 0 s1), (Nat.ltb_spec 0 s2), (Nat.ltb_spec 0 m1),
    (Nat.ltb_spec 0 m2); cbn; lia.
Qed.

(** X6.  The risk tier does not depend on the order of the matches. *)
Theorem score_risk_permutation (l l' : list Backend.mark_summary) (cf : list string) :
  Permutation l l' -> Backend.score_risk l cf = Backend.score_risk l' cf.
Proof.
  intros P. rewrite !score_risk_counts.
  rewrite (count_if_perm _ _ _ P), (count_if_perm (fun m => passes_filter cf m && medium m) _ _ P).
  reflexivity.
Qed.

Lemma score_risk_permutation_witness :
  Backend.score_risk
    [bare_summary true [] (Py.lit 86 (-2)); bare_summary true [] (Py.lit 93 (-2))] []
  = Backend.score_risk
      [bare_summary true [] (Py.lit 93 (-2)); bare_summary true [] (Py.lit 86 (-2))] [].
Proof. apply score_risk_permutation. apply perm_swap. Defined.

(** X7.  No match gives "low"; further matches, wherever they stand in the
    list, never lower the risk tier; and a class filter never raises it
    above the tier of the unfiltered list. *)
Theorem score_risk_monotone :
  (forall cf, Backend.score_risk [] cf = "low")
  /\ (forall (l before after : list Backend.mark_summary) (cf : list string),
         (risk_rank (Backend.score_risk l cf)
          <= risk_rank (Backend.score_risk (before ++ l ++ after) cf))%nat)
  /\ (forall (l : list Backend.mark_summary) (cf : list string),
         (risk_rank (Backend.score_risk l cf) <= risk_rank (Backend.score_risk l []))%nat).
Proof.
  split; [reflexivity|]. split.
  - intros l before after cf. rewrite !score_risk_counts.
    apply tier_rank_mono; rewrite !count_if_app; lia.
  - intros l cf. rewrite !score_risk_counts.
    apply tier_rank_mono; apply count_if_implies; intros m H;
      apply andb_prop in H as [_ H]; exact H.
Qed.

(** X8.  Records that are inactive, and records whose class codes miss a
    given class filter, have no influence on the risk tier: leaving them
    out of the list gives the same tier. *)
Theorem score_risk_ignores (l : list Backend.mark_summary) (cf : list string) :
  Backend.score_risk
    (filter (fun m => Backend.ms_active m && passes_filter cf m) l) cf
  = Backend.score_risk l cf.
Proof.
  rewrite !score_risk_counts.
  rewrite !count_if_filter; [reflexivity| |]; intros m H;
    apply andb_prop in H as [H1 H2]; rewrite H1;
    [unfold medium in H2|unfold strong in H2];
    destruct (Backend.ms_active m); [reflexivity|discriminate|reflexivity|discriminate].
Qed.

(** ** The answers of [check] *)

Lemma insert_desc_perm {A : Type} (lt : A -> A -> bool) (x : A) (l : list A) :
  Permutation (Py.insert_desc lt x l) (x :: l).
Proof.
  induction l as [|y l IH]; simpl; [apply Permutation_refl|].
  destruct (lt x y); [|apply Permutation_refl].
  eapply perm_trans; [apply perm_skip, IH|apply perm_swap].
Qed.

Lemma sort_desc_perm {A : Type} (lt : A -> A -> bool) (l : list A) :
  Permutation (Py.sort_desc lt l) l.
Proof.
  unfold Py.sort_desc. induction l as [|x l IH]; simpl; [constructor|].
  eapply perm_trans; [apply insert_desc_perm|apply perm_skip, IH].
Qed.

Lemma forallb_negb_perm (l l' : list bool) :
  Permutation l l' -> forallb negb l = forallb negb l'.
Proof.
  induction 1 as [|x l l' _ IH|x y l|l l' l'' _ IH1 _ IH2]; simpl; try congruence.
  destruct (negb x), (negb y); reflexivity.
Qed.

(** Inserting by a key that looks at the activity first keeps the active
    elements before the inactive ones. *)
Lemma insert_desc_active_first {A : Type} (act : A -> bool) (lt : A -> A -> bool)
    (x : A) (l : list A) :
  (forall a b, act a = true -> act b = false -> lt a b = false) ->
  (forall a b, act a = false -> act b = true -> lt a b = true) ->
  active_first (map act l) = true ->
  active_first (map act (Py.insert_desc lt x l)) = true.
Proof.
  intros H1 H2. induction l as [|y l IH]; intros P.
  - simpl. rewrite orb_true_r. reflexivity.
  - cbn [map active_first] in P. apply andb_prop in P as [Pb Pl].
    cbn [Py.insert_desc]. destruct (lt x y) eqn:L.
    + cbn [map active_first]. rewrite (IH Pl), andb_true_r.
      destruct (act y) eqn:Ay; [reflexivity|]. cbn [orb] in *.
      destruct (act x) eqn:Ax; [rewrite (H1 x y Ax Ay) in L; discriminate|].
      rewrite (forallb_negb_perm _ (act x :: map act l)).
      * simpl. rewrite Ax. exact Pb.
      * change (act x :: map act l) with (map act (x :: l)).
        apply Permutation_map, insert_desc_perm.
    + cbn [map active_first]. rewrite Pb, Pl.
      destruct (act x) eqn:Ax; [reflexivity|]. cbn [orb forallb].
      destruct (act y) eqn:Ay; [rewrite (H2 x y Ax Ay) in L; discriminate|].
      cbn [orb] in Pb. rewrite Pb. reflexivity.
Qed.

Lemma sort_desc_active_first {A : Type} (act : A -> bool) (lt : A -> A -> bool)
    (l : list A) :
  (forall a b, act a = true -> act b = false -> lt a b = false) ->
  (forall a b, act a = false -> act b = true -> lt a b = true) ->
  active_first (map act (Py.sort_desc lt l)) = true.
Proof.
  intros H1 H2. unfold Py.sort_desc. induction l as [|x l IH]; [reflexivity|].
  cbn [fold_right]. apply insert_desc_active_first; assumption.
Qed.

Lemma active_first_firstn (n : nat) (flags : list bool) :
  active_first flags = true -> active_first (firstn n flags) = true.
Proof.
  revert flags. induction n as [|n IH]; intros flags P; [reflexivity|].
  destruct flags as [|b flags]; [reflexivity|].
  cbn [active_first] in P. apply andb_prop in P as [Pb Pl].
  cbn [firstn active_first]. rewrite (IH _ Pl), andb_true_r.
  destruct b; [reflexivity|]. cbn [orb] in *.
  rewrite forallb_forall in *. intros x Hx. apply Pb. eapply in_firstn, Hx.
Qed.

Lemma key_lt_active (a1 a2 : bool) (s1 s2 : Py.float) :
  (a1 = true -> a2 = false -> Backend.key_lt (a1, s1) (a2, s2) = false)
  /\ (a1 = false -> a2 = true -> Backend.key_lt (a1, s1) (a2, s2) = true).
Proof. split; intros -> ->; reflexivity. Qed.

Lemma query_candidates_length (con : Backend.connection) (term country : string) :
  (length (fst (Backend.query_candidates con term country 25)) <= 25)%nat.
Proof.
  unfold Backend.query_candidates, Backend.execute_marks.
  cbn [Backend.select_marks].
  change (Backend.sql_limit 25) with (@firstn Backend.mark_row 25).
  destruct (firstn 25 _) as [|r rs] eqn:X.
  - destruct (String.length term <? 4)%nat; [apply Nat.le_0_l|].
    cbn [Backend.con_db].
    clear X.
    match goal with
    | |- context [match ?t with [] => _ | _ :: _ => _ end] =>
        destruct t as [|r' rs'] eqn:Y
    end; [apply Nat.le_0_l|].
    cbn [fst]. rewrite <- Y. apply firstn_length_le.
  - cbn [fst]. rewrite <- X. apply firstn_length_le.
Qed.


(** A successful answer of [check], field by field. *)
Lemma check_success (db : Backend.database) (today : Py.date) (payload : Backend.request)
    (b : Backend.check_result) (l : list Backend.sql) :
  Backend.check (Backend.IndexReady db) today payload = (Backend.Success b, l) ->
  let term := Py.strip (Py.or_empty (Backend.rq_trademark payload)) in
  let country := Py.strip (Py.or_empty (Backend.rq_country payload)) in
  let term_norm := Backend.norm_text (Some term) in
  exists (con0 : Backend.connection) (rows : list Backend.mark_row),
    Backend.con_db con0 = db
    /\ rows = fst (Backend.query_candidates con0 term_norm country 25)
    /\ Backend.rs_similar_marks b =
       firstn 50 (Py.sort_desc mark_key_lt
                    (map (fun r => Backend.summarize_mark today r term_norm) rows))
    /\ Backend.rs_match_count b = length (Backend.rs_similar_marks b)
    /\ Backend.rs_patent_count b = length (Backend.rs_patents b)
    /\ Backend.rs_risk_level b =
       Backend.score_risk (Backend.rs_similar_marks b) (Backend.rs_classes b)
    /\ Backend.rs_trademark b = term /\ Backend.rs_country b = country
    /\ (3 <= String.length term)%nat /\ country <> "".
Proof.
  unfold Backend.check. cbv zeta.
  destruct (negb (Py.truthy (Py.strip (Py.or_empty (Backend.rq_trademark payload)))));
    [intros H; discriminate H|].
  destruct (Py.strip (Py.or_empty (Backend.rq_country payload))) as [|c0 cs] eqn:EC;
    [intros H; discriminate H|]. cbn [Py.truthy negb].
  destruct (Nat.ltb_spec
              (String.length (Py.strip (Py.strip (Py.or_empty (Backend.rq_trademark payload)))))
              3) as [L|L]; [intros H; discriminate H|].
  rewrite strip_idem in L.
  destruct (Backend.country_available _ _) as [available con0] eqn:CA.
  assert (D0 : Backend.con_db con0 = db).
  { unfold Backend.country_available, Backend.execute_marks in CA.
    injection CA as _ <-. reflexivity. }
  destruct (negb available); [intros H; discriminate H|].
  destruct (Backend.query_candidates con0 _ _ 25) as [rows con1] eqn:QC.
  destruct (if match Backend.rq_include_patents payload with Some x => x | None => true end
            then Backend.query_patents con1 _ 25 else ([], con1)) as [patent_rows con2].
  intros H. injection H as <- _.
  exists con0, rows.
  cbn [Backend.rs_similar_marks Backend.rs_match_count Backend.rs_patent_count
       Backend.rs_patents Backend.rs_risk_level Backend.rs_classes
       Backend.rs_trademark Backend.rs_country].
  rewrite QC. cbn [fst].
  repeat split; auto. discriminate.
Qed.

Lemma firstn_short {A : Type} (n : nat) (l : list A) :
  (length l <= n)%nat -> firstn n l = l.
Proof. apply firstn_all2. Qed.

Lemma query_patents_length (con : Backend.connection) (term : string) :
  (length (fst (Backend.query_patents con term 25)) <= 25)%nat.
Proof.
  unfold Backend.query_patents, Backend.execute_patents.
  destruct (String.length term <? 4)%nat; [apply Nat.le_0_l|].
  cbn [fst Backend.select_patents].
  change (Backend.sql_limit 25) with (@firstn Backend.patent_row 25).
  apply firstn_length_le.
Qed.

Lemma score_risk_values (l : list Backend.mark_summary) (cf : list string) :
  In (Backend.score_risk l cf) ["high"; "medium"; "low"].
Proof.
  rewrite score_risk_counts.
  destruct (0 <? _)%nat; [simpl; auto|]. destruct (0 <? _)%nat; simpl; auto.
Qed.

(** X9.  In a successful answer of [check] the two counts are the lengths
    of the two lists and neither exceeds 25; the list of marks holds the
    summary of every candidate row retrieved, each once (the cap of 50
    drops nothing); the risk level is one of "high", "medium", "low" and
    is the score of the marks listed; and the query text has at least 3
    characters once trimmed. *)
Theorem check_answer_shape (db : Backend.database) (today : Py.date)
    (payload : Backend.request) (b : Backend.check_result) (l : list Backend.sql) :
  Backend.check (Backend.IndexReady db) today payload = (Backend.Success b, l) ->
  Backend.rs_match_count b = length (Backend.rs_similar_marks b)
  /\ (Backend.rs_match_count b <= 25)%nat
  /\ Backend.rs_patent_count b = length (Backend.rs_patents b)
  /\ (Backend.rs_patent_count b <= 25)%nat
  /\ (exists (con : Backend.connection),
        Backend.con_db con = db
        /\ Permutation (Backend.rs_similar_marks b)
             (map (fun r => Backend.summarize_mark today r
                              (Backend.norm_text (Some (Backend.rs_trademark b))))
                (fst (Backend.query_candidates con
                        (Backend.norm_text (Some (Backend.rs_trademark b)))
                        (Backend.rs_country b) 25))))
  /\ In (Backend.rs_risk_level b) ["high"; "medium"; "low"]
  /\ Backend.rs_risk_level b =
     Backend.score_risk (Backend.rs_similar_marks b) (Backend.rs_classes b)
  /\ (3 <= String.length (Backend.rs_trademark b))%nat.
Proof.
  intros H.
  destruct (check_success _ _ _ _ _ H)
    as (con0 & rows & D0 & Hrows & HM & Hmc & Hpc & Hrisk & Htm & Hc & Hlen & Hne).
  assert (LR : (length rows <= 25)%nat) by (rewrite Hrows; apply query_candidates_length).
  assert (LS : (length (Py.sort_desc mark_key_lt
                          (map (fun r => Backend.summarize_mark today r
                                           (Backend.norm_text
                                              (Some (Py.strip (Py.or_empty
                                                       (Backend.rq_trademark payload))))))
                             rows)) <= 25)%nat).
  { rewrite (Permutation_length (sort_desc_perm _ _)), length_map. exact LR. }
  rewrite firstn_short in HM by lia.
  destruct payload as [tm c cls inc].
  pose proof (check_patents _ _ _ _ _ _ _ _ H) as HP.
  assert (LP : (length (Backend.rs_patents b) <= 25)%nat).
  { rewrite HP. unfold patent_list. rewrite length_firstn.
    rewrite (Permutation_length (sort_desc_perm _ _)), length_map.
    destruct (match inc with Some x => x | None => true end); [|simpl; lia].
    pose proof (query_patents_length (Backend.open_db db)
                  (Backend.norm_text (Some (Py.strip (Py.or_empty tm))))). lia. }
  split; [exact Hmc|]. split; [rewrite Hmc, HM; exact LS|].
  split; [exact Hpc|]. split; [rewrite Hpc; exact LP|].
  split.
  - exists con0. split; [exact D0|]. rewrite Htm, Hc, HM, <- Hrows.
    apply sort_desc_perm.
  - split; [rewrite Hrisk; apply score_risk_values|]. split; [exact Hrisk|].
    rewrite Htm. exact Hlen.
Qed.

Lemma check_answer_shape_witness :
  exists b l,
    Backend.check (Backend.IndexReady two_tier_index) (Py.mkdate 2026 1 1)
      (Backend.mk_request (Some " Acme ") (Some "UK") (Some "9,25") None)
    = (Backend.Success b, l)
    /\ (Backend.rs_match_count b <= 25)%nat
    /\ Backend.rs_trademark b = "Acme".
Proof.
  eexists. eexists. split; [vm_compute; reflexivity|].
  split; [|reflexivity].
  apply (check_answer_shape two_tier_index (Py.mkdate 2026 1 1)
           (Backend.mk_request (Some " Acme ") (Some "UK") (Some "9,25") None) _ _ eq_refl).
Defined.

(** X10.  In a successful answer of [check] the active records come
    first: in neither list does an active record follow an inactive one,
    whatever the similarities. *)
Theorem check_active_first (db : Backend.database) (today : Py.date)
    (payload : Backend.request) (b : Backend.check_result) (l : list Backend.sql) :
  Backend.check (Backend.IndexReady db) today payload = (Backend.Success b, l) ->
  active_first (map Backend.ms_active (Backend.rs_similar_marks b)) = true
  /\ active_first (map Backend.ps_active (Backend.rs_patents b)) = true.
Proof.
  intros H.
  destruct (check_success _ _ _ _ _ H) as (con0 & rows & _ & _ & HM & _).
  destruct payload as [tm c cls inc].
  pose proof (check_patents _ _ _ _ _ _ _ _ H) as HP.
  split.
  - rewrite HM, <- firstn_map. apply active_first_firstn.
    apply sort_desc_active_first; intros x y Hx Hy; unfold mark_key_lt;
      apply key_lt_active; assumption.
  - rewrite HP. unfold patent_list. rewrite <- firstn_map. apply active_first_firstn.
    apply sort_desc_active_first; intros x y Hx Hy;
      apply key_lt_active; assumption.
Qed.

Lemma check_active_first_witness :
  exists b l,
    Backend.check (Backend.IndexReady two_tier_index) (Py.mkdate 2026 1 1)
      (Backend.mk_request (Some "acme robotics") (Some "ALL") None None)
    = (Backend.Success b, l)
    /\ active_first (map Backend.ms_active (Backend.rs_similar_marks b)) = true.
Proof.
  eexists. eexists. split; [vm_compute; reflexivity|].
  apply (check_active_first two_tier_index (Py.mkdate 2026 1 1)
           (Backend.mk_request (Some "acme robotics") (Some "ALL") None None) _ _ eq_refl).
Defined.


(** ** [ensure_index] *)

(** X12.  [ensure_index] answers [True] exactly when the index file is
    there after the call, with an empty message, and [False] with a
    message otherwise.  It never removes the index or clears the flag
    [_download_attempted], it changes nothing when the index is there or
    no URL is set, and a second call changes nothing and answers as the
    first did: the download is tried at most once. *)
Theorem ensure_index_once (db_url : string) (d1 d2 : Backend.download_result)
    (w : Backend.index_world) :
  let r1 := fst (Backend.ensure_index db_url d1 w) in
  let w1 := snd (Backend.ensure_index db_url d1 w) in
  let r2 := fst (Backend.ensure_index db_url d2 w1) in
  let w2 := snd (Backend.ensure_index db_url d2 w1) in
  fst r1 = Backend.w_has_index w1
  /\ (Py.truthy (snd r1) = negb (fst r1))
  /\ (Backend.w_has_index w = true -> Backend.w_has_index w1 = true)
  /\ (Backend.w_download_attempted w = true -> Backend.w_download_attempted w1 = true)
  /\ (Backend.w_has_index w = true \/ db_url = "" -> w1 = w)
  /\ w2 = w1
  /\ fst r2 = fst r1.
Proof.
  destruct w as [h a]. unfold Backend.ensure_index. cbn [Backend.w_has_index Backend.w_download_attempted].
  destruct h; [cbn; repeat split; auto|].
  destruct db_url as [|c u]; [cbn; repeat split; auto; intros [H|H]; auto|].
  destruct a.
  - cbn. repeat split; auto.
  - destruct d1 as [|exc]; cbn; repeat split; auto; try discriminate;
      intros [H|H]; discriminate H.
Qed.

(** ** [_parse_allowed_origins] *)

Lemma has_char_app (c : ascii) (a b : string) :
  has_char c (a ++ b) = has_char c a || has_char c b.
Proof.
  induction a as [|d a IH]; [reflexivity|]. cbn. rewrite IH. apply orb_assoc.
Qed.

Lemma split_no_sep (sep : ascii) (s : string) :
  Forall (fun w => has_char sep w = false) (Py.split sep s).
Proof.
  induction s as [|c s IH]; cbn.
  - constructor; [reflexivity|constructor].
  - destruct (Ascii.eqb c sep) eqn:E.
    + constructor; [reflexivity|exact IH].
    + destruct (Py.split sep s) as [|w ws].
      * constructor; [cbn; rewrite E; reflexivity|constructor].
      * inversion IH as [|? ? Hw Hws]; subst. constructor; [|exact Hws].
        cbn. rewrite E, Hw. reflexivity.
Qed.

Lemma has_char_lstrip (c : ascii) (s : string) :
  has_char c s = false -> has_char c (Py.lstrip s) = false.
Proof.
  induction s as [|d s IH]; [reflexivity|]. cbn [Py.lstrip].
  destruct (Py.isspace d); [|exact (fun H => H)].
  cbn. intros H. apply orb_false_iff in H as [_ H]. exact (IH H).
Qed.

Lemma has_char_rstrip (c : ascii) (s : string) :
  has_char c s = false -> has_char c (Py.rstrip s) = false.
Proof.
  induction s as [|d s IH]; [reflexivity|]. cbn [Py.rstrip has_char].
  intros H. apply orb_false_iff in H as [H1 H2]. specialize (IH H2).
  destruct (Py.rstrip s) as [|e r].
  - destruct (Py.isspace d); [reflexivity|]. cbn. rewrite H1. reflexivity.
  - cbn [has_char]. rewrite H1. exact IH.
Qed.

Lemma has_char_strip (c : ascii) (s : string) :
  has_char c s = false -> has_char c (Py.strip s) = false.
Proof. intros H. apply has_char_rstrip, has_char_lstrip, H. Qed.

Lemma split_join (sep : ascii) (l : list string) :
  l <> [] ->
  Forall (fun w => has_char sep w = false) l ->
  Py.split sep (Py.join (String sep EmptyString) l) = l.
Proof.
  induction l as [|x l IH]; [intros H; contradiction|]. intros _ F.
  inversion F as [|? ? Hx Hl]; subst.
  destruct l as [|y l].
  - cbn [Py.join]. clear - Hx. induction x as [|c x IHx]; [reflexivity|].
    cbn in Hx. apply orb_false_iff in Hx as [H1 H2]. cbn [Py.split]. rewrite H1.
    rewrite (IHx H2). reflexivity.
  - change (Py.join (String sep "") (x :: y :: l))
      with (x ++ String sep "" ++ Py.join (String sep "") (y :: l)).
    assert (R : Py.split sep (Py.join (String sep "") (y :: l)) = y :: l)
      by (apply IH; [discriminate|exact Hl]).
    clear IH F Hl. induction x as [|c x IHx].
    + cbn [String.append Py.split]. rewrite Ascii.eqb_refl.
      change (String.append "" ?z) with z. cbn [String.append]. rewrite R. reflexivity.
    + cbn in Hx. apply orb_false_iff in Hx as [H1 H2].
      cbn [String.append Py.split]. rewrite H1.
      change (x ++ String sep (Py.join (String sep "") (y :: l)))
        with (x ++ String sep "" ++ Py.join (String sep "") (y :: l)).
      rewrite (IHx H2). reflexivity.
Qed.

Lemma is_entry_inv (x : string) :
  is_entry x = true ->
  Py.truthy x = true /\ Py.strip x = x /\ has_char "," x = false.
Proof.
  unfold is_entry. intros H. apply andb_prop in H as [H H3].
  apply andb_prop in H as [H1 H2]. apply String.eqb_eq in H2.
  apply negb_true_iff in H3. auto.
Qed.

(** X13.  Every origin [_parse_allowed_origins] returns is a non-empty
    text without white space at its ends and without a comma; no setting
    ([None] or the empty text) gives no origin; and a list of such origins
    joined by commas is read back as it is. *)
Theorem parse_allowed_origins_entries :
  (forall raw : option string,
      forallb is_entry (Backend._parse_allowed_origins raw) = true)
  /\ Backend._parse_allowed_origins None = []
  /\ Backend._parse_allowed_origins (Some "") = []
  /\ (forall l : list string,
         forallb is_entry l = true ->
         Backend._parse_allowed_origins (Some (Py.join "," l)) = l).
Proof.
  split; [|split; [reflexivity|split; [reflexivity|]]].
  - intros raw. unfold Backend._parse_allowed_origins.
    pose proof (split_no_sep "," (Py.or_empty raw)) as F.
    induction (Py.split "," (Py.or_empty raw)) as [|w ws IH]; [reflexivity|].
    inversion F as [|? ? Hw Hws]; subst. cbn [map filter].
    destruct (Py.truthy (Py.strip w)) eqn:T; [|exact (IH Hws)].
    cbn [forallb]. rewrite (IH Hws), andb_true_r.
    unfold is_entry. rewrite T, strip_idem, String.eqb_refl, (has_char_strip _ _ Hw).
    reflexivity.
  - intros l H. unfold Backend._parse_allowed_origins.
    destruct l as [|x l]; [reflexivity|].
    cbn [Py.or_empty]. rewrite split_join.
    + induction (x :: l) as [|y k IH]; [reflexivity|].
      cbn [forallb] in H. apply andb_prop in H as [Hy Hk].
      apply is_entry_inv in Hy as (T & S & _).
      cbn [map filter]. rewrite S, T, (IH Hk). reflexivity.
    + discriminate.
    + apply Forall_forall. intros y Hy.
      pose proof (proj1 (forallb_forall _ _) H y Hy) as E.
      apply is_entry_inv in E. tauto.
Qed.

(** ** The cell cleaners of the ingestion *)

Lemma stripped_strip (s : string) : stripped (Py.strip s) = true.
Proof. unfold stripped. rewrite strip_idem. apply String.eqb_refl. Qed.

Lemma parse_date_strip (s : string) : BuildIndex.parse_date s = Py.strip s.
Proof.
  unfold BuildIndex.parse_date. destruct (Py.strip s) eqn:E; [reflexivity|].
  cbn [Py.truthy negb]. destruct (Py.strptime_ymd _); reflexivity.
Qed.

(** X14.  [clean_cell] gives a text without white space at its ends that
    is never one of the null tokens "NULL", "null", "N/A", "n/a"; it gives
    the empty text exactly for the cells that are a null token once
    trimmed, and the trimmed cell otherwise; cleaning twice changes
    nothing more. *)
Theorem clean_cell_normal (v : string) :
  stripped (BuildIndex.clean_cell v) = true
  /\ Py.mem (BuildIndex.clean_cell v) ["NULL"; "null"; "N/A"; "n/a"] = false
  /\ (BuildIndex.clean_cell v = ""
      <-> Py.mem (Py.strip v) BuildIndex.NULL_VALUES = true)
  /\ (BuildIndex.clean_cell v <> "" -> BuildIndex.clean_cell v = Py.strip v)
  /\ BuildIndex.clean_cell (BuildIndex.clean_cell v) = BuildIndex.clean_cell v.
Proof.
  unfold BuildIndex.clean_cell.
  destruct (Py.mem (Py.strip v) BuildIndex.NULL_VALUES) eqn:M.
  - repeat split; auto. intros H; contradiction H; reflexivity.
  - rewrite strip_idem, M. split; [apply stripped_strip|].
    split; [|split; [|split; reflexivity]].
    + unfold BuildIndex.NULL_VALUES in M. cbn [Py.mem existsb] in M |- *.
      apply orb_false_iff in M as [_ M]. exact M.
    + split; [|discriminate]. intros E. rewrite E in M. discriminate M.
Qed.

(** ** [normalize_country_from_office] *)

(** X15.  [normalize_country_from_office] always gives one of the four
    regions of the taxonomy, so that a mark read from a journal is found
    under the selector "all"; a registration number that starts with "UK"
    in any case decides for the United Kingdom whatever the office code
    says, and with neither a known prefix nor a known office code the
    region is "Rest of World". *)
Theorem normalize_country_in_taxonomy (reg_no office_code : string) :
  In (BuildIndex.normalize_country_from_office reg_no office_code) taxonomy
  /\ Backend.sql_in
       (Some (BuildIndex.normalize_country_from_office reg_no office_code))
       (Backend.resolve_countries "all") = true
  /\ (Py.startswith "UK" (Py.upper reg_no) = true ->
      BuildIndex.normalize_country_from_office reg_no office_code = "United Kingdom")
  /\ (BuildIndex.normalize_country_from_office reg_no "" = "Rest of World"
      <-> existsb (fun p => Py.startswith p (Py.upper reg_no)) ["UK"; "US"; "EU"] = false).
Proof.
  unfold BuildIndex.normalize_country_from_office, taxonomy.
  split; [|split; [|split]].
  - repeat match goal with
           | |- context [if ?b then _ else _] => destruct b
           end; cbn; auto.
  - repeat match goal with
           | |- context [if ?b then _ else _] => destruct b
           end; reflexivity.
  - intros H. rewrite H. reflexivity.
  - cbn [Py.upper Py.mem existsb String.eqb orb Py.truthy].
    destruct (Py.startswith "UK" (Py.upper reg_no));
      destruct (Py.startswith "US" (Py.upper reg_no));
      destruct (Py.startswith "EU" (Py.upper reg_no));
      destruct (Py.startswith "WO" (Py.upper reg_no));
      cbn; split; intros H; try reflexivity; try discriminate H.
Qed.

(** ** [col_to_index] *)

Lemma col_fold_snoc (l : list ascii) (c : ascii) (z : Z) :
  fold_left
    (fun idx ch => if Py.between 65 90 ch then idx * 26 + (Py.code ch - 65 + 1) else idx)
    (l ++ [c]) z
  = let a := fold_left
               (fun idx ch =>
                  if Py.between 65 90 ch then idx * 26 + (Py.code ch - 65 + 1) else idx)
               l z in
    if Py.between 65 90 c then a * 26 + (Py.code c - 65 + 1) else a.
Proof. rewrite fold_left_app. reflexivity. Qed.

Lemma col_fold_filter (l : list ascii) :
  forall z,
    fold_left
      (fun idx ch => if Py.between 65 90 ch then idx * 26 + (Py.code ch - 65 + 1) else idx)
      (filter (Py.between 65 90) l) z
    = fold_left
        (fun idx ch => if Py.between 65 90 ch then idx * 26 + (Py.code ch - 65 + 1) else idx)
        l z.
Proof.
  induction l as [|c l IH]; intros z; [reflexivity|]. cbn [filter fold_left].
  destruct (Py.between 65 90 c) eqn:B; [|apply IH].
  cbn [fold_left]. rewrite B. apply IH.
Qed.

Lemma list_ascii_filter_chars (p : ascii -> bool) (s : string) :
  list_ascii_of_string (Py.filter_chars p s) = filter p (list_ascii_of_string s).
Proof.
  induction s as [|c s IH]; [reflexivity|]. cbn.
  destruct (p c); cbn; rewrite IH; reflexivity.
Qed.

Lemma between_code (lo hi : Z) (c : ascii) :
  Py.between lo hi c = true -> lo <= Py.code c <= hi.
Proof. unfold Py.between. intros H. apply andb_prop in H as [H1 H2]. lia. Qed.

Lemma all_upper_forall (s : string) :
  all_upper s = true <-> Forall (fun c => Py.between 65 90 c = true) (list_ascii_of_string s).
Proof.
  induction s as [|c s IH]; cbn.
  - split; [constructor|reflexivity].
  - rewrite andb_true_iff, IH. split.
    + intros [H1 H2]. constructor; assumption.
    + intros H. inversion H; subst. split; assumption.
Qed.

Lemma col_fold_nonneg (l : list ascii) :
  Forall (fun c => Py.between 65 90 c = true) l ->
  0 <= fold_left
         (fun idx ch => if Py.between 65 90 ch then idx * 26 + (Py.code ch - 65 + 1) else idx)
         l 0
  /\ (l <> [] ->
      1 <= fold_left
             (fun idx ch =>
                if Py.between 65 90 ch then idx * 26 + (Py.code ch - 65 + 1) else idx)
             l 0).
Proof.
  induction l as [|c l IH] using rev_ind; intros F.
  - split; [cbn; lia|intros H; contradiction].
  - apply Forall_app in F as [Fl Fc]. inversion Fc as [|? ? Hc _]; subst.
    destruct (IH Fl) as [I0 _]. rewrite col_fold_snoc. cbv zeta. rewrite Hc.
    apply between_code in Hc. split; [lia|intros _; lia].
Qed.

Lemma col_fold_injective (l : list ascii) :
  forall k : list ascii,
    Forall (fun c => Py.between 65 90 c = true) l ->
    Forall (fun c => Py.between 65 90 c = true) k ->
    fold_left
      (fun idx ch => if Py.between 65 90 ch then idx * 26 + (Py.code ch - 65 + 1) else idx)
      l 0
    = fold_left
        (fun idx ch => if Py.between 65 90 ch then idx * 26 + (Py.code ch - 65 + 1) else idx)
        k 0 ->
    l = k.
Proof.
  induction l as [|c l IH] using rev_ind; intros k Fl Fk E.
  - destruct k as [|d k]; [reflexivity|].
    destruct (col_fold_nonneg _ Fk) as [_ H]. simpl (fold_left _ [] _) in E.
    assert (d :: k <> []) by discriminate. specialize (H H0). lia.
  - destruct k as [|d k _] using rev_ind.
    + destruct (col_fold_nonneg _ Fl) as [_ H].
      assert (l ++ [c] <> [])%list by (destruct l; discriminate).
      specialize (H H0). simpl (fold_left _ [] _) in E. lia.
    + apply Forall_app in Fl as [Fl Fc]. apply Forall_app in Fk as [Fk Fd].
      inversion Fc as [|? ? Hc _]; subst. inversion Fd as [|? ? Hd _]; subst.
      rewrite !col_fold_snoc in E. cbv zeta in E. rewrite Hc, Hd in E.
      pose proof (between_code _ _ _ Hc) as Bc. pose proof (between_code _ _ _ Hd) as Bd.
      assert (Ecode : Py.code c = Py.code d) by lia.
      assert (Efold :
        fold_left
          (fun idx ch => if Py.between 65 90 ch then idx * 26 + (Py.code ch - 65 + 1) else idx)
          l 0
        = fold_left
            (fun idx ch => if Py.between 65 90 ch then idx * 26 + (Py.code ch - 65 + 1) else idx)
            k 0) by lia.
      rewrite (IH k Fl Fk Efold). f_equal. f_equal.
      unfold Py.code in Ecode. apply N2Z.inj in Ecode.
      rewrite <- (ascii_N_embedding c), <- (ascii_N_embedding d), Ecode. reflexivity.
Qed.

Lemma list_ascii_inj (s t : string) :
  list_ascii_of_string s = list_ascii_of_string t -> s = t.
Proof.
  intros H. rewrite <- (string_of_list_ascii_of_string s),
    <- (string_of_list_ascii_of_string t), H. reflexivity.
Qed.

(** X16.  [col_to_index] reads only the capitals A-Z of a column
    reference; without any it gives -1, the index of no column.  On
    references made of capitals it gives the bijective base-26 number less
    one, "A" being 0 and a further letter [c] taking the index [i] to
    [26 * (i + 1) + (ord(c) - ord("A"))], and two different references
    never share an index. *)
Theorem col_to_index_letters :
  (forall col : string,
      BuildIndex.col_to_index col
      = BuildIndex.col_to_index (Py.filter_chars (Py.between 65 90) col))
  /\ (forall col : string,
         Py.filter_chars (Py.between 65 90) col = "" -> BuildIndex.col_to_index col = -1)
  /\ (forall col : string,
         all_upper col = true -> -1 <= BuildIndex.col_to_index col
         /\ (col <> "" -> 0 <= BuildIndex.col_to_index col))
  /\ (forall (col : string) (c : ascii),
         Py.between 65 90 c = true ->
         BuildIndex.col_to_index (col ++ String c "")
         = 26 * (BuildIndex.col_to_index col + 1) + (Py.code c - 65))
  /\ (forall col1 col2 : string,
         all_upper col1 = true -> all_upper col2 = true ->
         BuildIndex.col_to_index col1 = BuildIndex.col_to_index col2 -> col1 = col2).
Proof.
  unfold BuildIndex.col_to_index.
  split; [|split; [|split; [intros col H; split|split]]].
  - intros col. rewrite list_ascii_filter_chars, col_fold_filter. reflexivity.
  - intros col H. rewrite <- col_fold_filter, <- list_ascii_filter_chars, H. reflexivity.
  - apply all_upper_forall in H. destruct (col_fold_nonneg _ H). lia.
  - intros N. apply all_upper_forall in H. destruct (col_fold_nonneg _ H) as [_ P].
    assert (list_ascii_of_string col <> []) by (destruct col; [contradiction|discriminate]).
    specialize (P H0). lia.
  - intros col c Hc.
    assert (L : list_ascii_of_string (col ++ String c "")
                = (list_ascii_of_string col ++ [c])%list).
    { induction col as [|d col IH]; [reflexivity|]. cbn. rewrite IH. reflexivity. }
    rewrite L, col_fold_snoc. cbv zeta. rewrite Hc. lia.
  - intros col1 col2 H1 H2 E. apply list_ascii_inj.
    apply col_fold_injective; [apply all_upper_forall, H1|apply all_upper_forall, H2|lia].
Qed.

(** ** Rows of a text export *)

Lemma pad_or_trim_length (n : nat) (row : list string) :
  length (BuildIndex.pad_or_trim n row) = n.
Proof.
  unfold BuildIndex.pad_or_trim.
  destruct (Nat.ltb_spec (length row) n) as [H|H].
  - rewrite length_app, repeat_length. lia.
  - destruct (Nat.ltb_spec n (length row)) as [H'|H'].
    + rewrite length_firstn. lia.
    + lia.
Qed.

Lemma nth_repeat_empty (k i : nat) : nth i (repeat "" k) "" = "".
Proof.
  revert i. induction k as [|k IH]; intros [|i]; cbn; auto.
Qed.

Lemma pad_or_trim_nth (n : nat) (row : list string) (i : nat) :
  (i < n)%nat -> nth i (BuildIndex.pad_or_trim n row) "" = nth i row "".
Proof.
  intros Hi. unfold BuildIndex.pad_or_trim.
  destruct (Nat.ltb_spec (length row) n) as [H|H].
  - destruct (Nat.lt_ge_cases i (length row)) as [L|L].
    + apply app_nth1. exact L.
    + rewrite app_nth2 by exact L. rewrite nth_repeat_empty.
      symmetry. apply nth_overflow. exact L.
  - destruct (Nat.ltb_spec n (length row)) as [H'|H']; [|reflexivity].
    rewrite <- (firstn_skipn n row) at 2.
    rewrite app_nth1; [reflexivity|]. rewrite length_firstn. lia.
Qed.

Lemma nth_ext_empty (a b : list string) :
  length a = length b ->
  (forall i, (i < length a)%nat -> nth i a "" = nth i b "") -> a = b.
Proof.
  intros L H. apply (nth_ext a b "" ""); assumption.
Qed.

Lemma pad_or_trim_more (n : nat) (row extra : list string) :
  (n <= length row)%nat ->
  BuildIndex.pad_or_trim n (row ++ extra) = BuildIndex.pad_or_trim n row.
Proof.
  intros H. apply nth_ext_empty.
  - rewrite !pad_or_trim_length. reflexivity.
  - rewrite pad_or_trim_length. intros i Hi.
    rewrite !pad_or_trim_nth by exact Hi. apply app_nth1. lia.
Qed.

Lemma pad_or_trim_blank (n : nat) (row : list string) (k : nat) :
  BuildIndex.pad_or_trim n (row ++ repeat "" k) = BuildIndex.pad_or_trim n row.
Proof.
  apply nth_ext_empty.
  - rewrite !pad_or_trim_length. reflexivity.
  - rewrite pad_or_trim_length. intros i Hi.
    rewrite !pad_or_trim_nth by exact Hi.
    destruct (Nat.lt_ge_cases i (length row)) as [L|L].
    + apply app_nth1. exact L.
    + rewrite app_nth2 by exact L. rewrite nth_repeat_empty.
      symmetry. apply nth_overflow. exact L.
Qed.

(** X17.  [ingest_file] brings every data row to the length of the
    header: the cells stay at their columns and a missing cell reads as
    the empty text.  So the record built from a row does not change when
    cells beyond the header are added to it, nor when empty cells are
    added at its end. *)
Theorem ingest_file_pads_rows :
  (forall (n : nat) (row : list string),
      length (BuildIndex.pad_or_trim n row) = n
      /\ forall i : nat, (i < n)%nat ->
           nth i (BuildIndex.pad_or_trim n row) "" = nth i row "")
  /\ (forall (path : string) (headers row extra : list string),
         (length headers <= length row)%nat ->
         BuildIndex.mark_tuple_of_row path headers (row ++ extra)
         = BuildIndex.mark_tuple_of_row path headers row)
  /\ (forall (path : string) (headers row : list string) (k : nat),
         BuildIndex.mark_tuple_of_row path headers (row ++ repeat "" k)
         = BuildIndex.mark_tuple_of_row path headers row).
Proof.
  split; [|split].
  - intros n row. split; [apply pad_or_trim_length|]. intros i. apply pad_or_trim_nth.
  - intros path headers row extra H. unfold BuildIndex.mark_tuple_of_row.
    rewrite (pad_or_trim_more _ _ _ H). reflexivity.
  - intros path headers row k. unfold BuildIndex.mark_tuple_of_row.
    rewrite pad_or_trim_blank. reflexivity.
Qed.

(** ** What [read_rows] yields *)

Lemma has_trademark_headers_nonempty (headers : list string) :
  BuildIndex.has_trademark_headers headers = true -> headers <> [].
Proof. destruct headers; [discriminate|discriminate]. Qed.

Lemma read_rows_from_shape (f : BuildIndex.txt_file) (encs : list BuildIndex.encoding) :
  let rows := fst (BuildIndex.read_rows_from f encs) in
  let out := snd (BuildIndex.read_rows_from f encs) in
  Forall (fun row => row <> []) rows
  /\ match rows with
     | first :: _ => BuildIndex.has_trademark_headers first = true
     | [] => out = Py.Raised Py.ValueError
     end
  /\ (out = Py.Ok tt \/ out = Py.Raised Py.ValueError)
  /\ (out = Py.Ok tt <->
      existsb (fun enc => negb (attempt_fails (BuildIndex.txt_read f enc))) encs = true).
Proof.
  cbv zeta. induction encs as [|enc encs IH].
  - cbn. repeat split; auto; discriminate.
  - cbn [BuildIndex.read_rows_from existsb]. unfold attempt_fails at 1.
    destruct (BuildIndex.rd_rows (BuildIndex.txt_read f enc)) as [|first rest] eqn:R;
      [exact IH|].
    destruct (BuildIndex.has_trademark_headers (BuildIndex.clean_headers first)) eqn:Hh;
      cbn [negb orb]; [|exact IH].
    assert (Fy : Forall (fun row : list string => row <> [])
                   (BuildIndex.clean_headers first
                    :: filter (fun row => match row with [] => false | _ => true end) rest)).
    { constructor; [apply has_trademark_headers_nonempty, Hh|].
      apply Forall_forall. intros row Hr. apply filter_In in Hr as [_ Hr].
      destruct row; [discriminate|discriminate]. }
    destruct (BuildIndex.rd_fails (BuildIndex.txt_read f enc)) eqn:Fl; cbn [negb orb].
    + destruct (BuildIndex.read_rows_from f encs) as [more out] eqn:E.
      cbn [fst snd] in IH |- *. destruct IH as (I1 & I2 & I3 & I4).
      split; [apply Forall_app; split; [exact Fy|exact I1]|].
      split; [exact Hh|]. split; [exact I3|exact I4].
    + cbn [fst snd]. split; [exact Fy|]. split; [exact Hh|].
      split; [left; reflexivity|]. split; reflexivity.
Qed.

(** X18.  No row [read_rows] yields is empty, and the first one, if there
    is one, is a header with both "Trade Mark" and "Mark Text".  The
    generator ends normally or by raising [ValueError], and it ends
    normally exactly when some encoding of the chain gives a first row
    with both headers and is read to its end without an error. *)
Theorem read_rows_shape (f : BuildIndex.txt_file) :
  let rows := fst (BuildIndex.read_rows f) in
  let out := snd (BuildIndex.read_rows f) in
  Forall (fun row => row <> []) rows
  /\ match rows with
     | first :: _ => BuildIndex.has_trademark_headers first = true
     | [] => out = Py.Raised Py.ValueError
     end
  /\ (out = Py.Ok tt \/ out = Py.Raised Py.ValueError)
  /\ (out = Py.Ok tt <-> every_attempt_fails f = false).
Proof.
  cbv zeta. unfold BuildIndex.read_rows, every_attempt_fails.
  destruct (read_rows_from_shape f all_encodings) as (H1 & H2 & H3 & H4).
  unfold all_encodings in *.
  split; [exact H1|]. split; [exact H2|]. split; [exact H3|].
  rewrite H4. clear.
  generalize [BuildIndex.Utf16; BuildIndex.Utf16le; BuildIndex.Utf16be; BuildIndex.Utf8sig].
  intros l. induction l as [|e l IH]; cbn; [split; discriminate|].
  destruct (attempt_fails (BuildIndex.txt_read f e)); cbn; [exact IH|split; reflexivity].
Qed.

(** ** Batches of 5000 *)

Lemma insert_marks_app (clause : BuildIndex.conflict_clause) (a b : list BuildIndex.mark_tuple) :
  forall tbl,
    BuildIndex.insert_marks clause tbl (a ++ b) =
    match BuildIndex.insert_marks clause tbl a with
    | Py.Ok tbl' => BuildIndex.insert_marks clause tbl' b
    | Py.Raised e => Py.Raised e
    end.
Proof.
  induction a as [|t a IH]; intros tbl; [reflexivity|].
  cbn [app BuildIndex.insert_marks].
  destruct (BuildIndex.insert_mark clause tbl t); [apply IH|reflexivity].
Qed.

Lemma insert_batch_app (con : Backend.database) (a b : list BuildIndex.mark_tuple) :
  BuildIndex.insert_batch con (a ++ b) =
  match BuildIndex.insert_batch con a with
  | Py.Ok con' => BuildIndex.insert_batch con' b
  | Py.Raised e => Py.Raised e
  end.
Proof.
  unfold BuildIndex.insert_batch. rewrite insert_marks_app.
  destruct (BuildIndex.insert_marks BuildIndex.OrIgnore (Backend.marks con) a);
    reflexivity.
Qed.

Lemma insert_batch_nil (con : Backend.database) : BuildIndex.insert_batch con [] = Py.Ok con.
Proof. destruct con; reflexivity. Qed.

Lemma batch_marks_written (ts : list BuildIndex.mark_tuple) :
  forall (batch : list BuildIndex.mark_tuple) (con : Backend.database),
    (length batch < 5000)%nat ->
    exists (written left : list BuildIndex.mark_tuple) (con' : Backend.database) (k : nat),
      BuildIndex.batch_marks batch ts con = (con', Py.Ok left)
      /\ (batch ++ ts = written ++ left)%list
      /\ BuildIndex.insert_batch con written = Py.Ok con'
      /\ (length left < 5000)%nat
      /\ length written = (5000 * k)%nat.
Proof.
  induction ts as [|t ts IH]; intros batch con Hb; cbn [BuildIndex.batch_marks].
  - exists [], batch, con, 0%nat. rewrite app_nil_r, insert_batch_nil, Nat.mul_0_r.
    repeat split. exact Hb.
  - destruct (Nat.leb_spec 5000 (length (batch ++ [t]))) as [L|L].
    + unfold BuildIndex.seq, BuildIndex.update.
      destruct (insert_batch_ok con (batch ++ [t])) as [con1 E1]. rewrite E1.
      assert (H0 : (length (@nil BuildIndex.mark_tuple) < 5000)%nat)
        by (apply Nat.lt_0_succ).
      destruct (IH [] con1 H0) as (written & left & con' & k & E & A & I & Ll & Lw).
      exists ((batch ++ [t]) ++ written)%list, left, con', (S k).
      split; [exact E|]. split.
      * cbn [app] in A. rewrite A, <- !app_assoc. reflexivity.
      * split; [rewrite insert_batch_app, E1; exact I|]. split; [exact Ll|].
        rewrite length_app, Lw. rewrite length_app in L |- *. cbn [length] in L |- *.
        rewrite Nat.mul_succ_r. lia.
    + destruct (IH (batch ++ [t])%list con L) as (written & left & con' & k & E & A & I & R).
      exists written, left, con', k. split; [exact E|]. split; [|split; [exact I|exact R]].
      rewrite <- A, <- app_assoc. reflexivity.
Qed.

Lemma written_prefix (ts written left : list BuildIndex.mark_tuple) (k : nat) :
  ts = (written ++ left)%list -> (length left < 5000)%nat -> length written = (5000 * k)%nat ->
  written = firstn (5000 * (length ts / 5000)) ts.
Proof.
  intros E Ll Lw.
  assert (K : k = (length ts / 5000)%nat).
  { apply (Nat.div_unique (length ts) 5000 k (length left)); [exact Ll|].
    rewrite E, length_app, Lw. reflexivity. }
  rewrite <- K, <- Lw, E. rewrite firstn_app, Nat.sub_diag, firstn_all.
  cbn [firstn]. rewrite app_nil_r. reflexivity.
Qed.

Lemma flush_marks_insert (batch : list BuildIndex.mark_tuple) (con con' : Backend.database) :
  BuildIndex.insert_batch con batch = Py.Ok con' ->
  BuildIndex.flush_marks batch con = (con', Py.Ok tt).
Proof.
  intros E. destruct batch as [|t batch].
  - rewrite insert_batch_nil in E. injection E as ->. reflexivity.
  - unfold BuildIndex.flush_marks, BuildIndex.update. rewrite E. reflexivity.
Qed.


(** ** What every index built by [main] satisfies *)

Lemma fold_max_seq (n : nat) :
  forall a : nat,
    fold_right Z.max 0 (map Z.of_nat (seq a n))
    = match n with
      | O => 0
      | S m => Z.of_nat (a + m)
      end.
Proof.
  induction n as [|n IH]; intros a; [reflexivity|].
  cbn [seq map fold_right]. rewrite IH. destruct n as [|m]; lia.
Qed.

Lemma next_rowid_seq (n : nat) :
  BuildIndex.next_rowid (map Z.of_nat (seq 1 n)) = Z.of_nat (S n).
Proof.
  unfold BuildIndex.next_rowid. rewrite fold_max_seq. destruct n; lia.
Qed.

Lemma seq_snoc (n : nat) : seq 1 (S n) = (seq 1 n ++ [S n])%list.
Proof. rewrite seq_S. reflexivity. Qed.

Lemma existsb_reg_no (tbl : list Backend.mark_row) (k : string) :
  existsb (fun r => Backend.sql_eq (Backend.m_reg_no r) k) tbl = false ->
  ~ In (Some k) (map Backend.m_reg_no tbl).
Proof.
  intros E H. apply in_map_iff in H as (r & Hr & Hin).
  assert (X : existsb (fun r => Backend.sql_eq (Backend.m_reg_no r) k) tbl = true).
  { apply existsb_exists. exists r. split; [exact Hin|].
    rewrite Hr. cbn. apply String.eqb_refl. }
  rewrite X in E. discriminate E.
Qed.

Lemma insert_mark_keeps (tbl tbl' : list Backend.mark_row) (t : BuildIndex.mark_tuple) :
  marks_ok tbl -> tuple_ok t ->
  BuildIndex.insert_mark BuildIndex.OrIgnore tbl t = Py.Ok tbl' -> marks_ok tbl'.
Proof.
  intros (N & I & F) Q. unfold BuildIndex.insert_mark.
  destruct (existsb _ tbl) eqn:E; intros H; injection H as <-; [repeat split; assumption|].
  split; [|split].
  - rewrite map_app. apply NoDup_app; [exact N|constructor; [intros []|constructor]|].
    intros x Hx [Hy|[]]. subst x. exact (existsb_reg_no _ _ E Hx).
  - rewrite map_app, length_app, I. cbn [length map Backend.m_id BuildIndex.mark_row_of].
    rewrite Nat.add_1_r, seq_snoc, map_app, next_rowid_seq. reflexivity.
  - apply Forall_app. split; [exact F|]. constructor; [|constructor].
    split; [discriminate|]. cbn. rewrite Q. reflexivity.
Qed.

Lemma insert_marks_keeps (ts : list BuildIndex.mark_tuple) :
  forall tbl tbl' : list Backend.mark_row,
    marks_ok tbl -> Forall tuple_ok ts ->
    BuildIndex.insert_marks BuildIndex.OrIgnore tbl ts = Py.Ok tbl' -> marks_ok tbl'.
Proof.
  induction ts as [|t ts IH]; intros tbl tbl' M F; cbn [BuildIndex.insert_marks].
  - intros H; injection H as <-. exact M.
  - inversion F as [|? ? Ft Fts]; subst.
    destruct (BuildIndex.insert_mark BuildIndex.OrIgnore tbl t) as [tbl1|e] eqn:E;
      [|discriminate].
    apply IH; [exact (insert_mark_keeps _ _ _ M Ft E)|exact Fts].
Qed.

Lemma insert_batch_keeps (con con' : Backend.database) (batch : list BuildIndex.mark_tuple) :
  index_ok con -> Forall tuple_ok batch ->
  BuildIndex.insert_batch con batch = Py.Ok con' -> index_ok con'.
Proof.
  intros [M P] F. unfold BuildIndex.insert_batch.
  destruct (BuildIndex.insert_marks _ _ _) as [tbl|e] eqn:E; [|discriminate].
  intros H; injection H as <-. split; [exact (insert_marks_keeps _ _ _ M F E)|exact P].
Qed.

Lemma tuple_ok_row (path : string) (headers row : list string) :
  tuple_ok (BuildIndex.mark_tuple_of_row path headers row).
Proof. reflexivity. Qed.

Lemma tuple_ok_elem (path : string) (elem : BuildIndex.trademark_elem) :
  tuple_ok (BuildIndex.mark_tuple_of_elem path elem).
Proof. reflexivity. Qed.

Lemma Forall_map_intro {A B : Type} (P : B -> Prop) (f : A -> B) (l : list A) :
  (forall x, P (f x)) -> Forall P (map f l).
Proof. intros H. induction l; constructor; auto. Qed.

Lemma Forall_prefix {A : Type} (P : A -> Prop) (n : nat) (l : list A) :
  Forall P l -> Forall P (firstn n l).
Proof.
  intros F. apply Forall_forall. intros x Hx.
  rewrite Forall_forall in F. apply F. exact (in_firstn _ _ _ Hx).
Qed.

Lemma ingest_journal_xml_one_batch (f : BuildIndex.xml_file) (con : Backend.database) :
  exists con' : Backend.database,
    BuildIndex.insert_batch con
      (map (BuildIndex.mark_tuple_of_elem (BuildIndex.xml_path f))
         (BuildIndex.xml_elems f)) = Py.Ok con'
    /\ BuildIndex.ingest_journal_xml f con = (con', Py.Ok tt).
Proof.
  unfold BuildIndex.ingest_journal_xml, BuildIndex.seq.
  destruct (batch_marks_written
              (map (BuildIndex.mark_tuple_of_elem (BuildIndex.xml_path f))
                 (BuildIndex.xml_elems f)) [] con (Nat.lt_0_succ _))
    as (written & left & con1 & k & E & A & I & _).
  rewrite E. cbn [app] in A. rewrite A, insert_batch_app, I.
  destruct (insert_batch_ok con1 left) as [con' E']. exists con'.
  split; [exact E'|apply flush_marks_insert, E'].
Qed.

Lemma ingest_file_batches (f : BuildIndex.txt_file) (con : Backend.database)
    (headers : list string) (rows : list (list string)) (out : Py.outcome unit) :
  BuildIndex.read_rows f = (headers :: rows, out) ->
  exists con' : Backend.database,
    BuildIndex.insert_batch con
      (match out with
       | Py.Ok _ => map (BuildIndex.mark_tuple_of_row (BuildIndex.txt_path f) headers) rows
       | Py.Raised _ =>
           firstn (5000 * (length (map (BuildIndex.mark_tuple_of_row
                                          (BuildIndex.txt_path f) headers) rows) / 5000))
             (map (BuildIndex.mark_tuple_of_row (BuildIndex.txt_path f) headers) rows)
       end) = Py.Ok con'
    /\ BuildIndex.ingest_file f con = (con', out).
Proof.
  intros R. unfold BuildIndex.ingest_file. rewrite R.
  unfold BuildIndex.seq, BuildIndex.lift.
  destruct (batch_marks_written
              (map (BuildIndex.mark_tuple_of_row (BuildIndex.txt_path f) headers) rows)
              [] con (Nat.lt_0_succ _))
    as (written & left & con1 & k & E & A & I & Ll & Lw).
  rewrite E. cbn [app] in A. destruct out as [[]|e].
  - rewrite A, insert_batch_app, I.
    destruct (insert_batch_ok con1 left) as [con' E']. exists con'.
    split; [exact E'|apply flush_marks_insert, E'].
  - exists con1. rewrite <- (written_prefix _ _ _ _ A Ll Lw). split; [exact I|reflexivity].
Qed.

Lemma ingest_file_keeps (f : BuildIndex.txt_file) (con : Backend.database) :
  index_ok con -> index_ok (fst (BuildIndex.ingest_file f con)).
Proof.
  intros K. destruct (BuildIndex.read_rows f) as [yielded out] eqn:R.
  destruct yielded as [|headers rows].
  - unfold BuildIndex.ingest_file. rewrite R. exact K.
  - destruct (ingest_file_batches f con headers rows out R) as (con' & I & E).
    rewrite E. cbn [fst]. apply (insert_batch_keeps _ _ _ K) in I; [exact I|].
    destruct out; [|apply Forall_prefix]; apply Forall_map_intro; intros x; apply tuple_ok_row.
Qed.

Lemma ingest_journal_xml_keeps (f : BuildIndex.xml_file) (con : Backend.database) :
  index_ok con -> index_ok (fst (BuildIndex.ingest_journal_xml f con)).
Proof.
  intros K. destruct (ingest_journal_xml_one_batch f con) as (con' & I & E).
  rewrite E. cbn [fst]. apply (insert_batch_keeps _ _ _ K) in I; [exact I|].
  apply Forall_map_intro; intros x; apply tuple_ok_elem.
Qed.

(** *** The table [patents] *)

Lemma insert_patents_nil (con : Backend.database) : BuildIndex.insert_patents con [] = con.
Proof. destruct con; reflexivity. Qed.

Lemma insert_patents_app (con : Backend.database) (a b : list BuildIndex.patent_tuple) :
  BuildIndex.insert_patents (BuildIndex.insert_patents con a) b
  = BuildIndex.insert_patents con (a ++ b).
Proof.
  unfold BuildIndex.insert_patents. cbn [Backend.marks Backend.patents].
  rewrite fold_left_app. reflexivity.
Qed.

Lemma insert_patents_rows (batch : list BuildIndex.patent_tuple) :
  forall con : Backend.database,
    Backend.marks (BuildIndex.insert_patents con batch) = Backend.marks con
    /\ exists added : list Backend.patent_row,
         Backend.patents (BuildIndex.insert_patents con batch)
         = (Backend.patents con ++ added)%list
         /\ length added = length batch
         /\ (patents_ok (Backend.patents con) ->
             patents_ok (Backend.patents con ++ added)).
Proof.
  unfold BuildIndex.insert_patents. cbn [Backend.marks Backend.patents].
  intros con. split; [reflexivity|]. generalize (Backend.patents con). clear con.
  induction batch as [|u batch IH]; intros tbl.
  - exists []. rewrite app_nil_r. repeat split; auto.
  - cbn [fold_left].
    destruct (IH (tbl ++ [BuildIndex.patent_row_of
                            (BuildIndex.next_rowid (map Backend.p_id tbl)) u])%list)
      as (added & E & L & K).
    exists (BuildIndex.patent_row_of (BuildIndex.next_rowid (map Backend.p_id tbl)) u
            :: added).
    split; [rewrite E, <- app_assoc; reflexivity|]. split; [cbn; rewrite L; reflexivity|].
    intros P.
    change (tbl ++ BuildIndex.patent_row_of (BuildIndex.next_rowid (map Backend.p_id tbl)) u
                   :: added)%list
      with (tbl ++ [BuildIndex.patent_row_of (BuildIndex.next_rowid (map Backend.p_id tbl)) u]
                ++ added)%list.
    rewrite app_assoc. apply K. unfold patents_ok in *.
    rewrite map_app, length_app, P. cbn [length map Backend.p_id BuildIndex.patent_row_of].
    rewrite Nat.add_1_r, seq_snoc, map_app, next_rowid_seq. reflexivity.
Qed.

Lemma insert_patents_keeps (con : Backend.database) (batch : list BuildIndex.patent_tuple) :
  index_ok con -> index_ok (BuildIndex.insert_patents con batch).
Proof.
  intros [M P]. destruct (insert_patents_rows batch con) as (Em & added & Ep & _ & K).
  split; [rewrite Em; exact M|rewrite Ep; exact (K P)].
Qed.

Lemma excel_date_to_iso_raises (s : option string) (e : Py.exn) :
  BuildIndex.excel_date_to_iso s = Py.Raised e -> e = Py.OverflowError.
Proof.
  unfold BuildIndex.excel_date_to_iso.
  destruct (negb _ || _); [discriminate|].
  destruct (Py.float_of_str _) as [val|]; [|discriminate].
  destruct (Py.fle val _); [discriminate|].
  destruct val as [sg| sg | |sg m ex]; cbn [Py.int_of_float]; try discriminate.
  - intros H; injection H as <-. reflexivity.
  - unfold Py.date_add_days. destruct (_ || _).
    + intros H; injection H as <-. reflexivity.
    + destruct (_ && _); [discriminate|]. intros H; injection H as <-. reflexivity.
Qed.

Lemma patent_tuple_of_row_raises (path : string) (headers row : list string) (e : Py.exn) :
  BuildIndex.patent_tuple_of_row path headers row = Py.Raised e -> e = Py.OverflowError.
Proof.
  unfold BuildIndex.patent_tuple_of_row. cbv zeta.
  repeat match goal with
         | |- Py.bind ?x _ = _ -> _ =>
             let E := fresh "E" in
             destruct x eqn:E; cbn [Py.bind];
             [|intros H; injection H as <-; exact (excel_date_to_iso_raises _ _ E)]
         end.
  discriminate.
Qed.

Lemma batch_patents_written (path : string) (headers : list string)
    (rows : list (list string)) :
  forall (batch : list BuildIndex.patent_tuple) (con con' : Backend.database)
         (out : Py.outcome (list BuildIndex.patent_tuple)),
    BuildIndex.batch_patents path headers batch rows con = (con', out) ->
    exists written : list BuildIndex.patent_tuple,
      con' = BuildIndex.insert_patents con written
      /\ match out with
         | Py.Ok rest =>
             exists us : list BuildIndex.patent_tuple,
               Forall2 (fun row u => BuildIndex.patent_tuple_of_row path headers row = Py.Ok u)
                 (filter nonempty_row rows) us
               /\ (batch ++ us = written ++ rest)%list
         | Py.Raised e => e = Py.OverflowError
         end.
Proof.
  induction rows as [|row rows IH]; intros batch con con' out;
    cbn [BuildIndex.batch_patents].
  - intros H; injection H as <- <-. exists []. rewrite insert_patents_nil.
    split; [reflexivity|]. exists []. split; [constructor|].
    rewrite app_nil_r. reflexivity.
  - destruct row as [|c row]; [exact (IH batch con con' out)|].
    cbn [filter nonempty_row]. unfold BuildIndex.seq at 1, BuildIndex.lift.
    destruct (BuildIndex.patent_tuple_of_row path headers (c :: row)) as [u|e] eqn:T.
    + cbv zeta. destruct (5000 <=? length (batch ++ [u]))%nat.
      * unfold BuildIndex.seq, BuildIndex.update. intros H.
        destruct (IH _ _ _ _ H) as (written & E & S).
        exists ((batch ++ [u]) ++ written)%list.
        split; [rewrite E; apply insert_patents_app|].
        destruct out as [rest|e]; [|exact S]. destruct S as (us & F & A).
        exists (u :: us). split; [constructor; [exact T|exact F]|].
        cbn [app] in A. rewrite <- !app_assoc, <- A. reflexivity.
      * intros H. destruct (IH _ _ _ _ H) as (written & E & S).
        exists written. split; [exact E|].
        destruct out as [rest|e]; [|exact S].
        destruct S as (us & F & A). exists (u :: us).
        split; [constructor; [exact T|exact F]|]. rewrite <- A, <- app_assoc. reflexivity.
    + intros H; injection H as <- <-. exists []. rewrite insert_patents_nil.
      split; [reflexivity|]. exact (patent_tuple_of_row_raises _ _ _ _ T).
Qed.

Lemma ingest_patents_written (f : BuildIndex.xlsx_file) (con : Backend.database) :
  exists written : list BuildIndex.patent_tuple,
    fst (BuildIndex.ingest_patents f con) = BuildIndex.insert_patents con written
    /\ match snd (BuildIndex.ingest_patents f con) with
       | Py.Ok _ =>
           length written = length (filter nonempty_row (tl (BuildIndex.xlsx_rows f)))
       | Py.Raised e => e = Py.OverflowError
       end.
Proof.
  unfold BuildIndex.ingest_patents.
  destruct (BuildIndex.xlsx_rows f) as [|headers rows].
  - exists []. rewrite insert_patents_nil. split; reflexivity.
  - cbn [tl]. unfold BuildIndex.seq.
    destruct (BuildIndex.batch_patents (BuildIndex.xlsx_path f) headers [] rows con)
      as [con1 out] eqn:B.
    destruct (batch_patents_written _ _ _ _ _ _ _ B) as (written & E & S).
    destruct out as [left|e].
    + destruct S as (us & F & A). cbn [app] in A. exists us.
      assert (L : length us = length (filter nonempty_row rows))
        by (symmetry; exact (Forall2_length F)).
      destruct left as [|u left].
      * rewrite app_nil_r in A. subst us. cbn [BuildIndex.ret fst snd].
        split; [exact E|exact L].
      * unfold BuildIndex.update. cbn [fst snd]. split; [|exact L].
        rewrite E, insert_patents_app, A. reflexivity.
    + exists written. cbn [fst snd]. split; [exact E|exact S].
Qed.

Lemma ingest_patents_keeps (f : BuildIndex.xlsx_file) (con : Backend.database) :
  index_ok con -> index_ok (fst (BuildIndex.ingest_patents f con)).
Proof.
  intros K. destruct (ingest_patents_written f con) as (written & E & _).
  rewrite E. apply insert_patents_keeps, K.
Qed.

Lemma for_each_keeps {A : Type} (body : A -> BuildIndex.proc unit) (xs : list A) :
  (forall x con, index_ok con -> index_ok (fst (body x con))) ->
  forall con, index_ok con -> index_ok (fst (BuildIndex.for_each body xs con)).
Proof.
  intros B. induction xs as [|x xs IH]; intros con K; [exact K|].
  cbn [BuildIndex.for_each]. unfold BuildIndex.seq.
  specialize (B x con K). destruct (body x con) as [con1 [[]|e]]; cbn [fst] in B |- *.
  - apply IH, B.
  - exact B.
Qed.

Lemma empty_index_ok : index_ok empty_index.
Proof.
  split; [split; [constructor|split; [reflexivity|constructor]]|reflexivity].
Qed.

Lemma main_keeps (files : list BuildIndex.txt_file) (xlsx_files : list BuildIndex.xlsx_file)
    (xml_files : list BuildIndex.xml_file) :
  index_ok (fst (BuildIndex.main empty_index files xlsx_files xml_files)).
Proof.
  assert (R : index_ok
                (fst (BuildIndex.seq (BuildIndex.for_each BuildIndex.ingest_file files)
                        (fun _ =>
                           BuildIndex.seq
                             (BuildIndex.for_each BuildIndex.ingest_patents xlsx_files)
                             (fun _ =>
                                BuildIndex.for_each BuildIndex.ingest_journal_xml xml_files))
                        (Backend.mk_database [] [])))).
  { unfold BuildIndex.seq.
    pose proof (for_each_keeps BuildIndex.ingest_file files ingest_file_keeps
                  _ empty_index_ok) as K1.
    unfold empty_index in K1.
    destruct (BuildIndex.for_each BuildIndex.ingest_file files (Backend.mk_database [] []))
      as [con1 [[]|e]]; cbn [fst] in K1 |- *; [|exact K1].
    pose proof (for_each_keeps BuildIndex.ingest_patents xlsx_files ingest_patents_keeps
                  _ K1) as K2.
    destruct (BuildIndex.for_each BuildIndex.ingest_patents xlsx_files con1)
      as [con2 [[]|e]]; cbn [fst] in K2 |- *; [|exact K2].
    exact (for_each_keeps BuildIndex.ingest_journal_xml xml_files ingest_journal_xml_keeps
             _ K2). }
  unfold BuildIndex.main.
  destruct files; [destruct xlsx_files; [destruct xml_files; [exact empty_index_ok|]|]|];
    exact R.
Qed.

(** X20.  With no data file [main] leaves the index as it is.  With any
    file the old index plays no part in the new one, and whether the run
    ends normally or is aborted by an exception, the index it leaves has
    no two marks with the same [reg_no], no mark without one, the keys
    1, 2, ... in row order in both tables, and for every mark a
    [mark_text_norm] that is the normalized [mark_text]. *)
Theorem main_index_invariants (old : Backend.database)
    (files : list BuildIndex.txt_file) (xlsx_files : list BuildIndex.xlsx_file)
    (xml_files : list BuildIndex.xml_file) :
  BuildIndex.main old [] [] [] = (old, Py.Ok tt)
  /\ ((files = [] /\ xlsx_files = [] /\ xml_files = [])
      \/ BuildIndex.main old files xlsx_files xml_files
         = BuildIndex.main empty_index files xlsx_files xml_files)
  /\ marks_ok (Backend.marks (fst (BuildIndex.main empty_index files xlsx_files xml_files)))
  /\ patents_ok
       (Backend.patents (fst (BuildIndex.main empty_index files xlsx_files xml_files))).
Proof.
  split; [reflexivity|]. split.
  - destruct files; [destruct xlsx_files; [destruct xml_files; [left; auto|]|]|];
      right; reflexivity.
  - exact (main_keeps files xlsx_files xml_files).
Qed.

(** ** An exact match on an index built by [main] *)








(** ** Rows of a spreadsheet *)


(** ** Class codes, written and read back *)











Example class_codes_round_trip_example :
  Backend.ms_class_codes
    (Backend.summarize_mark (Py.mkdate 2026 1 1)
       (BuildIndex.mark_row_of 1
          (BuildIndex.mark_tuple_of_row "f.txt"
             ["Trade Mark"; "Mark Text"; "Class09"; "Class25"; "Class 41"; "Classes"]
             ["UK1"; "Acme"; "Yes"; "No"; "1"; "x"]))
       "acme")
  = ["9"; "41"].
Proof. reflexivity. Qed.

(** ** Rows of a worksheet *)

Lemma row_get_set (row : list (Z * string)) (idx i : Z) (val : string) :
  BuildIndex.row_get (BuildIndex.row_set row idx val) i
  = if idx =? i then Some val else BuildIndex.row_get row i.
Proof.
  induction row as [|[j v] row IH]; cbn [BuildIndex.row_set BuildIndex.row_get].
  - destruct (idx =? i); reflexivity.
  - destruct (Z.eqb_spec j idx) as [E|E]; cbn [BuildIndex.row_get].
    + subst j. destruct (idx =? i); reflexivity.
    + rewrite IH. destruct (Z.eqb_spec j i) as [E'|E']; [|reflexivity].
      subst j. destruct (Z.eqb_spec idx i) as [E2|_]; [|reflexivity].
      contradiction E. symmetry. exact E2.
Qed.

Lemma find_snoc {A : Type} (p : A -> bool) (l : list A) (x : A) :
  find p (l ++ [x]) = match find p l with
                      | Some y => Some y
                      | None => if p x then Some x else None
                      end.
Proof.
  induction l as [|y l IH]; cbn [app find]; [reflexivity|].
  destruct (p y); [reflexivity|exact IH].
Qed.

Lemma row_of_cells_get (shared : list string) (cells : list BuildIndex.xlsx_cell) (i : Z) :
  forall row0 : list (Z * string),
    BuildIndex.row_get
      (fold_left
         (fun row c =>
            let col_letters := Py.filter_chars Py.isalpha (Py.or_empty (BuildIndex.c_r c)) in
            if negb (Py.truthy col_letters) then row
            else BuildIndex.row_set row (BuildIndex.col_to_index col_letters)
                   (BuildIndex.cell_value shared c))
         cells row0) i
    = match find (placed_at i) (rev cells) with
      | Some c => Some (BuildIndex.cell_value shared c)
      | None => BuildIndex.row_get row0 i
      end.
Proof.
  induction cells as [|c cells IH]; intros row0; [reflexivity|].
  cbn [fold_left rev]. rewrite IH, find_snoc.
  destruct (find (placed_at i) (rev cells)); [reflexivity|].
  unfold placed_at, col_letters. cbv zeta.
  destruct (Py.truthy (Py.filter_chars Py.isalpha (Py.or_empty (BuildIndex.c_r c))));
    cbn [negb andb]; [|reflexivity].
  rewrite row_get_set. destruct (_ =? i); reflexivity.
Qed.

Lemma row_get_bound (row : list (Z * string)) (i m : Z) :
  Forall (fun kv => fst kv <= m) row -> m < i -> BuildIndex.row_get row i = None.
Proof.
  induction row as [|[j v] row IH]; intros F H; [reflexivity|].
  inversion F as [|? ? Hj Fr]; subst. cbn [BuildIndex.row_get fst] in *.
  destruct (Z.eqb_spec j i); [lia|]. exact (IH Fr H).
Qed.

Lemma fold_max_bound (l : list Z) :
  forall a : Z, a <= fold_left Z.max l a /\ Forall (fun x => x <= fold_left Z.max l a) l.
Proof.
  induction l as [|x l IH]; intros a; cbn [fold_left]; [split; [lia|constructor]|].
  destruct (IH (Z.max a x)) as [I1 I2]. split; [lia|].
  constructor; [lia|exact I2].
Qed.

Lemma nth_map_seq (f : nat -> string) (n i : nat) :
  nth i (map f (seq 0 n)) "" = if (i <? n)%nat then f i else "".
Proof.
  destruct (Nat.ltb_spec i n) as [H|H].
  - rewrite (nth_indep _ "" (f 0%nat)) by (rewrite length_map, length_seq; exact H).
    rewrite map_nth, seq_nth by exact H. reflexivity.
  - apply nth_overflow. rewrite length_map, length_seq. exact H.
Qed.

(** X24.  In the list [read_xlsx_rows] yields for a row of the sheet, the
    value at a column is that of the last cell of the row whose reference
    names the column, and the empty text when there is none: cells may
    come in any order, a later cell replaces an earlier one of the same
    column, and a cell whose reference has no letter, or only letters that
    are not capitals A-Z, appears nowhere.  The list ends with the last
    column that has a cell. *)
Theorem xlsx_row_cells (shared : list string) (cells : list BuildIndex.xlsx_cell) :
  (forall i : nat,
      nth i (BuildIndex.xlsx_row shared cells) ""
      = match find (placed_at (Z.of_nat i)) (rev cells) with
        | Some c => BuildIndex.cell_value shared c
        | None => ""
        end)
  /\ (forall i : nat,
         (length (BuildIndex.xlsx_row shared cells) <= i)%nat ->
         existsb (placed_at (Z.of_nat i)) cells = false)
  /\ (BuildIndex.xlsx_row shared cells <> [] ->
      existsb (placed_at (Z.of_nat (length (BuildIndex.xlsx_row shared cells)) - 1)) cells
      = true).
Proof.
  unfold BuildIndex.xlsx_row, BuildIndex.row_of_cells. cbv zeta.
  set (row := fold_left _ cells []).
  assert (G : forall i : Z,
             BuildIndex.row_get row i
             = match find (placed_at i) (rev cells) with
               | Some c => Some (BuildIndex.cell_value shared c)
               | None => None
               end).
  { intros i. unfold row. rewrite row_of_cells_get. reflexivity. }
  set (max_idx := match row with
                  | [] => -1
                  | (i, _) :: row' => fold_left Z.max (map fst row') i
                  end).
  assert (B : forall i : Z, max_idx < i -> BuildIndex.row_get row i = None).
  { intros i H. apply (row_get_bound row i max_idx); [|exact H].
    unfold max_idx. destruct row as [|[j v] row']; [constructor|].
    destruct (fold_max_bound (map fst row') j) as [B1 B2].
    constructor; [exact B1|]. apply Forall_forall. intros kv Hkv.
    rewrite Forall_forall in B2. apply B2, in_map, Hkv. }
  assert (T : row <> [] -> BuildIndex.row_get row max_idx <> None).
  { unfold max_idx. destruct row as [|[j v] row']; [intros H; contradiction|]. intros _.
    clear G B max_idx.
    assert (X : forall (l : list (Z * string)) (a : Z),
               fold_left Z.max (map fst l) a = a
               \/ In (fold_left Z.max (map fst l) a) (map fst l)).
    { induction l as [|[k w] l IHl]; intros a; cbn [map fold_left fst]; [left; reflexivity|].
      destruct (IHl (Z.max a k)) as [E|E].
      - rewrite E. destruct (Z.max_spec a k) as [[_ M]|[_ M]]; rewrite M;
          [right; left; reflexivity|left; reflexivity].
      - right. right. exact E. }
    assert (Y : forall (l : list (Z * string)) (k : Z),
               In k (map fst l) -> BuildIndex.row_get l k <> None).
    { induction l as [|[k' w] l IHl]; intros k Hk; [destruct Hk|].
      cbn [BuildIndex.row_get]. destruct (Z.eqb_spec k' k); [discriminate|].
      apply IHl. destruct Hk as [Hk|Hk]; [contradiction|exact Hk]. }
    apply Y. destruct (X row' j) as [E|E]; [left; symmetry; exact E|right; exact E]. }
  assert (NE : forall i : Z, existsb (placed_at i) cells = false <->
                             find (placed_at i) (rev cells) = None).
  { intros i. split; intros H.
    - destruct (find (placed_at i) (rev cells)) as [c|] eqn:Fd; [|reflexivity].
      apply find_some in Fd as [Hin Hp]. apply in_rev in Hin.
      assert (Ex : existsb (placed_at i) cells = true)
        by (apply existsb_exists; exists c; split; assumption).
      rewrite Ex in H. discriminate H.
    - destruct (existsb (placed_at i) cells) eqn:Ex; [|reflexivity].
      apply existsb_exists in Ex as (c & Hin & Hp).
      apply in_rev in Hin. rewrite (find_none _ _ H c Hin) in Hp. discriminate Hp. }
  split; [|split].
  - intros i. rewrite nth_map_seq.
    destruct (Nat.ltb_spec i (Z.to_nat (max_idx + 1))) as [H|H].
    + rewrite G. destruct (find _ _); reflexivity.
    + assert (E : BuildIndex.row_get row (Z.of_nat i) = None) by (apply B; lia).
      rewrite G in E. destruct (find _ _); [discriminate E|reflexivity].
  - intros i H. rewrite length_map, length_seq in H. apply NE.
    assert (E : BuildIndex.row_get row (Z.of_nat i) = None) by (apply B; lia).
    rewrite G in E. destruct (find _ _); [discriminate E|reflexivity].
  - rewrite length_map, length_seq. intros N.
    assert (P : 0 <= max_idx).
    { destruct (Z.to_nat (max_idx + 1)) eqn:E; [contradiction N; reflexivity|]. lia. }
    assert (R : row <> []).
    { intros E. unfold max_idx in P. rewrite E in P. lia. }
    specialize (T R). rewrite G in T.
    replace (Z.of_nat (Z.to_nat (max_idx + 1)) - 1) with max_idx by lia.
    destruct (existsb (placed_at max_idx) cells) eqn:Ex; [reflexivity|].
    apply NE in Ex. rewrite Ex in T. contradiction T. reflexivity.
Qed.

Example xlsx_row_example :
  BuildIndex.xlsx_row ["Applicant name"; "Acme"]
    [BuildIndex.mk_xlsx_cell (Some "C1") None (Some (Some "late"));
     BuildIndex.mk_xlsx_cell (Some "A1") (Some "s") (Some (Some "1"));
     BuildIndex.mk_xlsx_cell (Some "a1") None (Some (Some "lower case"));
     BuildIndex.mk_xlsx_cell (Some "C1") (Some "s") (Some (Some "7"));
     BuildIndex.mk_xlsx_cell None None (Some (Some "no reference"))]
  = ["Acme"; ""; ""].
Proof. reflexivity. Qed.

(** ** Marks read from a journal *)

Lemma take_length (n : nat) (s : string) : (String.length (Py.take n s) <= n)%nat.
Proof.
  revert s. induction n as [|n IH]; intros s; [apply Nat.le_0_l|].
  destruct s as [|c s]; [apply Nat.le_0_l|]. cbn [Py.take String.length].
  apply le_n_S, IH.
Qed.

Lemma normalize_country_region (reg_no office_code : string) :
  In (BuildIndex.normalize_country_from_office reg_no office_code) taxonomy.
Proof.
  unfold BuildIndex.normalize_country_from_office, taxonomy.
  repeat match goal with
         | |- context [if ?b then _ else _] => destruct b
         end; cbn; auto.
Qed.

(** X25.  A mark that [ingest_journal_xml] wrote is reported by
    [summarize_mark] as active on every date: its status is "Published"
    and it has no expiry date.  Its country is one of the four regions of
    the taxonomy, its registration date is empty, and its description of
    goods and services has at most 4000 characters. *)
Theorem journal_mark_always_active (today : Py.date) (id : Z) (path term : string)
    (elem : BuildIndex.trademark_elem) :
  let m :=
    Backend.summarize_mark today
      (BuildIndex.mark_row_of id (BuildIndex.mark_tuple_of_elem path elem)) term in
  Backend.ms_active m = true
  /\ Backend.ms_status m = Some "Published"
  /\ Backend.ms_expired m = ""
  /\ Backend.ms_registered m = ""
  /\ (exists c : string, Backend.ms_country m = Some c /\ In c taxonomy)
  /\ (exists g : string,
         Backend.ms_goods_services m = Some g /\ (String.length g <= 4000)%nat).
Proof.
  cbv zeta. split; [reflexivity|]. split; [reflexivity|]. split; [reflexivity|].
  split; [reflexivity|]. split.
  - eexists. split; [reflexivity|]. apply normalize_country_region.
  - eexists. split; [reflexivity|]. apply take_length.
Qed.
